(** * The MultiScanner celery worker (multiscanner/distributed/celery_worker.py)

    A shallow embedding of the worker's task functions and of the two
    lifecycle callbacks of [MultiScannerTask], followed by the properties
    of the job dispatcher, the lifecycle tracker and the periodic
    scheduler that the specification states about them.

    Python dictionaries are objects of a heap: a dictionary value is a
    reference, so installing the caller's [metadata] in a report and writing
    to it through the report is visible through every other reference.
    The external collaborators (scan engine, storage handler, task
    database, clock, host name) are the fields of an environment record;
    every call made on them is recorded, in order, in the list of events
    of the state. *)

From Stdlib Require Import ZArith DecimalString.
From stdpp Require Import gmap strings list fin_maps.

Open Scope Z_scope.
Open Scope string_scope.

(** ** Python values *)

Definition loc := positive.

(** [VRef l] is a reference to the dictionary stored at [l]. [VObj n] is an
    object the worker only passes around (the module-level configuration
    object given as a keyword argument of a periodic task). *)
Inductive val :=
  | VNone
  | VBool (b : bool)
  | VInt (z : Z)
  | VStr (s : string)
  | VRef (l : loc)
  | VObj (name : string).

#[global] Instance val_eq_dec : EqDecision val.
Proof. solve_decision. Defined.

(** A dictionary is a [gmap string val]; the heap maps locations to
    dictionaries. *)

(** A scan configuration: section name to options. The worker only reads it. *)
Abbreviation conf := (gmap string (gmap string val)).

Inductive exn :=
  | KeyError (key : string)
  | TypeError
  | ValueError (msg : string)
  | NameError (msg : string)
  | UnboundLocalError (name : string)
  | EngineError (detail : string).

#[global] Instance exn_eq_dec : EqDecision exn.
Proof. solve_decision. Defined.

Inductive result (A : Type) :=
  | Ok (a : A)
  | Raise (e : exn).
Arguments Ok {A} a.
Arguments Raise {A} e.

(** ** Calls on the collaborators *)

Inductive level := DEBUG | INFO | WARNING | ERROR.

Inductive log_arg :=
  | LVal (v : val)
  | LStr (s : string)
  | LExn (e : exn).

(** Storage handlers loaded by [storage.StorageHandler]. *)
Inductive handler :=
  | ElasticSearchStorage (name : string)
  | OtherStorage (name : string).

Inductive event :=
  | EvLog (lv : level) (template : string) (args : list log_arg)
  | EvStorageOpen
  | EvStorageClose
  | EvScan (files : list string) (cfg : conf) (module_list : option (list string))
  | EvStore (results : val) (storage_ids : list val)
  | EvDbInit
  | EvUpdateTask (task_id : val) (task_status : string) (timestamp : val)
  | EvSsdeepCompare
  | EvDeleteIndex (h : handler) (index_prefix : string) (days : val).

Record env := mkEnv {
  (** [msconf.MS_CONFIG] *)
  MS_CONFIG : conf;
  (** the [ElasticSearchStorage] section of the storage configuration *)
  es_storage_config : gmap string val;
  gethostname : string;
  (** [datetime.now().isoformat()] at the k-th reading of the clock *)
  now : nat -> string;
  (** [parse_reports(multiscan(files, config, module_list), python=True)]:
      the reports by file, or the engine's error *)
  scan : list string -> conf -> option (list string) -> result (gmap string (gmap string val));
  (** [storage_handler.store(results, wait=False)]: the backend ids written *)
  store : gmap loc (gmap string val) -> val -> list val;
  (** [storage_handler.loaded_storage] *)
  loaded_storage : list handler;
  (** [handler.delete_index(index_prefix, days)] *)
  delete_index : handler -> string -> val -> result val;
}.

Record state := mkState {
  heap : gmap loc (gmap string val);
  tick : nat;
  db_ready : bool;
  events : list event;
}.

(** ** The monad of the worker: state and exceptions *)

Definition M (A : Type) : Type := state -> result A * state.

Definition ret {A} (a : A) : M A := fun s => (Ok a, s).

Definition raise {A} (e : exn) : M A := fun s => (Raise e, s).

Definition bind {A B} (m : M A) (k : A -> M B) : M B :=
  fun s =>
    match m s with
    | (Ok a, s') => k a s'
    | (Raise e, s') => (Raise e, s')
    end.

Notation "x <- m ;; k" := (bind m (fun x => k))
  (at level 100, m at next level, right associativity).
Notation "m ;;; k" := (bind m (fun _ => k))
  (at level 100, right associativity).

(** [try: m except Exception as e: h e] *)
Definition try_except {A} (m : M A) (h : exn -> M A) : M A :=
  fun s =>
    match m s with
    | (Ok a, s') => (Ok a, s')
    | (Raise e, s') => h e s'
    end.

(** [try: m finally: f] *)
Definition try_finally {A} (m : M A) (f : M unit) : M A :=
  fun s =>
    match m s with
    | (r, s') =>
        match f s' with
        | (Ok _, s'') => (r, s'')
        | (Raise e, s'') => (Raise e, s'')
        end
    end.

Definition emit (e : event) : M unit :=
  fun s => (Ok tt, mkState (heap s) (tick s) (db_ready s) (events s ++ [e])).

Definition set_heap (h : gmap loc (gmap string val)) (s : state) : state :=
  mkState h (tick s) (db_ready s) (events s).

(** ** Dictionaries on the heap *)

(** [{...}]: a new dictionary object *)
Definition alloc (d : gmap string val) : M val :=
  fun s =>
    let l := fresh (dom (heap s)) in
    (Ok (VRef l), set_heap (<[l := d]> (heap s)) s).

(** [o[k]] *)
Definition getitem (o : val) (k : string) : M val :=
  fun s =>
    match o with
    | VRef l =>
        match heap s !! l with
        | Some d =>
            match d !! k with
            | Some v => (Ok v, s)
            | None => (Raise (KeyError k), s)
            end
        | None => (Raise TypeError, s)
        end
    | _ => (Raise TypeError, s)
    end.

(** [o[k] = v] *)
Definition setitem (o : val) (k : string) (v : val) : M unit :=
  fun s =>
    match o with
    | VRef l =>
        match heap s !! l with
        | Some d => (Ok tt, set_heap (<[l := <[k := v]> d]> (heap s)) s)
        | None => (Raise TypeError, s)
        end
    | _ => (Raise TypeError, s)
    end.

(** [del o[k]] *)
Definition delitem (o : val) (k : string) : M unit :=
  fun s =>
    match o with
    | VRef l =>
        match heap s !! l with
        | Some d =>
            match d !! k with
            | Some _ => (Ok tt, set_heap (<[l := delete k d]> (heap s)) s)
            | None => (Raise (KeyError k), s)
            end
        | None => (Raise TypeError, s)
        end
    | _ => (Raise TypeError, s)
    end.

(** [d.get(k, default)] on a configuration section *)
Definition dict_get (d : gmap string val) (k : string) (default : val) : val :=
  match d !! k with
  | Some v => v
  | None => default
  end.

(** Truth value of [v] in a condition *)
Definition truthy (h : gmap loc (gmap string val)) (v : val) : bool :=
  match v with
  | VNone => false
  | VBool b => b
  | VInt z => negb (Z.eqb z 0)
  | VStr s => negb (String.eqb s "")
  | VRef l =>
      match h !! l with
      | Some d => negb (Nat.eqb (size d) 0)
      | None => true
      end
  | VObj _ => true
  end.

(** ['{}'.format(z)] on an integer *)
Definition str_of_int (z : Z) : string := NilZero.string_of_int (Z.to_int z).

Section Worker.

Variable E : env.

(** [datetime.now().isoformat()] *)
Definition datetime_now_isoformat : M string :=
  fun s => (Ok (now E (tick s)), mkState (heap s) (S (tick s)) (db_ready s) (events s)).

(** ** The task database of [MultiScannerTask] *)

(** The [db] property: the database is opened at its first use. *)
Definition db : M unit :=
  fun s =>
    if db_ready s then (Ok tt, s)
    else (Ok tt, mkState (heap s) (tick s) true (events s ++ [EvDbInit])).

(** [self.db.update_task(task_id=..., task_status=..., timestamp=...)];
    the receiver [self.db] is evaluated before the arguments. *)
Definition update_task (task_id : M val) (task_status : string) (timestamp : M val) : M unit :=
  db ;;;
  i <- task_id ;;
  t <- timestamp ;;
  emit (EvUpdateTask i task_status t).

(** ** The scan engine *)

(** The reports of the engine become dictionary objects of the heap. *)
Fixpoint alloc_reports (reports : list (string * gmap string val)) : M (list (string * val)) :=
  match reports with
  | [] => ret []
  | (f, r) :: rest =>
      o <- alloc r ;;
      os <- alloc_reports rest ;;
      ret ((f, o) :: os)
  end.

(** [parse_reports(multiscan(files, config=config, module_list=module_list), python=True)] *)
Definition multiscan_reports (files : list string) (cfg : conf)
    (module_list : option (list string)) : M val :=
  emit (EvScan files cfg module_list) ;;;
  match scan E files cfg module_list with
  | Raise e => raise e
  | Ok reports =>
      os <- alloc_reports (map_to_list reports) ;;
      alloc (list_to_map os)
  end.

(** ** [multiscanner_celery] *)

(** The arguments of a call, given by position as in the docstring's usage:
    [args[1]] is [original_filename] and [args[2]] is [task_id]. *)
Record task_args := mkArgs {
  file_ : string;
  original_filename : string;
  task_id : val;
  file_hash : string;
  metadata : val;
  config : option (gmap string (gmap string val));
  module_list : option (list string);
}.

(** [if module_list:] *)
Definition module_list_given (module_list : option (list string)) : bool :=
  match module_list with
  | Some (_ :: _) => true
  | _ => false
  end.

(** The loop [for key in config] of lines 182 to 188, over the items of
    [config]; the result is [total_enabled]. The order of the items decides
    nothing but the locations of the new dictionaries. *)
Fixpoint count_enabled (items : list (string * gmap string val)) (sub_conf : val)
    (total_enabled : Z) : M Z :=
  match items with
  | [] => ret total_enabled
  | (key, section) :: rest =>
      if decide (key = "main") then count_enabled rest sub_conf total_enabled
      else
        d <- alloc ∅ ;;
        setitem sub_conf key d ;;;
        enabled <- match section !! "ENABLED" with
                   | Some v => ret v
                   | None => raise (KeyError "ENABLED")
                   end ;;
        sk <- getitem sub_conf key ;;
        setitem sk "ENABLED" enabled ;;;
        sk <- getitem sub_conf key ;;
        en <- getitem sk "ENABLED" ;;
        count_enabled rest sub_conf
          (if decide (en = VBool true) then total_enabled + 1 else total_enabled)
  end.

(** [storage_handler.store(results, wait=False)] *)
Definition storage_store (results : val) : M (list val) :=
  fun s =>
    let ids := store E (heap s) results in
    (Ok ids, mkState (heap s) (tick s) (db_ready s) (events s ++ [EvStore results ids])).

(** [results[file_]['Scan Metadata'][k] = v] *)
Definition set_scan_metadata (results : val) (file_ : string) (k : string) (v : val) : M unit :=
  r <- getitem results file_ ;;
  m <- getitem r "Scan Metadata" ;;
  setitem m k v.

(** The templates of the log lines are given without their line breaks.
    The constructor of the storage handler, line 158, is taken to return. *)
Definition multiscanner_celery (a : task_args) : M val :=
  emit (EvLog INFO "Got file: {}. Original filename: {}."
          [LStr (file_hash a); LStr (original_filename a)]) ;;;
  (* Get the storage config *)
  let config := match config a with None => MS_CONFIG E | Some c => c end in
  emit EvStorageOpen ;;;
  results <- multiscan_reports [file_ a] config (module_list a) ;;
  scan_time <- datetime_now_isoformat ;;
  sub_conf <- alloc ∅ ;;
  let total_modules := Z.of_nat (size config) - 1 in
  total_enabled <-
    (if module_list_given (module_list a)
     then ret (Z.of_nat (length (default [] (module_list a))))
     else count_enabled (map_to_list config) sub_conf 0) ;;
  r <- getitem results (file_ a) ;;
  setitem r "Scan Metadata" (metadata a) ;;;
  set_scan_metadata results (file_ a) "Worker Node" (VStr (gethostname E)) ;;;
  set_scan_metadata results (file_ a) "Scan Config" sub_conf ;;;
  set_scan_metadata results (file_ a) "Modules Enabled"
    (VStr (str_of_int total_enabled ++ " / " ++ str_of_int total_modules)) ;;;
  set_scan_metadata results (file_ a) "Scan Time" (VStr scan_time) ;;;
  set_scan_metadata results (file_ a) "Task ID" (task_id a) ;;;
  (* Use the original filename as the value for the filename *)
  r <- getitem results (file_ a) ;;
  setitem results (original_filename a) r ;;;
  delitem results (file_ a) ;;;
  (* Save the reports to storage *)
  storage_ids <- storage_store results ;;
  emit EvStorageClose ;;;
  match storage_ids with
  | [] => raise (ValueError "Report failed to index")
  | _ :: _ => ret results
  end.

(** ** The callbacks of [MultiScannerTask] *)

Definition on_failure (exc : exn) (a : task_args) : M unit :=
  emit (EvLog ERROR "Task #{} failed" [LVal (task_id a)]) ;;;
  emit (EvLog ERROR "Traceback info:{}" [LExn exc]) ;;;
  scan_time <- datetime_now_isoformat ;;
  update_task (ret (task_id a)) "Failed" (ret (VStr scan_time)).

Definition on_success (retval : val) (a : task_args) : M unit :=
  emit (EvLog INFO "Completed Task #{}" [LVal (task_id a)]) ;;;
  update_task (ret (task_id a)) "Complete"
    (r <- getitem retval (original_filename a) ;;
     m <- getitem r "Scan Metadata" ;;
     getitem m "Scan Time").

(** How a run of the task ended. *)
Inductive outcome :=
  | SUCCESS
  | FAILURE (exc : exn).

(** One job: the task body, then the callback celery calls for it,
    [on_success] with the returned value when the body returns and
    [on_failure] with the exception when it raises. An exception raised
    inside a callback ends the run as it is. *)
Definition run_task (a : task_args) : M outcome :=
  fun s =>
    match multiscanner_celery a s with
    | (Ok retval, s1) => (on_success retval a ;;; ret SUCCESS) s1
    | (Raise exc, s1) => (on_failure exc a ;;; ret (FAILURE exc)) s1
    end.

(** ** The periodic tasks *)

Definition ssdeep_compare_celery : M val :=
  emit EvSsdeepCompare ;;;
  ret VNone.

(** The loop over [storage_handler.loaded_storage] of lines 251 to 258 *)
Fixpoint delete_old_indices (handlers : list handler) (days : val) : M unit :=
  match handlers with
  | [] => ret tt
  | h :: rest =>
      match h with
      | ElasticSearchStorage _ =>
          emit (EvDeleteIndex h "metricbeat" days) ;;;
          r <- match delete_index E h "metricbeat" days with
               | Ok v => ret v
               | Raise e => raise e
               end ;;
          (if decide (r = VBool false)
           then emit (EvLog WARNING "Metricbeat Roller failed" [])
           else emit (EvLog INFO "Metricbeat indices older than {} days deleted" [LVal days])) ;;;
          delete_old_indices rest days
      | OtherStorage _ => delete_old_indices rest days
      end
  end.

Definition get_heap : M (gmap loc (gmap string val)) :=
  fun s => (Ok (heap s), s).

(** [storage_handler = storage.StorageHandler(configfile=storage_configfile)],
    line 238. [built] is what the constructor does: it returns, and the
    local [storage_handler] is bound, or it raises. *)
Definition new_storage_handler (built : result unit) : M unit :=
  match built with
  | Ok _ => emit EvStorageOpen
  | Raise e => raise e
  end.

(** [storage_handler.close()] in the [finally] clause, line 262: when the
    constructor raised, the local [storage_handler] is unbound and
    reading it raises [UnboundLocalError]. *)
Definition close_storage_handler (built : result unit) : M unit :=
  match built with
  | Ok _ => emit EvStorageClose
  | Raise _ => raise (UnboundLocalError "storage_handler")
  end.

(** [metricbeat_rollover_celery(days)], lines 231 to 262, for what the
    constructor of the storage handler does. *)
Definition metricbeat_rollover_celery_built (built : result unit) (days : val) : M val :=
  try_finally
    (try_except
       ((* Get the storage config *)
        new_storage_handler built ;;;
        let metricbeat_enabled :=
          dict_get (es_storage_config E) "metricbeat_enabled" (VBool true) in
        h <- get_heap ;;
        if negb (truthy h metricbeat_enabled)
        then
          emit (EvLog DEBUG "Metricbeat logging not enbaled, exiting..." []) ;;;
          ret VNone
        else
          let days :=
            if negb (truthy h days)
            then dict_get (es_storage_config E) "metricbeat_rollover_days" (VInt 7)
            else days in
          if negb (truthy h days)
          then raise (NameError "name 'days' is not defined, check storage.ini for 'metricbeat_rollover_days' setting")
          else
            (* Find Elastic storage *)
            delete_old_indices (loaded_storage E) days ;;;
            ret VNone)
       (fun e => emit (EvLog WARNING "{}" [LExn e]) ;;; ret VNone))
    (close_storage_handler built).

(** [metricbeat_rollover_celery(days)] on a worker whose storage handler
    can be built, as [multiscanner_celery] takes it to be. *)
Definition metricbeat_rollover_celery (days : val) : M val :=
  metricbeat_rollover_celery_built (Ok tt) days.

(** ** The schedule *)

Inductive task :=
  | ssdeep_compare_celery_task
  | metricbeat_rollover_celery_task.

Record crontab := mkCrontab { hour : Z; minute : Z }.

(** An entry added by [sender.add_periodic_task(schedule, sig, args, kwargs, **opts)] *)
Record periodic_entry := mkEntry {
  schedule : crontab;
  sig : task;
  p_args : list val;
  p_kwargs : list (string * val);
  p_options : list (string * val);
}.

Definition low_tasks : list (string * val) :=
  [("queue", VStr "low_tasks"); ("routing_key", VStr "tasks.low"); ("priority", VInt 1)].

(** [setup_periodic_tasks(sender)]: the entries of [sender] afterwards.
    [h] is the heap the truth value of the flag is taken in. *)
Definition setup_periodic_tasks (h : gmap loc (gmap string val))
    (sender : list periodic_entry) : list periodic_entry :=
  (* Run ssdeep match analytic *)
  let sender :=
    (sender ++ [mkEntry (mkCrontab 2 0) ssdeep_compare_celery_task [] [] low_tasks])%list in
  (* Delete old metricbeat indices *)
  let metricbeat_enabled :=
    dict_get (es_storage_config E) "metricbeat_enabled" (VBool true) in
  if truthy h metricbeat_enabled
  then
    (sender ++ [mkEntry (mkCrontab 3 0) metricbeat_rollover_celery_task
                  [dict_get (es_storage_config E) "metricbeat_rollover_days" VNone; VInt 7]
                  [("config", VObj "msconf.MS_CONFIG")]
                  low_tasks])%list
  else sender.

(** The parameters of a task function; none has a default. *)
Definition task_params (t : task) : list string :=
  match t with
  | ssdeep_compare_celery_task => []
  | metricbeat_rollover_celery_task => ["days"]
  end.

(** ** Calling a function with [*args] and [**kwargs]

    Positional arguments fill the parameters in order; one positional
    argument too many is a [TypeError]. *)
Fixpoint bind_positional (params : list string) (args : list val)
    : result (gmap string val * list string) :=
  match args, params with
  | [], _ => Ok (∅, params)
  | _ :: _, [] => Raise TypeError
  | v :: args', p :: params' =>
      match bind_positional params' args' with
      | Ok (b, rest) => Ok (<[p := v]> b, rest)
      | Raise e => Raise e
      end
  end.

(** A keyword argument must name a parameter that is still unbound. *)
Fixpoint bind_keywords (unbound : list string) (kwargs : list (string * val))
    : result (gmap string val * list string) :=
  match kwargs with
  | [] => Ok (∅, unbound)
  | (k, v) :: kwargs' =>
      if decide (k ∈ unbound)
      then
        match bind_keywords (filter (fun p => p ≠ k) unbound) kwargs' with
        | Ok (b, rest) => Ok (<[k := v]> b, rest)
        | Raise e => Raise e
        end
      else Raise TypeError
  end.

(** Every parameter must be bound in the end. *)
Definition bind_call (params : list string) (args : list val)
    (kwargs : list (string * val)) : result (gmap string val) :=
  match bind_positional params args with
  | Raise e => Raise e
  | Ok (b1, unbound) =>
      match bind_keywords unbound kwargs with
      | Raise e => Raise e
      | Ok (b2, []) => Ok (b1 ∪ b2)
      | Ok (_, _ :: _) => Raise TypeError
      end
  end.

(** The call of [t] with positional arguments [args] and keyword arguments [kwargs] *)
Definition call_task (t : task) (args : list val) (kwargs : list (string * val)) : M val :=
  match bind_call (task_params t) args kwargs with
  | Raise e => raise e
  | Ok b =>
      match t with
      | ssdeep_compare_celery_task => ssdeep_compare_celery
      | metricbeat_rollover_celery_task =>
          match b !! "days" with
          | Some days => metricbeat_rollover_celery days
          | None => raise TypeError
          end
      end
  end.

(** A scheduled occurrence of an entry: its task is called with the
    arguments the entry was registered with. *)
Definition fire (e : periodic_entry) : M val :=
  call_task (sig e) (p_args e) (p_kwargs e).

End Worker.

(** ** Observations on a run *)

(** The updates of the task database, in order: task id, status, timestamp. *)
Definition db_updates (evs : list event) : list (val * string * val) :=
  omap (fun e => match e with
                 | EvUpdateTask i st t => Some (i, st, t)
                 | _ => None
                 end) evs.

(** The calls of [storage_handler.store]: the results given and the ids returned. *)
Definition store_calls (evs : list event) : list (val * list val) :=
  omap (fun e => match e with
                 | EvStore r ids => Some (r, ids)
                 | _ => None
                 end) evs.

(** The calls of [delete_index]: the days given. *)
Definition cleanup_calls (evs : list event) : list val :=
  omap (fun e => match e with
                 | EvDeleteIndex _ _ days => Some days
                 | _ => None
                 end) evs.

(** The status recorded last for the task [tid]. *)
Definition final_status (tid : val) (evs : list event) : option string :=
  last (omap (fun u : val * string * val =>
                if decide (u.1.1 = tid) then Some u.1.2 else None)
             (db_updates evs)).

(** The events added to the log between [s] and [s']. *)
Definition new_events (s s' : state) : list event :=
  drop (length (events s)) (events s').

(** The number of modules of [cfg] that are enabled: the entries other
    than ["main"] whose [ENABLED] is [True]. *)
Definition enabled_modules (cfg : gmap string (gmap string val)) : nat :=
  length (filter (fun kv : string * gmap string val =>
                    kv.1 ≠ "main" ∧ kv.2 !! "ENABLED" = Some (VBool true))
                 (map_to_list cfg)).

(** The configuration a call runs with. *)
Definition config_of (E : env) (a : task_args) : gmap string (gmap string val) :=
  match config a with
  | None => MS_CONFIG E
  | Some c => c
  end.

(** Everything but the heap. *)
Definition log_of (s : state) : list event * nat * bool :=
  (events s, tick s, db_ready s).

(** A computation that only reads and writes the heap. *)
Definition heap_only {A} (m : M A) : Prop :=
  ∀ s r s', m s = (r, s') → log_of s' = log_of s.

(** What the rest of [multiscanner_celery] after the scan leaves in the
    log: nothing when it raises before the store, else the call of the
    store and the close of the storage handler. *)
Definition publish_post (E : env) (s : state) (r : result val) (s' : state) : Prop :=
  tick s' = tick s ∧ db_ready s' = db_ready s ∧
  ((∃ e, r = Raise e ∧ events s' = events s) ∨
   (∃ res ids,
      ids = store E (heap s') res ∧
      events s' = (events s ++ [EvStore res ids; EvStorageClose])%list ∧
      r = match ids with
          | [] => Raise (ValueError "Report failed to index")
          | _ :: _ => Ok res
          end)).

(** The events every run of [multiscanner_celery] starts with. *)
Definition scan_prefix (E : env) (a : task_args) : list event :=
  [EvLog INFO "Got file: {}. Original filename: {}."
     [LStr (file_hash a); LStr (original_filename a)];
   EvStorageOpen;
   EvScan [file_ a] (config_of E a) (module_list a)].

(** The ratio under [Modules Enabled]: the length of the module subset
    when one that is not empty is given, else the number of enabled
    modules, out of the number of entries of the configuration less one. *)
Definition modules_enabled (cfg : gmap string (gmap string val))
    (module_list : option (list string)) : string :=
  str_of_int (Z.of_nat (if module_list_given module_list
                        then length (default [] module_list)
                        else enabled_modules cfg))
  ++ " / " ++ str_of_int (Z.of_nat (size cfg) - 1).

(** The metadata of a job after the five writes of lines 191 to 197 on the
    caller's metadata [m]; [lsc] is the new [sub_conf] and [k] the reading
    of the clock. *)
Definition scan_metadata (E : env) (a : task_args) (lsc : loc) (k : nat)
    (m : gmap string val) : gmap string val :=
  <["Task ID" := task_id a]>
    (<["Scan Time" := VStr (now E k)]>
       (<["Modules Enabled" := VStr (modules_enabled (config_of E a) (module_list a))]>
          (<["Scan Config" := VRef lsc]>
             (<["Worker Node" := VStr (gethostname E)]> m)))).

(** The state [s'] and result [r] of a run from [s] that reached the
    store: [rep] is the report of the engine for the file, [lm] the
    caller's metadata object and [m] its value before the run. *)
Definition published (E : env) (a : task_args) (s : state)
    (rep : gmap string val) (lm : loc) (m : gmap string val)
    (r : result val) (s' : state) : Prop :=
  ∃ lres lrep lsc resd ids,
    (lres ∉ dom (heap s)) ∧ (lrep ∉ dom (heap s)) ∧ (lsc ∉ dom (heap s)) ∧
    lres ≠ lrep ∧
    ids = store E (heap s') (VRef lres) ∧
    events s' = (events s ++ scan_prefix E a ++ [EvStore (VRef lres) ids; EvStorageClose])%list ∧
    r = match ids with
        | [] => Raise (ValueError "Report failed to index")
        | _ :: _ => Ok (VRef lres)
        end ∧
    heap s' !! lm = Some (scan_metadata E a lsc (tick s) m) ∧
    heap s' !! lrep = Some (<["Scan Metadata" := VRef lm]> rep) ∧
    heap s' !! lres = Some resd ∧
    resd !! file_ a = None ∧
    (original_filename a ≠ file_ a → resd !! original_filename a = Some (VRef lrep)) ∧
    (∀ l, l ∈ dom (heap s) → l ≠ lm → heap s' !! l = heap s !! l).



(** The event of the first use of the task database. *)
Definition db_init_events (s : state) : list event :=
  if db_ready s then [] else [EvDbInit].

(** The events of [on_failure] up to its update of the database. *)
Definition failure_events (exc : exn) (a : task_args) (s : state) : list event :=
  ([EvLog ERROR "Task #{} failed" [LVal (task_id a)];
    EvLog ERROR "Traceback info:{}" [LExn exc]] ++ db_init_events s)%list.

(** The events of [on_success] up to its update of the database. *)
Definition success_events (a : task_args) (s : state) : list event :=
  (EvLog INFO "Completed Task #{}" [LVal (task_id a)] :: db_init_events s)%list.

(** The flag of the index rollover, [metricbeat_enabled], true when unset. *)
Definition rollover_flag (E : env) : val :=
  dict_get (es_storage_config E) "metricbeat_enabled" (VBool true).

(** The retention days [metricbeat_rollover_celery] works with: its
    argument when this is true, else the setting, else 7. *)
Definition resolved_days (E : env) (h : gmap loc (gmap string val)) (days : val) : val :=
  if truthy h days then days
  else dict_get (es_storage_config E) "metricbeat_rollover_days" (VInt 7).

Arguments scan_prefix : simpl never.
Arguments failure_events : simpl never.
Arguments success_events : simpl never.

(** ** The configuration of the module *)

(** Lines 42 to 45: the [ElasticSearchStorage] section of the storage
    configuration, and the empty dictionary when there is none. *)
Definition es_section (storage_config : gmap string (gmap string val)) : gmap string val :=
  match storage_config !! "ElasticSearchStorage" with
  | Some section => section
  | None => ∅
  end.

(** [Queue(name, default_exchange, routing_key=..., queue_arguments={'x-max-priority': ...})] *)
Record queue := mkQueue {
  q_name : string;
  q_exchange : string;
  q_routing_key : string;
  q_max_priority : Z;
}.

(** [Exchange('celery', type='direct')] *)
Definition default_exchange : string := "celery".

(** [app.conf.task_queues] *)
Definition task_queues : list queue :=
  [mkQueue "low_tasks" default_exchange "tasks.low" 10;
   mkQueue "medium_tasks" default_exchange "tasks.medium" 10;
   mkQueue "high_tasks" default_exchange "tasks.high" 10].

(** The option [k] of a periodic entry. *)
Definition entry_option (e : periodic_entry) (k : string) : option val :=
  (list_to_map (p_options e) : gmap string val) !! k.

(** ** More observations on a run *)

(** The calls of the scan engine: the files given. *)
Definition scan_calls (evs : list event) : list (list string) :=
  omap (fun e => match e with
                 | EvScan files _ _ => Some files
                 | _ => None
                 end) evs.

(** How many times a storage handler was opened, and closed. *)
Definition storage_opens (evs : list event) : nat :=
  length (omap (fun e => match e with
                         | EvStorageOpen => Some tt
                         | _ => None
                         end) evs).

Definition storage_closes (evs : list event) : nat :=
  length (omap (fun e => match e with
                         | EvStorageClose => Some tt
                         | _ => None
                         end) evs).

(** How many times the task database was opened. *)
Definition db_inits (evs : list event) : nat :=
  length (omap (fun e => match e with
                         | EvDbInit => Some tt
                         | _ => None
                         end) evs).

(** The warnings logged with an exception, [logger.warning(e)]. *)
Definition logged_exceptions (evs : list event) : list exn :=
  omap (fun e => match e with
                 | EvLog WARNING _ [LExn x] => Some x
                 | _ => None
                 end) evs.

(** [isinstance(handler, elasticsearch_storage.ElasticSearchStorage)] *)
Definition is_elastic (h : handler) : bool :=
  match h with
  | ElasticSearchStorage _ => true
  | OtherStorage _ => false
  end.

(** The Elasticsearch handlers among the loaded ones, in order: those the
    loop of [metricbeat_rollover_celery] (lines 253-254) works on. *)
Definition elastic_handlers (hs : list handler) : list handler :=
  List.filter is_elastic hs.

(** A value that is no object: [None], a boolean, an integer or a string.
    Item assignment on it is a [TypeError]. *)
Definition is_scalar (v : val) : bool :=
  match v with
  | VNone | VBool _ | VInt _ | VStr _ => true
  | VRef _ | VObj _ => false
  end.

(** Lines 190 to 215 of [multiscanner_celery], what follows the count of
    the enabled modules, as a computation of its own for the proofs;
    [multiscanner_celery] is the scan followed by it. *)
Definition annotate_and_store (E : env) (a : task_args) (results : val)
    (scan_time : string) (sub_conf : val) (total_enabled : Z) : M val :=
  r <- getitem results (file_ a) ;;
  setitem r "Scan Metadata" (metadata a) ;;;
  set_scan_metadata results (file_ a) "Worker Node" (VStr (gethostname E)) ;;;
  set_scan_metadata results (file_ a) "Scan Config" sub_conf ;;;
  set_scan_metadata results (file_ a) "Modules Enabled"
    (VStr (str_of_int total_enabled ++ " / "
           ++ str_of_int (Z.of_nat (size (config_of E a)) - 1))) ;;;
  set_scan_metadata results (file_ a) "Scan Time" (VStr scan_time) ;;;
  set_scan_metadata results (file_ a) "Task ID" (task_id a) ;;;
  r <- getitem results (file_ a) ;;
  setitem results (original_filename a) r ;;;
  delitem results (file_ a) ;;;
  storage_ids <- storage_store E results ;;
  emit EvStorageClose ;;;
  match storage_ids with
  | [] => raise (ValueError "Report failed to index")
  | _ :: _ => ret results
  end.

(** * Example inputs *)

Definition module_section (enabled : bool) : gmap string val :=
  {[ "ENABLED" := VBool enabled ]}.

(** Four modules, two of them enabled, and the reserved entry. *)
Definition config4 : gmap string (gmap string val) :=
  list_to_map [("main", {[ "copyfilesto" := VBool false ]});
               ("Yara", module_section true);
               ("ClamAV", module_section true);
               ("PEFile", module_section false);
               ("ssdeep", module_section false)].

Definition clock (k : nat) : string :=
  "2018-06-01T12:00:0" ++ str_of_int (Z.of_nat k).

(** An engine that reports on every file it is given. *)
Definition scan_all (files : list string) (cfg : gmap string (gmap string val))
    (ml : option (list string)) : result (gmap string (gmap string val)) :=
  Ok (list_to_map (map (fun f => (f, ({[ "Yara" := VStr "clean" ]} : gmap string val))) files)).

(** An engine that finds nothing to report. *)
Definition scan_nothing (files : list string) (cfg : gmap string (gmap string val))
    (ml : option (list string)) : result (gmap string (gmap string val)) :=
  Ok ∅.

(** A worker whose store writes to one backend. *)
Definition env0 : env :=
  mkEnv config4 ∅ "worker-1" clock scan_all
    (fun _ _ => [VStr "ElasticSearchStorage"])
    [OtherStorage "file"; ElasticSearchStorage "es"]
    (fun _ _ _ => Ok (VBool true)).

(** A worker whose store writes to no backend. *)
Definition env_unpublished : env :=
  mkEnv config4 ∅ "worker-1" clock scan_all (fun _ _ => [])
    [OtherStorage "file"; ElasticSearchStorage "es"]
    (fun _ _ _ => Ok (VBool true)).

(** A worker whose engine reports nothing. *)
Definition env_empty : env :=
  mkEnv config4 ∅ "worker-1" clock scan_nothing
    (fun _ _ => [VStr "ElasticSearchStorage"])
    [OtherStorage "file"; ElasticSearchStorage "es"]
    (fun _ _ _ => Ok (VBool true)).

(** A worker with the given [ElasticSearchStorage] section. *)
Definition env_es (es : gmap string val) : env :=
  mkEnv config4 es "worker-1" clock scan_all
    (fun _ _ => [VStr "ElasticSearchStorage"])
    [OtherStorage "file"; ElasticSearchStorage "es"]
    (fun _ _ _ => Ok (VBool true)).

(** The [ElasticSearchStorage] section with the rollover switched off, with
    a retention of 14 days, and with a retention of 0 days. *)
Definition es_off : gmap string val := {[ "metricbeat_enabled" := VBool false ]}.
Definition es_14 : gmap string val := {[ "metricbeat_rollover_days" := VInt 14 ]}.
Definition es_0 : gmap string val := {[ "metricbeat_rollover_days" := VInt 0 ]}.

(** The caller's metadata is the dictionary at location 1. *)
Definition st0 : state :=
  mkState {[ 1%positive := {[ "submitter" := VStr "alice"; "Task ID" := VInt 0 ]} ]} 0 false [].

Definition args0 : task_args :=
  mkArgs "/tmp/f1" "sample.exe" (VInt 7) "abc123" (VRef 1%positive) None None.

(** The same job with the three modules to run given. *)
Definition args_subset : task_args :=
  mkArgs "/tmp/f1" "sample.exe" (VInt 7) "abc123" (VRef 1%positive) None
    (Some ["Yara"; "ClamAV"; "PEFile"]).

(** The same job with an empty list of modules given. *)
Definition args_empty_subset : task_args :=
  mkArgs "/tmp/f1" "sample.exe" (VInt 7) "abc123" (VRef 1%positive) None (Some []).

(** A job whose original filename is the path of the file. *)
Definition args_same : task_args :=
  mkArgs "/tmp/f1" "/tmp/f1" (VInt 7) "abc123" (VRef 1%positive) None None.

(** An engine that breaks. *)
Definition scan_broken (files : list string) (cfg : gmap string (gmap string val))
    (ml : option (list string)) : result (gmap string (gmap string val)) :=
  Raise (EngineError "module crashed").

(** A worker whose engine breaks. *)
Definition env_broken : env :=
  mkEnv config4 ∅ "worker-1" clock scan_broken
    (fun _ _ => [VStr "ElasticSearchStorage"])
    [OtherStorage "file"; ElasticSearchStorage "es"]
    (fun _ _ _ => Ok (VBool true)).

(** Three Elasticsearch handlers and a file store between them. *)
Definition cluster : list handler :=
  [ElasticSearchStorage "es1"; OtherStorage "file";
   ElasticSearchStorage "es2"; ElasticSearchStorage "es3"].


(** A worker on the cluster whose second Elasticsearch handler is down. *)
Definition env_flaky : env :=
  mkEnv config4 ∅ "worker-1" clock scan_all
    (fun _ _ => [VStr "ElasticSearchStorage"])
    cluster
    (fun h _ _ => match h with
                  | ElasticSearchStorage "es2" => Raise (EngineError "connection refused")
                  | _ => Ok (VBool true)
                  end).

(** The same job with no metadata. *)
Definition args_no_metadata : task_args :=
  mkArgs "/tmp/f1" "sample.exe" (VInt 7) "abc123" VNone None None.

(** A configuration whose [PEFile] section has no [ENABLED]. *)
Definition config_bad : gmap string (gmap string val) :=
  list_to_map [("main", {[ "copyfilesto" := VBool false ]});
               ("Yara", module_section true);
               ("PEFile", {[ "path" := VStr "/opt/pefile" ]})].

(** The same job run with that configuration. *)
Definition args_bad_config : task_args :=
  mkArgs "/tmp/f1" "sample.exe" (VInt 7) "abc123" (VRef 1%positive) (Some config_bad) None.

(** A caller with a second object, beside the metadata. *)
Definition st_two : state :=
  mkState {[ 1%positive := {[ "submitter" := VStr "alice"; "Task ID" := VInt 0 ]};
             2%positive := {[ "owner" := VStr "bob" ]} ]} 0 false [].

(** A worker that has completed job 8 before. *)
Definition st_busy : state :=
  mkState {[ 1%positive := {[ "submitter" := VStr "alice"; "Task ID" := VInt 0 ]} ]} 5 true
    [EvUpdateTask (VInt 8) "Complete" (VStr "2018-06-01T11:00:00")].

(** * Properties *)

Section Monad.

Context {A B : Type}.

Lemma bind_ok (m : M A) (k : A → M B) s a s1 :
  m s = (Ok a, s1) → bind m k s = k a s1.
Proof. intros H. unfold bind. by rewrite H. Qed.

Lemma bind_raise (m : M A) (k : A → M B) s e s1 :
  m s = (Raise e, s1) → bind m k s = (Raise e, s1).
Proof. intros H. unfold bind. by rewrite H. Qed.

Lemma bind_emit (ev : event) (k : unit → M B) s :
  bind (emit ev) k s = k tt (mkState (heap s) (tick s) (db_ready s) (events s ++ [ev])).
Proof. reflexivity. Qed.

Lemma heap_only_ret (a : A) : heap_only (ret a).
Proof. intros s r s' H. by inversion H. Qed.

Lemma heap_only_raise (e : exn) : heap_only (raise e : M A).
Proof. intros s r s' H. by inversion H. Qed.

Lemma heap_only_bind (m : M A) (k : A → M B) :
  heap_only m → (∀ a, heap_only (k a)) → heap_only (bind m k).
Proof.
  intros Hm Hk s r s' H. unfold bind in H.
  destruct (m s) as [[a|e] s1] eqn:Hms.
  - apply Hm in Hms. apply Hk in H. congruence.
  - inversion H; subst. by apply Hm in Hms.
Qed.

End Monad.

Lemma heap_only_alloc d : heap_only (alloc d).
Proof. intros s r s' H. by inversion H. Qed.

Lemma heap_only_getitem o k : heap_only (getitem o k).
Proof.
  intros s r s' H. unfold getitem in H.
  destruct o; try by inversion H.
  destruct (heap s !! l) as [d|]; [destruct (d !! k)|]; by inversion H.
Qed.

Lemma heap_only_setitem o k v : heap_only (setitem o k v).
Proof.
  intros s r s' H. unfold setitem in H.
  destruct o; try by inversion H.
  destruct (heap s !! l) as [d|]; by inversion H.
Qed.

Lemma heap_only_delitem o k : heap_only (delitem o k).
Proof.
  intros s r s' H. unfold delitem in H.
  destruct o; try by inversion H.
  destruct (heap s !! l) as [d|]; [destruct (d !! k)|]; by inversion H.
Qed.

Create HintDb heap_only.
#[local] Hint Resolve heap_only_ret heap_only_raise heap_only_alloc
  heap_only_getitem heap_only_setitem heap_only_delitem : heap_only.

Ltac heap_only_tac :=
  repeat first
    [ apply heap_only_bind; [| intros ? ]
    | solve [ auto with heap_only ]
    | match goal with
      | |- heap_only (if ?b then _ else _) => destruct b
      | |- heap_only (match ?o with Some _ => _ | None => _ end) => destruct o
      end ].

Lemma heap_only_set_scan_metadata results f k v :
  heap_only (set_scan_metadata results f k v).
Proof. unfold set_scan_metadata. heap_only_tac. Qed.

Lemma heap_only_alloc_reports items : heap_only (alloc_reports items).
Proof.
  induction items as [|[f r] rest IH]; simpl; heap_only_tac.
Qed.

Lemma heap_only_count_enabled items sub_conf n :
  heap_only (count_enabled items sub_conf n).
Proof.
  revert n. induction items as [|[key sec] rest IH]; intros n; simpl.
  - heap_only_tac.
  - case_decide; [apply IH|].
    heap_only_tac; apply IH.
Qed.

#[local] Hint Resolve heap_only_set_scan_metadata heap_only_alloc_reports
  heap_only_count_enabled : heap_only.

(** ** Allocation of the engine's reports *)

Lemma alloc_fresh d s :
  ∃ l, alloc d s = (Ok (VRef l), set_heap (<[l := d]> (heap s)) s) ∧ l ∉ dom (heap s).
Proof. eexists. split; [reflexivity|]. apply is_fresh. Qed.

Lemma alloc_reports_spec items s :
  ∃ os s',
    alloc_reports items s = (Ok os, s') ∧
    log_of s' = log_of s ∧
    (∀ l, l ∈ dom (heap s) → heap s' !! l = heap s !! l) ∧
    dom (heap s) ⊆ dom (heap s') ∧
    os.*1 = items.*1 ∧
    (∀ f r, (f, r) ∈ items →
       ∃ l, (f, VRef l) ∈ os ∧ (l ∉ dom (heap s)) ∧ heap s' !! l = Some r).
Proof.
  revert s. induction items as [|[f r] rest IH]; intros s.
  - exists [], s. simpl. split_and!; try done. intros f r Hin. inversion Hin.
  - destruct (alloc_fresh r s) as (l0 & Hal & Hl0).
    destruct (IH (set_heap (<[l0 := r]> (heap s)) s)) as (os & s' & Hrun & Hlog & Hpres & Hdom & Hfst & Hin).
    simpl in Hpres, Hdom, Hin.
    exists ((f, VRef l0) :: os), s'. split_and!.
    + simpl. rewrite (bind_ok _ _ _ _ _ Hal). by rewrite (bind_ok _ _ _ _ _ Hrun).
    + by rewrite Hlog.
    + intros l Hl. rewrite Hpres by set_solver.
      apply lookup_insert_ne. intros ->. done.
    + set_solver.
    + rewrite !fmap_cons. simpl. by f_equal.
    + intros f' r' Hel. apply elem_of_cons in Hel as [Heq|Hel].
      * inversion Heq; subst. exists l0. split_and!; [left | done |].
        rewrite Hpres by set_solver. apply lookup_insert_eq.
      * destruct (Hin _ _ Hel) as (l & Hlos & Hfresh & Hlook).
        exists l. split_and!; [by right | set_solver | done].
Qed.

Lemma elem_of_fst_map_to_list {V} (m : gmap string V) (f : string) :
  f ∈ (map_to_list m).*1 ↔ is_Some (m !! f).
Proof.
  rewrite list_elem_of_fmap. split.
  - intros ([f' v] & -> & Hin). apply elem_of_map_to_list in Hin. eauto.
  - intros [v Hv]. exists (f, v). split; [done|]. by apply elem_of_map_to_list.
Qed.

(** ** Steps on live dictionaries *)

Lemma getitem_ok l d k v s :
  heap s !! l = Some d → d !! k = Some v → getitem (VRef l) k s = (Ok v, s).
Proof. intros Hl Hk. unfold getitem. by rewrite Hl, Hk. Qed.

Lemma getitem_missing l d k s :
  heap s !! l = Some d → d !! k = None → getitem (VRef l) k s = (Raise (KeyError k), s).
Proof. intros Hl Hk. unfold getitem. by rewrite Hl, Hk. Qed.

Lemma setitem_ok l d k v s :
  heap s !! l = Some d →
  setitem (VRef l) k v s = (Ok tt, set_heap (<[l := <[k := v]> d]> (heap s)) s).
Proof. intros Hl. unfold setitem. by rewrite Hl. Qed.

Lemma delitem_ok l d k v s :
  heap s !! l = Some d → d !! k = Some v →
  delitem (VRef l) k s = (Ok tt, set_heap (<[l := delete k d]> (heap s)) s).
Proof. intros Hl Hk. unfold delitem. by rewrite Hl, Hk. Qed.

(** ** The count of the enabled modules *)

(** The loop either counts the entries other than ["main"] whose
    [ENABLED] is [True], or stops at an entry without [ENABLED]. It leaves
    every object but [sub_conf] as it was. *)
Lemma count_enabled_spec items lsc n s :
  is_Some (heap s !! lsc) →
  ∃ r s',
    count_enabled items (VRef lsc) n s = (r, s') ∧
    log_of s' = log_of s ∧
    (∀ l, l ∈ dom (heap s) → l ≠ lsc → heap s' !! l = heap s !! l) ∧
    dom (heap s) ⊆ dom (heap s') ∧
    (r = Ok (n + Z.of_nat (length (filter
               (fun kv : string * gmap string val =>
                  kv.1 ≠ "main" ∧ kv.2 !! "ENABLED" = Some (VBool true)) items))) ∨
     r = Raise (KeyError "ENABLED")).
Proof.
  revert n s. induction items as [|[key sec] rest IH]; intros n s [dsc Hsc].
  - exists (Ok n), s. simpl. split_and!; try done. left. f_equal. lia.
  - simpl. case_decide as Hmain.
    + destruct (IH n s) as (r & s' & Hrun & Hlog & Hpres & Hdom & Hr); [by eauto|].
      exists r, s'. split_and!; try done.
      rewrite filter_cons_False; [done|]. simpl. tauto.
    + destruct (alloc_fresh ∅ s) as (l0 & Hal & Hl0).
      assert (l0 ≠ lsc) as Hne.
      { intros ->. apply Hl0. apply elem_of_dom. eauto. }
      rewrite (bind_ok _ _ _ _ _ Hal).
      set (s1 := set_heap (<[l0 := ∅]> (heap s)) s).
      assert (heap s1 !! lsc = Some dsc) as Hsc1.
      { simpl. by rewrite lookup_insert_ne. }
      rewrite (bind_ok _ _ _ _ _ (setitem_ok _ _ key (VRef l0) _ Hsc1)).
      set (s2 := set_heap _ s1).
      assert (∀ l, l ∈ dom (heap s) → l ≠ lsc → heap s2 !! l = heap s !! l) as Hpres2.
      { intros l Hl Hls. simpl. rewrite !lookup_insert_ne; try done.
        intros ->. done. }
      assert (dom (heap s) ⊆ dom (heap s2)) as Hdom2.
      { simpl. rewrite !dom_insert_L. set_solver. }
      destruct (sec !! "ENABLED") as [v|] eqn:Hen.
      * rewrite (bind_ok (ret v) _ s2 v s2 eq_refl).
        assert (heap s2 !! lsc = Some (<[key := VRef l0]> dsc)) as Hsc2.
        { simpl. apply lookup_insert_eq. }
        rewrite (bind_ok _ _ _ _ _ (getitem_ok _ _ key (VRef l0) _ Hsc2 (lookup_insert_eq _ _ _))).
        assert (heap s2 !! l0 = Some ∅) as Hl02.
        { simpl. rewrite lookup_insert_ne by done. apply lookup_insert_eq. }
        rewrite (bind_ok _ _ _ _ _ (setitem_ok _ _ "ENABLED" v _ Hl02)).
        set (s3 := set_heap _ s2).
        assert (heap s3 !! lsc = Some (<[key := VRef l0]> dsc)) as Hsc3.
        { simpl. rewrite lookup_insert_ne by done. apply lookup_insert_eq. }
        rewrite (bind_ok _ _ _ _ _ (getitem_ok _ _ key (VRef l0) _ Hsc3 (lookup_insert_eq _ _ _))).
        assert (heap s3 !! l0 = Some (<["ENABLED" := v]> ∅)) as Hl03.
        { simpl. apply lookup_insert_eq. }
        rewrite (bind_ok _ _ _ _ _ (getitem_ok _ _ "ENABLED" v _ Hl03 (lookup_insert_eq _ _ _))).
        match goal with
        | |- context [count_enabled rest _ ?n' s3] =>
            destruct (IH n' s3) as (r & s' & Hrun & Hlog & Hpres & Hdom & Hr); [by eauto|]
        end.
        exists r, s'. split_and!; try done.
        -- intros l Hl Hls. rewrite Hpres; try done.
           ++ simpl. rewrite lookup_insert_ne; [by apply Hpres2|]. intros ->. done.
           ++ simpl. rewrite dom_insert_L. clear -Hl. set_solver.
        -- etrans; [exact Hdom2|]. etrans; [|exact Hdom]. simpl.
           rewrite (dom_insert_L _ l0). apply union_subseteq_r.
        -- destruct Hr as [-> | ->]; [left | by right]. f_equal.
           case_decide as Hv.
           ++ subst v. rewrite filter_cons_True by done. simpl. lia.
           ++ rewrite filter_cons_False; [done|]. simpl. intros [_ Heq]. congruence.
      * rewrite (bind_raise (raise (KeyError "ENABLED")) _ s2 _ s2 eq_refl).
        exists (Raise (KeyError "ENABLED")), s2. split_and!; try done. by right.
Qed.

Section Dispatcher.

Variable E : env.

Lemma bind_now {B} (k : string → M B) s :
  bind (datetime_now_isoformat E) k s =
  k (now E (tick s)) (mkState (heap s) (S (tick s)) (db_ready s) (events s)).
Proof. reflexivity. Qed.

Lemma multiscan_reports_raise files cfg ml e s :
  scan E files cfg ml = Raise e →
  multiscan_reports E files cfg ml s =
  (Raise e, mkState (heap s) (tick s) (db_ready s) (events s ++ [EvScan files cfg ml])).
Proof. intros H. unfold multiscan_reports. rewrite bind_emit. by rewrite H. Qed.

(** The results of a scan are new objects: the dictionary of the results
    and one report for each file. *)
Lemma multiscan_reports_ok files cfg ml reports s :
  scan E files cfg ml = Ok reports →
  ∃ lres resd s',
    multiscan_reports E files cfg ml s = (Ok (VRef lres), s') ∧
    events s' = (events s ++ [EvScan files cfg ml])%list ∧
    tick s' = tick s ∧ db_ready s' = db_ready s ∧
    (∀ l, l ∈ dom (heap s) → heap s' !! l = heap s !! l) ∧
    (lres ∉ dom (heap s)) ∧
    heap s' !! lres = Some resd ∧
    (∀ f, reports !! f = None → resd !! f = None) ∧
    (∀ f r, reports !! f = Some r →
       ∃ l, resd !! f = Some (VRef l) ∧ l ≠ lres ∧ (l ∉ dom (heap s)) ∧
            heap s' !! l = Some r).
Proof.
  intros Hscan. unfold multiscan_reports. rewrite bind_emit, Hscan.
  set (s0 := mkState (heap s) (tick s) (db_ready s) (events s ++ [EvScan files cfg ml])).
  destruct (alloc_reports_spec (map_to_list reports) s0)
    as (os & s1 & Hrun & Hlog & Hpres & Hdom & Hfst & Hin).
  destruct (alloc_fresh (list_to_map os) s1) as (lres & Hal & Hfresh).
  unfold log_of in Hlog. injection Hlog as He Ht Hd. simpl in *.
  exists lres, (list_to_map os), (set_heap (<[lres := list_to_map os]> (heap s1)) s1).
  split_and!; simpl; try done.
  - by rewrite (bind_ok _ _ _ _ _ Hrun).
  - intros l Hl. rewrite lookup_insert_ne; [by apply Hpres|].
    intros ->. apply Hfresh. by apply Hdom.
  - intros Hl. apply Hfresh. by apply Hdom.
  - apply lookup_insert_eq.
  - intros f Hf. apply not_elem_of_list_to_map_1. rewrite Hfst.
    rewrite elem_of_fst_map_to_list, Hf. by intros [? ?].
  - intros f r Hf. apply elem_of_map_to_list in Hf.
    destruct (Hin _ _ Hf) as (l & Hlos & Hnew & Hlook).
    assert (l ≠ lres).
    { intros ->. apply Hfresh. apply elem_of_dom. eauto. }
    exists l. split_and!; try done.
    + apply elem_of_list_to_map_1; [|done]. rewrite Hfst. apply NoDup_fst_map_to_list.
    + by rewrite lookup_insert_ne.
Qed.

Lemma publish_post_bind {A} (m : M A) (k : A → M val) :
  heap_only m →
  (∀ a s1 r s', k a s1 = (r, s') → publish_post E s1 r s') →
  ∀ s r s', bind m k s = (r, s') → publish_post E s r s'.
Proof.
  intros Hm Hk s r s' H. unfold bind in H.
  destruct (m s) as [[a|e] s1] eqn:Hms.
  - apply Hm in Hms. apply Hk in H.
    unfold log_of in Hms. injection Hms as He Ht Hd.
    unfold publish_post in *. rewrite <- He, <- Ht, <- Hd. exact H.
  - inversion H; subst. apply Hm in Hms.
    unfold log_of in Hms. injection Hms as He Ht Hd.
    unfold publish_post. repeat split; try done. left. eauto.
Qed.

Lemma set_scan_metadata_ok lres resd f lrep rep lm m k v s :
  heap s !! lres = Some resd → resd !! f = Some (VRef lrep) →
  heap s !! lrep = Some rep → rep !! "Scan Metadata" = Some (VRef lm) →
  heap s !! lm = Some m →
  set_scan_metadata (VRef lres) f k v s =
  (Ok tt, set_heap (<[lm := <[k := v]> m]> (heap s)) s).
Proof.
  intros Hres Hf Hrep Hmeta Hm. unfold set_scan_metadata.
  rewrite (bind_ok _ _ _ _ _ (getitem_ok _ _ _ _ _ Hres Hf)).
  rewrite (bind_ok _ _ _ _ _ (getitem_ok _ _ _ _ _ Hrep Hmeta)).
  by apply setitem_ok.
Qed.

Lemma set_scan_metadata_step lres resd f lrep rep lm m k v s :
  heap s !! lres = Some resd → resd !! f = Some (VRef lrep) →
  heap s !! lrep = Some rep → rep !! "Scan Metadata" = Some (VRef lm) →
  heap s !! lm = Some m → lm ≠ lres → lm ≠ lrep →
  ∃ s', set_scan_metadata (VRef lres) f k v s = (Ok tt, s') ∧
        log_of s' = log_of s ∧
        heap s' !! lres = Some resd ∧ heap s' !! lrep = Some rep ∧
        heap s' !! lm = Some (<[k := v]> m) ∧
        (∀ l, l ≠ lm → heap s' !! l = heap s !! l).
Proof.
  intros Hres Hf Hrep Hmeta Hm Hne1 Hne2.
  eexists. split; [by eapply set_scan_metadata_ok|].
  simpl. split_and!; try done.
  - by rewrite lookup_insert_ne.
  - by rewrite lookup_insert_ne.
  - apply lookup_insert_eq.
  - intros l Hl. by rewrite lookup_insert_ne.
Qed.

(** A run of the task body whose scan succeeds: the count of the enabled
    modules stops at an entry without [ENABLED], or the file has no
    report, or, when the caller's metadata is a dictionary, the results
    are annotated, re-keyed and given to the store. *)
Lemma multiscanner_celery_scanned a reports s :
  scan E [file_ a] (config_of E a) (module_list a) = Ok reports →
  ∃ r s',
    multiscanner_celery E a s = (r, s') ∧
    ((r = Raise (KeyError "ENABLED") ∧ module_list_given (module_list a) = false ∧
      events s' = (events s ++ scan_prefix E a)%list ∧
      tick s' = S (tick s) ∧ db_ready s' = db_ready s) ∨
     (reports !! file_ a = None ∧ r = Raise (KeyError (file_ a)) ∧
      events s' = (events s ++ scan_prefix E a)%list ∧
      tick s' = S (tick s) ∧ db_ready s' = db_ready s) ∨
     (∃ rep, reports !! file_ a = Some rep ∧
        ∀ lm m, metadata a = VRef lm → heap s !! lm = Some m →
          tick s' = S (tick s) ∧ db_ready s' = db_ready s ∧
          published E a s rep lm m r s')).
Proof.
  intros Hscan. unfold multiscanner_celery. fold (config_of E a).
  rewrite !bind_emit.
  set (s0 := mkState _ _ _ _).
  destruct (multiscan_reports_ok _ _ _ _ s0 Hscan)
    as (lres & resd & s1 & Hrun & He1 & Ht1 & Hd1 & Hpres1 & Hlres & Hres1 & Habsent & Hpresent).
  simpl in He1, Ht1, Hd1, Hpres1, Hlres.
  rewrite (bind_ok _ _ _ _ _ Hrun), bind_now.
  set (s1' := mkState (heap s1) (S (tick s1)) (db_ready s1) (events s1)).
  destruct (alloc_fresh ∅ s1') as (lsc & Hal & Hlsc). simpl in Hlsc.
  rewrite (bind_ok _ _ _ _ _ Hal).
  set (s2 := set_heap (<[lsc := ∅]> (heap s1')) s1').
  assert (lsc ≠ lres) as Hsc_res.
  { intros ->. apply Hlsc. apply elem_of_dom. eauto. }
  assert (events s1 = (events s ++ scan_prefix E a)%list) as Hev.
  { rewrite He1. unfold scan_prefix. by rewrite <- !app_assoc. }
  (* the count of the enabled modules *)
  assert (∃ rt s3,
    (if module_list_given (module_list a)
     then ret (Z.of_nat (length (default [] (module_list a))))
     else count_enabled (map_to_list (config_of E a)) (VRef lsc) 0) s2 = (rt, s3) ∧
    log_of s3 = log_of s2 ∧
    (∀ l, l ∈ dom (heap s2) → l ≠ lsc → heap s3 !! l = heap s2 !! l) ∧
    ((rt = Raise (KeyError "ENABLED") ∧ module_list_given (module_list a) = false) ∨
     rt = Ok (Z.of_nat (if module_list_given (module_list a)
                        then length (default [] (module_list a))
                        else enabled_modules (config_of E a)))))
    as (rt & s3 & Hcount & Hlog3 & Hpres3 & Hrt).
  { destruct (module_list_given (module_list a)) eqn:Hgiven.
    - eexists _, s2. split; [reflexivity|]. split_and!; try done. by right.
    - destruct (count_enabled_spec (map_to_list (config_of E a)) lsc 0 s2)
        as (rt & s3 & Hrun3 & Hlog3 & Hpres3 & _ & Hrt).
      { simpl. rewrite lookup_insert_eq. eauto. }
      exists rt, s3. split_and!; try done.
      destruct Hrt as [-> | ->]; [right | by left]. done. }
  unfold log_of in Hlog3. simpl in Hlog3. injection Hlog3 as He3 Ht3 Hd3.
  assert (∀ l, l ∈ dom (heap s1) → l ≠ lsc → heap s3 !! l = heap s1 !! l) as Hpres13.
  { intros l Hl Hne. rewrite Hpres3; try done.
    - simpl. by rewrite lookup_insert_ne.
    - simpl. rewrite dom_insert_L. clear -Hl. set_solver. }
  assert (heap s3 !! lres = Some resd) as Hres3.
  { rewrite Hpres13; try done. apply elem_of_dom. eauto. }
  destruct Hrt as [[-> Hgiven] | ->].
  { rewrite (bind_raise _ _ _ _ _ Hcount). eexists _, _. split; [reflexivity|].
    left. split_and!; try done; congruence. }
  rewrite (bind_ok _ _ _ _ _ Hcount).
  destruct (reports !! file_ a) as [rep|] eqn:Hfile.
  2: { rewrite (bind_raise _ _ _ _ _ (getitem_missing _ _ _ _ Hres3 (Habsent _ Hfile))).
       eexists _, _. split; [reflexivity|].
       right; left. split_and!; try done; congruence. }
  destruct (Hpresent _ _ Hfile) as (lrep & Hf & Hrep_res & Hlrep & Hrep1).
  assert (lsc ≠ lrep) as Hsc_rep.
  { intros ->. apply Hlsc. apply elem_of_dom. eauto. }
  assert (heap s3 !! lrep = Some rep) as Hrep3.
  { rewrite Hpres13; try done. apply elem_of_dom. eauto. }
  rewrite (bind_ok _ _ _ _ _ (getitem_ok _ _ _ _ _ Hres3 Hf)).
  rewrite (bind_ok _ _ _ _ _ (setitem_ok _ _ "Scan Metadata" (metadata a) _ Hrep3)).
  assert (∀ lm m, lm ≠ lsc → lm ∈ dom (heap s) → heap s !! lm = Some m →
            heap s3 !! lm = Some m) as Hold.
  { intros lm m Hne Hdom Hm. rewrite Hpres13; try done.
    - by rewrite Hpres1.
    - apply elem_of_dom. rewrite Hpres1 by done. eauto. }
  assert ((∃ lm m, metadata a = VRef lm ∧ heap s !! lm = Some m) ∨
          ¬ (∃ lm m, metadata a = VRef lm ∧ heap s !! lm = Some m))
    as [(lm & m & Hmeta & Hm) | Hbad].
  { destruct (metadata a) as [| | | |lm|];
      try (right; intros (? & ? & ? & ?); congruence).
    destruct (heap s !! lm) as [m|] eqn:Hm; [left; eauto|].
    right. intros (lm' & m' & [= <-] & Hm'). congruence. }
  2: { match goal with |- ∃ r s', ?run = _ ∧ _ => destruct run as [r s'] eqn:Hbody end.
       exists r, s'. split; [done|]. right; right. exists rep. split; [done|].
       intros lm m Hmeta Hm. destruct Hbad. eauto. }
  rewrite Hmeta.
  assert (lm ∈ dom (heap s)) as Hlm_dom by (apply elem_of_dom; eauto).
  assert (lm ≠ lres) as Hm_res by (intros ->; done).
  assert (lm ≠ lrep) as Hm_rep by (intros ->; done).
  assert (lm ≠ lsc) as Hm_sc.
  { intros ->. apply Hlsc. apply elem_of_dom. rewrite Hpres1 by done. eauto. }
  pose proof (Hold _ _ Hm_sc Hlm_dom Hm) as Hm3.
  set (s4 := set_heap _ s3).
  assert (heap s4 !! lres = Some resd) as Hres4.
  { subst s4. simpl. by rewrite lookup_insert_ne. }
  assert (heap s4 !! lrep = Some (<["Scan Metadata" := VRef lm]> rep)) as Hrep4.
  { subst s4. simpl. apply lookup_insert_eq. }
  assert (heap s4 !! lm = Some m) as Hm4.
  { subst s4. simpl. by rewrite lookup_insert_ne. }
  assert (∀ l, l ≠ lrep → heap s4 !! l = heap s3 !! l) as Hfr4.
  { intros l Hl. subst s4. simpl. by rewrite lookup_insert_ne. }
  assert (log_of s4 = log_of s3) as Hlog4 by done.
  pose proof (lookup_insert_eq rep "Scan Metadata" (VRef lm)) as Hsm.
  (* the five writes on the metadata *)
  destruct (set_scan_metadata_step _ _ _ _ _ _ _ "Worker Node" (VStr (gethostname E)) _
              Hres4 Hf Hrep4 Hsm Hm4 Hm_res Hm_rep)
    as (s5 & Hrun5 & Hlog5 & Hres5 & Hrep5 & Hm5 & Hfr5).
  rewrite (bind_ok _ _ _ _ _ Hrun5).
  destruct (set_scan_metadata_step _ _ _ _ _ _ _ "Scan Config" (VRef lsc) _
              Hres5 Hf Hrep5 Hsm Hm5 Hm_res Hm_rep)
    as (s6 & Hrun6 & Hlog6 & Hres6 & Hrep6 & Hm6 & Hfr6).
  rewrite (bind_ok _ _ _ _ _ Hrun6).
  match goal with |- context [set_scan_metadata _ _ "Modules Enabled" ?v] =>
    destruct (set_scan_metadata_step _ _ _ _ _ _ _ "Modules Enabled" v _
              Hres6 Hf Hrep6 Hsm Hm6 Hm_res Hm_rep)
    as (s7 & Hrun7 & Hlog7 & Hres7 & Hrep7 & Hm7 & Hfr7) end.
  rewrite (bind_ok _ _ _ _ _ Hrun7).
  destruct (set_scan_metadata_step _ _ _ _ _ _ _ "Scan Time" (VStr (now E (tick s1))) _
              Hres7 Hf Hrep7 Hsm Hm7 Hm_res Hm_rep)
    as (s8 & Hrun8 & Hlog8 & Hres8 & Hrep8 & Hm8 & Hfr8).
  rewrite (bind_ok _ _ _ _ _ Hrun8).
  destruct (set_scan_metadata_step _ _ _ _ _ _ _ "Task ID" (task_id a) _
              Hres8 Hf Hrep8 Hsm Hm8 Hm_res Hm_rep)
    as (s9 & Hrun9 & Hlog9 & Hres9 & Hrep9 & Hm9 & Hfr9).
  rewrite (bind_ok _ _ _ _ _ Hrun9).
  (* the new key and the store *)
  rewrite (bind_ok _ _ _ _ _ (getitem_ok _ _ _ _ _ Hres9 Hf)).
  rewrite (bind_ok _ _ _ _ _ (setitem_ok _ _ (original_filename a) (VRef lrep) _ Hres9)).
  set (s10 := set_heap _ s9).
  assert (heap s10 !! lres = Some (<[original_filename a := VRef lrep]> resd)) as Hres10.
  { subst s10. simpl. apply lookup_insert_eq. }
  assert (is_Some (<[original_filename a := VRef lrep]> resd !! file_ a)) as [v10 Hv10].
  { destruct (decide (original_filename a = file_ a)) as [-> | Hne].
    - rewrite lookup_insert_eq. eauto.
    - rewrite lookup_insert_ne by done. eauto. }
  rewrite (bind_ok _ _ _ _ _ (delitem_ok _ _ _ _ _ Hres10 Hv10)).
  set (s11 := set_heap _ s10).
  unfold bind at 1, storage_store at 1. rewrite bind_emit.
  remember (store E (heap s11) (VRef lres)) as ids eqn:Hids.
  assert (log_of s9 = log_of s1') as Hlog9'.
  { rewrite Hlog9, Hlog8, Hlog7, Hlog6, Hlog5, Hlog4. unfold log_of. by rewrite He3, Ht3, Hd3. }
  unfold log_of in Hlog9'. simpl in Hlog9'. injection Hlog9' as He9 Ht9 Hd9.
  exists (match ids with
          | [] => Raise (ValueError "Report failed to index")
          | _ :: _ => Ok (VRef lres)
          end),
         (mkState (heap s11) (tick s9) (db_ready s9)
            (events s9 ++ [EvStore (VRef lres) ids; EvStorageClose])).
  split.
  { destruct ids; simpl; by rewrite <- app_assoc. }
  right; right. exists rep. split; [done|].
  intros lm' m' Hmeta' Hm'. injection Hmeta' as <-.
  rewrite Hm in Hm'. injection Hm' as <-.
  simpl. split; [lia|]. split; [congruence|].
  exists lres, lrep, lsc, (delete (file_ a) (<[original_filename a := VRef lrep]> resd)), ids.
  assert (∀ l, l ≠ lm → l ≠ lrep → heap s9 !! l = heap s3 !! l) as Hfr9'.
  { intros l Hl1 Hl2. rewrite Hfr9, Hfr8, Hfr7, Hfr6, Hfr5, Hfr4; done. }
  simpl. split_and!; try done.
  - intros Hin. apply Hlsc. apply elem_of_dom. rewrite Hpres1 by done.
    by apply elem_of_dom.
  - rewrite He9, Hev. by rewrite <- app_assoc.
  - rewrite !lookup_insert_ne by done. rewrite Hm9. unfold scan_metadata.
    rewrite Ht1. simpl. unfold modules_enabled. done.
  - rewrite !lookup_insert_ne by done. done.
  - rewrite lookup_insert_eq. done.
  - apply lookup_delete_eq.
  - intros Hne. rewrite lookup_delete_ne by done. apply lookup_insert_eq.
  - intros l Hl Hlm. rewrite !lookup_insert_ne by (intros ->; done).
    rewrite Hfr9' by (try done; intros ->; done).
    rewrite Hpres13; [by apply Hpres1| |].
    + apply elem_of_dom. rewrite Hpres1 by done. by apply elem_of_dom.
    + intros ->. apply Hlsc. apply elem_of_dom. rewrite Hpres1 by done.
      by apply elem_of_dom.
Qed.

(** The log of a run of the task body: the scan raises, or the body raises
    after the scan and before the store, or the store is called once and
    its answer decides the result. *)
Lemma multiscanner_celery_log a s r s' :
  multiscanner_celery E a s = (r, s') →
  (∃ e, scan E [file_ a] (config_of E a) (module_list a) = Raise e ∧
        r = Raise e ∧
        s' = mkState (heap s) (tick s) (db_ready s) (events s ++ scan_prefix E a)) ∨
  (∃ reports s1,
        scan E [file_ a] (config_of E a) (module_list a) = Ok reports ∧
        events s1 = (events s ++ scan_prefix E a)%list ∧
        tick s1 = S (tick s) ∧ db_ready s1 = db_ready s ∧
        publish_post E s1 r s').
Proof.
  unfold multiscanner_celery. fold (config_of E a).
  rewrite !bind_emit. intros H.
  set (s0 := mkState _ _ _ _) in H.
  destruct (scan E [file_ a] (config_of E a) (module_list a)) as [reports|e] eqn:Hscan.
  - right. exists reports.
    destruct (multiscan_reports_ok _ _ _ _ s0 Hscan)
      as (lres & resd & s1 & Hrun & He & Ht & Hd & _).
    rewrite (bind_ok _ _ _ _ _ Hrun), bind_now in H.
    eexists (mkState (heap s1) (S (tick s1)) (db_ready s1) (events s1)).
    simpl. unfold scan_prefix.
    split; [done|]. split; [by rewrite He; simpl; rewrite <- !app_assoc|].
    split; [by rewrite Ht|]. split; [done|].
    revert H.
    repeat (apply publish_post_bind; [solve [heap_only_tac] | intros ? ? ? ?]).
    intros H. unfold bind, storage_store, emit in H. simpl in H.
    unfold publish_post.
    destruct (store E (heap _) _) as [|i ids] eqn:Hst;
      inversion H; subst; simpl; (repeat split; try done); right;
      eexists _, _; simpl; rewrite Hst; rewrite <- ?app_assoc; simpl; eauto.
  - left. exists e.
    rewrite (bind_raise _ _ _ _ _ (multiscan_reports_raise _ _ _ _ s0 Hscan)) in H.
    inversion H; subst. repeat split; try done.
    unfold scan_prefix. simpl. by rewrite <- !app_assoc.
Qed.

End Dispatcher.

(** ** The two stages of the task body *)

(** The loop over the configuration, with what it leaves in [sub_conf]:
    it stops at the first entry other than ["main"] without [ENABLED], or
    gives every such entry a dictionary of its own that holds the entry's
    [ENABLED] and nothing else. *)
Lemma count_enabled_content items lsc n s dsc :
  heap s !! lsc = Some dsc → NoDup items.*1 →
  ∃ r s',
    count_enabled items (VRef lsc) n s = (r, s') ∧
    log_of s' = log_of s ∧
    (∀ l, l ∈ dom (heap s) → l ≠ lsc → heap s' !! l = heap s !! l) ∧
    dom (heap s) ⊆ dom (heap s') ∧
    ((r = Raise (KeyError "ENABLED") ∧
      ∃ key sec, (key, sec) ∈ items ∧ key ≠ "main" ∧ sec !! "ENABLED" = None) ∨
     (r = Ok (n + Z.of_nat (length (filter
                (fun kv : string * gmap string val =>
                   kv.1 ≠ "main" ∧ kv.2 !! "ENABLED" = Some (VBool true)) items))) ∧
      ∃ sc,
        heap s' !! lsc = Some sc ∧
        (∀ key, key ∉ items.*1 ∨ key = "main" → sc !! key = dsc !! key) ∧
        (∀ key sec, (key, sec) ∈ items → key ≠ "main" →
           ∃ l v, sc !! key = Some (VRef l) ∧ sec !! "ENABLED" = Some v ∧
                  heap s' !! l = Some {[ "ENABLED" := v ]} ∧ (l ∉ dom (heap s))))).
Proof.
  revert n s dsc. induction items as [|[key sec] rest IH]; intros n s dsc Hsc Hnd.
  - exists (Ok n), s. simpl. split_and!; try done. right. split; [f_equal; lia|].
    exists dsc. split_and!; try done.
    intros key sec Hin. by apply elem_of_nil in Hin.
  - apply NoDup_cons in Hnd as [Hkey Hnd]. simpl in Hkey.
    simpl. case_decide as Hmain.
    + destruct (IH n s dsc Hsc Hnd) as (r & s' & Hrun & Hlog & Hpres & Hdom & Hr).
      exists r, s'. split_and!; try done.
      destruct Hr as [(-> & k & sc & Hin & Hk & Hnone) | (-> & sc & Hsc' & Hkeep & Hnew)].
      * left. split; [done|]. exists k, sc. split_and!; try done. by right.
      * right. split.
        { rewrite filter_cons_False; [done|]. simpl. tauto. }
        exists sc. split_and!; try done.
        -- intros k [Hk | Hk]; apply Hkeep; [|by right].
           left. intros Hin. apply Hk. simpl. by right.
        -- intros k sec' Hin Hk. apply elem_of_cons in Hin as [[= -> ->] | Hin]; [done|].
           by apply Hnew.
    + destruct (alloc_fresh ∅ s) as (l0 & Hal & Hl0).
      assert (l0 ≠ lsc) as Hne.
      { intros ->. apply Hl0. apply elem_of_dom. eauto. }
      rewrite (bind_ok _ _ _ _ _ Hal).
      set (s1 := set_heap (<[l0 := ∅]> (heap s)) s).
      assert (heap s1 !! lsc = Some dsc) as Hsc1.
      { simpl. by rewrite lookup_insert_ne. }
      rewrite (bind_ok _ _ _ _ _ (setitem_ok _ _ key (VRef l0) _ Hsc1)).
      set (s2 := set_heap _ s1).
      assert (∀ l, l ∈ dom (heap s) → l ≠ lsc → heap s2 !! l = heap s !! l) as Hpres2.
      { intros l Hl Hls. simpl. rewrite !lookup_insert_ne; try done.
        intros ->. done. }
      assert (dom (heap s) ⊆ dom (heap s2)) as Hdom2.
      { simpl. rewrite !dom_insert_L. set_solver. }
      destruct (sec !! "ENABLED") as [v|] eqn:Hen.
      * rewrite (bind_ok (ret v) _ s2 v s2 eq_refl).
        assert (heap s2 !! lsc = Some (<[key := VRef l0]> dsc)) as Hsc2.
        { simpl. apply lookup_insert_eq. }
        rewrite (bind_ok _ _ _ _ _ (getitem_ok _ _ key (VRef l0) _ Hsc2 (lookup_insert_eq _ _ _))).
        assert (heap s2 !! l0 = Some ∅) as Hl02.
        { simpl. rewrite lookup_insert_ne by done. apply lookup_insert_eq. }
        rewrite (bind_ok _ _ _ _ _ (setitem_ok _ _ "ENABLED" v _ Hl02)).
        set (s3 := set_heap _ s2).
        assert (heap s3 !! lsc = Some (<[key := VRef l0]> dsc)) as Hsc3.
        { simpl. rewrite lookup_insert_ne by done. apply lookup_insert_eq. }
        rewrite (bind_ok _ _ _ _ _ (getitem_ok _ _ key (VRef l0) _ Hsc3 (lookup_insert_eq _ _ _))).
        assert (heap s3 !! l0 = Some (<["ENABLED" := v]> ∅)) as Hl03.
        { simpl. apply lookup_insert_eq. }
        rewrite (bind_ok _ _ _ _ _ (getitem_ok _ _ "ENABLED" v _ Hl03 (lookup_insert_eq _ _ _))).
        assert (dom (heap s2) ⊆ dom (heap s3)) as Hdom23.
        { simpl. rewrite (dom_insert_L _ l0). apply union_subseteq_r. }
        match goal with
        | |- context [count_enabled rest _ ?n' s3] =>
            destruct (IH n' s3 _ Hsc3 Hnd) as (r & s' & Hrun & Hlog & Hpres & Hdom & Hr)
        end.
        exists r, s'. split_and!; try done.
        -- intros l Hl Hls. rewrite Hpres; try done.
           ++ simpl. rewrite lookup_insert_ne; [by apply Hpres2|]. intros ->. done.
           ++ apply Hdom23, Hdom2, Hl.
        -- etrans; [exact Hdom2|]. etrans; [exact Hdom23 | exact Hdom].
        -- destruct Hr as [(-> & k & sc & Hin & Hk & Hnone) | (-> & sc & Hsc' & Hkeep & Hnew)].
           ++ left. split; [done|]. exists k, sc. split_and!; try done. by right.
           ++ right. split.
              { f_equal. case_decide as Hv.
                - subst v. rewrite filter_cons_True by done. simpl. lia.
                - rewrite filter_cons_False; [done|]. simpl. intros [_ Heq]. congruence. }
              exists sc. split_and!; try done.
              ** intros k Hk.
                 assert (k ≠ key) as Hkk.
                 { destruct Hk as [Hk | ->]; [|done]. intros ->. apply Hk. simpl. by left. }
                 rewrite Hkeep; [by rewrite lookup_insert_ne|].
                 destruct Hk as [Hk | Hk]; [|by right].
                 left. intros Hin. apply Hk. simpl. by right.
              ** intros k sec' Hin Hk. apply elem_of_cons in Hin as [[= -> ->] | Hin].
                 --- exists l0, v. split_and!; try done.
                     +++ rewrite Hkeep by (by left). apply lookup_insert_eq.
                     +++ rewrite Hpres; [by rewrite Hl03, insert_empty| |done].
                         apply elem_of_dom. eauto.
                 --- destruct (Hnew k sec' Hin Hk) as (l & v' & H1 & H2 & H3 & H4).
                     exists l, v'. split_and!; try done.
                     intros Hl. apply H4, Hdom23, Hdom2, Hl.
      * rewrite (bind_raise (raise (KeyError "ENABLED")) _ s2 _ s2 eq_refl).
        exists (Raise (KeyError "ENABLED")), s2. split_and!; try done. left.
        split; [done|]. exists key, sec. split_and!; try done. by left.
Qed.

Section BodyStages.

Variable E : env.

(** The task body up to the count of the enabled modules. When the scan
    succeeds the results and [sub_conf] are new objects, the objects of
    the caller are as they were, and the body either stops in the count
    or goes on with lines 190 to 215. The locations in [D] are those in
    use before the count. *)
Lemma multiscanner_celery_counted a reports s :
  scan E [file_ a] (config_of E a) (module_list a) = Ok reports →
  ∃ lres resd lsc rt s3 (D : gset loc),
    multiscanner_celery E a s =
      match rt with
      | Ok n => annotate_and_store E a (VRef lres) (now E (tick s)) (VRef lsc) n s3
      | Raise e => (Raise e, s3)
      end ∧
    events s3 = (events s ++ scan_prefix E a)%list ∧
    tick s3 = S (tick s) ∧ db_ready s3 = db_ready s ∧
    dom (heap s) ⊆ D ∧ lres ∈ D ∧ lsc ∈ D ∧
    (lres ∉ dom (heap s)) ∧ (lsc ∉ dom (heap s)) ∧ lsc ≠ lres ∧
    (∀ l, l ∈ dom (heap s) → heap s3 !! l = heap s !! l) ∧
    heap s3 !! lres = Some resd ∧
    (∀ f, reports !! f = None → resd !! f = None) ∧
    (∀ f r, reports !! f = Some r →
       ∃ l, resd !! f = Some (VRef l) ∧ l ∈ D ∧ l ≠ lres ∧ l ≠ lsc ∧
            (l ∉ dom (heap s)) ∧ heap s3 !! l = Some r) ∧
    (if module_list_given (module_list a)
     then rt = Ok (Z.of_nat (length (default [] (module_list a)))) ∧
          heap s3 !! lsc = Some ∅
     else
       (rt = Raise (KeyError "ENABLED") ∧
        ∃ key sec, config_of E a !! key = Some sec ∧ key ≠ "main" ∧
                   sec !! "ENABLED" = None) ∨
       (rt = Ok (Z.of_nat (enabled_modules (config_of E a))) ∧
        ∃ sc, heap s3 !! lsc = Some sc ∧ sc !! "main" = None ∧
          ∀ key, key ≠ "main" →
            match config_of E a !! key with
            | Some sec =>
                ∃ l v, sc !! key = Some (VRef l) ∧ sec !! "ENABLED" = Some v ∧
                       heap s3 !! l = Some {[ "ENABLED" := v ]} ∧ (l ∉ D)
            | None => sc !! key = None
            end)).
Proof.
  intros Hscan. unfold multiscanner_celery. fold (config_of E a).
  rewrite !bind_emit.
  set (s0 := mkState _ _ _ _).
  destruct (multiscan_reports_ok E _ _ _ _ s0 Hscan)
    as (lres & resd & s1 & Hrun & He1 & Ht1 & Hd1 & Hpres1 & Hlres & Hres1 & Habsent & Hpresent).
  simpl in He1, Ht1, Hd1, Hpres1, Hlres.
  rewrite (bind_ok _ _ _ _ _ Hrun), bind_now.
  set (s1' := mkState (heap s1) (S (tick s1)) (db_ready s1) (events s1)).
  destruct (alloc_fresh ∅ s1') as (lsc & Hal & Hlsc). simpl in Hlsc.
  rewrite (bind_ok _ _ _ _ _ Hal).
  set (s2 := set_heap (<[lsc := ∅]> (heap s1')) s1').
  assert (lsc ≠ lres) as Hsc_res.
  { intros ->. apply Hlsc. apply elem_of_dom. eauto. }
  assert (events s1 = (events s ++ scan_prefix E a)%list) as Hev.
  { rewrite He1. unfold scan_prefix. by rewrite <- !app_assoc. }
  assert (dom (heap s) ⊆ dom (heap s1)) as Hdom1.
  { intros l Hl. apply elem_of_dom. rewrite Hpres1 by done. by apply elem_of_dom. }
  assert (heap s2 !! lsc = Some ∅) as Hsc2 by (simpl; apply lookup_insert_eq).
  assert (dom (heap s2) = {[lsc]} ∪ dom (heap s1)) as Hdom2 by (simpl; apply dom_insert_L).
  assert (∀ l, l ∈ dom (heap s1) → heap s2 !! l = heap s1 !! l) as Hpres2.
  { intros l Hl. simpl. rewrite lookup_insert_ne; [done|]. intros ->. done. }
  (* the count of the enabled modules *)
  assert (∃ rt s3,
    (if module_list_given (module_list a)
     then ret (Z.of_nat (length (default [] (module_list a))))
     else count_enabled (map_to_list (config_of E a)) (VRef lsc) 0) s2 = (rt, s3) ∧
    log_of s3 = log_of s2 ∧
    (∀ l, l ∈ dom (heap s2) → l ≠ lsc → heap s3 !! l = heap s2 !! l) ∧
    (if module_list_given (module_list a)
     then rt = Ok (Z.of_nat (length (default [] (module_list a)))) ∧
          heap s3 !! lsc = Some ∅
     else
       (rt = Raise (KeyError "ENABLED") ∧
        ∃ key sec, config_of E a !! key = Some sec ∧ key ≠ "main" ∧
                   sec !! "ENABLED" = None) ∨
       (rt = Ok (Z.of_nat (enabled_modules (config_of E a))) ∧
        ∃ sc, heap s3 !! lsc = Some sc ∧ sc !! "main" = None ∧
          ∀ key, key ≠ "main" →
            match config_of E a !! key with
            | Some sec =>
                ∃ l v, sc !! key = Some (VRef l) ∧ sec !! "ENABLED" = Some v ∧
                       heap s3 !! l = Some {[ "ENABLED" := v ]} ∧ (l ∉ dom (heap s2))
            | None => sc !! key = None
            end)))
    as (rt & s3 & Hcount & Hlog3 & Hpres3 & Hrt).
  { destruct (module_list_given (module_list a)) eqn:Hgiven.
    - eexists _, s2. split; [reflexivity|]. by split_and!.
    - destruct (count_enabled_content (map_to_list (config_of E a)) lsc 0 s2 ∅ Hsc2
                  (NoDup_fst_map_to_list _))
        as (rt & s3 & Hrun3 & Hlog3 & Hpres3 & _ & Hrt).
      exists rt, s3. split_and!; try done.
      destruct Hrt as [(-> & key & sec & Hin & Hkey & Hnone) | (-> & sc & Hsc & Hkeep & Hnew)].
      + left. split; [done|]. exists key, sec. split_and!; try done.
        by apply elem_of_map_to_list.
      + right. split; [done|]. exists sc. split; [done|].
        split; [rewrite Hkeep by (by right); apply lookup_empty|].
        intros key Hkey. destruct (config_of E a !! key) as [sec|] eqn:Hsec.
        * apply elem_of_map_to_list in Hsec. by apply Hnew.
        * rewrite Hkeep; [apply lookup_empty|]. left.
          rewrite elem_of_fst_map_to_list, Hsec. by intros [? ?]. }
  unfold log_of in Hlog3. simpl in Hlog3. injection Hlog3 as He3 Ht3 Hd3.
  exists lres, resd, lsc, rt, s3, (dom (heap s2)).
  split.
  { destruct rt as [n|e].
    - rewrite (bind_ok _ _ _ _ _ Hcount). rewrite Ht1. reflexivity.
    - by rewrite (bind_raise _ _ _ _ _ Hcount). }
  assert (lres ∈ dom (heap s1)) as Hlres1 by (apply elem_of_dom; eauto).
  split_and!; try done.
  - congruence.
  - rewrite Ht3. simpl. by rewrite Ht1.
  - congruence.
  - rewrite Hdom2. clear -Hdom1. set_solver.
  - rewrite Hdom2. clear -Hlres1. set_solver.
  - rewrite Hdom2. apply elem_of_union_l. by apply elem_of_singleton.
  - intros Hin. apply Hlsc. by apply Hdom1.
  - intros l Hl. rewrite Hpres3.
    + rewrite Hpres2 by (by apply Hdom1). by apply Hpres1.
    + rewrite Hdom2. apply elem_of_union_r. by apply Hdom1.
    + intros ->. apply Hlsc. by apply Hdom1.
  - rewrite Hpres3; [by rewrite Hpres2| |done].
    rewrite Hdom2. by apply elem_of_union_r.
  - intros f r Hf. destruct (Hpresent f r Hf) as (l & Hl1 & Hl2 & Hl3 & Hl4).
    assert (l ∈ dom (heap s1)) as Hl5 by (apply elem_of_dom; eauto).
    assert (l ≠ lsc) as Hl6 by (intros ->; done).
    exists l. split_and!; try done.
    + rewrite Hdom2. by apply elem_of_union_r.
    + rewrite Hpres3; [by rewrite Hpres2| |done].
      rewrite Hdom2. by apply elem_of_union_r.
Qed.

(** Lines 190 to 215 on a report whose metadata is a dictionary: they
    write to the results, to the report and to the metadata, and to no
    other object; [sub_conf] is what the metadata holds under
    ['Scan Config']; the store is called and its answer decides. *)
Lemma annotate_and_store_run a lres resd lrep rep lm m scan_time sub_conf n s :
  metadata a = VRef lm →
  heap s !! lres = Some resd → resd !! file_ a = Some (VRef lrep) →
  heap s !! lrep = Some rep → heap s !! lm = Some m →
  lm ≠ lres → lm ≠ lrep → lrep ≠ lres →
  ∃ r s' ids,
    annotate_and_store E a (VRef lres) scan_time sub_conf n s = (r, s') ∧
    (∀ l, l ≠ lm → l ≠ lrep → l ≠ lres → heap s' !! l = heap s !! l) ∧
    (heap s' !! lm) ≫= (.!! "Scan Config") = Some sub_conf ∧
    events s' = (events s ++ [EvStore (VRef lres) ids; EvStorageClose])%list ∧
    r = match ids with
        | [] => Raise (ValueError "Report failed to index")
        | _ :: _ => Ok (VRef lres)
        end ∧
    ids = store E (heap s') (VRef lres) ∧
    heap s' !! lrep = Some (<["Scan Metadata" := VRef lm]> rep) ∧
    heap s' !! lres =
      Some (delete (file_ a) (<[original_filename a := VRef lrep]> resd)).
Proof.
  intros Hmeta Hres3 Hf Hrep3 Hm3 Hm_res Hm_rep Hrep_res.
  unfold annotate_and_store.
  rewrite (bind_ok _ _ _ _ _ (getitem_ok _ _ _ _ _ Hres3 Hf)).
  rewrite (bind_ok _ _ _ _ _ (setitem_ok _ _ "Scan Metadata" (metadata a) _ Hrep3)).
  rewrite Hmeta.
  set (s4 := set_heap _ s).
  assert (heap s4 !! lres = Some resd) as Hres4.
  { subst s4. simpl. by rewrite lookup_insert_ne. }
  assert (heap s4 !! lrep = Some (<["Scan Metadata" := VRef lm]> rep)) as Hrep4.
  { subst s4. simpl. apply lookup_insert_eq. }
  assert (heap s4 !! lm = Some m) as Hm4.
  { subst s4. simpl. by rewrite lookup_insert_ne. }
  assert (∀ l, l ≠ lrep → heap s4 !! l = heap s !! l) as Hfr4.
  { intros l Hl. subst s4. simpl. by rewrite lookup_insert_ne. }
  assert (log_of s4 = log_of s) as Hlog4 by done.
  pose proof (lookup_insert_eq rep "Scan Metadata" (VRef lm)) as Hsm.
  destruct (set_scan_metadata_step _ _ _ _ _ _ _ "Worker Node" (VStr (gethostname E)) _
              Hres4 Hf Hrep4 Hsm Hm4 Hm_res Hm_rep)
    as (s5 & Hrun5 & Hlog5 & Hres5 & Hrep5 & Hm5 & Hfr5).
  rewrite (bind_ok _ _ _ _ _ Hrun5).
  destruct (set_scan_metadata_step _ _ _ _ _ _ _ "Scan Config" sub_conf _
              Hres5 Hf Hrep5 Hsm Hm5 Hm_res Hm_rep)
    as (s6 & Hrun6 & Hlog6 & Hres6 & Hrep6 & Hm6 & Hfr6).
  rewrite (bind_ok _ _ _ _ _ Hrun6).
  match goal with |- context [set_scan_metadata _ _ "Modules Enabled" ?v] =>
    destruct (set_scan_metadata_step _ _ _ _ _ _ _ "Modules Enabled" v _
              Hres6 Hf Hrep6 Hsm Hm6 Hm_res Hm_rep)
    as (s7 & Hrun7 & Hlog7 & Hres7 & Hrep7 & Hm7 & Hfr7) end.
  rewrite (bind_ok _ _ _ _ _ Hrun7).
  destruct (set_scan_metadata_step _ _ _ _ _ _ _ "Scan Time" (VStr scan_time) _
              Hres7 Hf Hrep7 Hsm Hm7 Hm_res Hm_rep)
    as (s8 & Hrun8 & Hlog8 & Hres8 & Hrep8 & Hm8 & Hfr8).
  rewrite (bind_ok _ _ _ _ _ Hrun8).
  destruct (set_scan_metadata_step _ _ _ _ _ _ _ "Task ID" (task_id a) _
              Hres8 Hf Hrep8 Hsm Hm8 Hm_res Hm_rep)
    as (s9 & Hrun9 & Hlog9 & Hres9 & Hrep9 & Hm9 & Hfr9).
  rewrite (bind_ok _ _ _ _ _ Hrun9).
  rewrite (bind_ok _ _ _ _ _ (getitem_ok _ _ _ _ _ Hres9 Hf)).
  rewrite (bind_ok _ _ _ _ _ (setitem_ok _ _ (original_filename a) (VRef lrep) _ Hres9)).
  set (s10 := set_heap _ s9).
  assert (heap s10 !! lres = Some (<[original_filename a := VRef lrep]> resd)) as Hres10.
  { subst s10. simpl. apply lookup_insert_eq. }
  assert (is_Some (<[original_filename a := VRef lrep]> resd !! file_ a)) as [v10 Hv10].
  { destruct (decide (original_filename a = file_ a)) as [-> | Hne].
    - rewrite lookup_insert_eq. eauto.
    - rewrite lookup_insert_ne by done. eauto. }
  rewrite (bind_ok _ _ _ _ _ (delitem_ok _ _ _ _ _ Hres10 Hv10)).
  set (s11 := set_heap _ s10).
  unfold bind at 1, storage_store at 1. rewrite bind_emit.
  remember (store E (heap s11) (VRef lres)) as ids eqn:Hids.
  assert (log_of s9 = log_of s) as Hlog9'.
  { by rewrite Hlog9, Hlog8, Hlog7, Hlog6, Hlog5, Hlog4. }
  unfold log_of in Hlog9'. injection Hlog9' as He9 Ht9 Hd9.
  exists (match ids with
          | [] => Raise (ValueError "Report failed to index")
          | _ :: _ => Ok (VRef lres)
          end),
         (mkState (heap s11) (tick s9) (db_ready s9)
            (events s9 ++ [EvStore (VRef lres) ids; EvStorageClose])), ids.
  split.
  { destruct ids; simpl; by rewrite <- app_assoc. }
  simpl. split_and!; try done.
  - intros l Hl1 Hl2 Hl3. rewrite !lookup_insert_ne by done.
    rewrite Hfr9, Hfr8, Hfr7, Hfr6, Hfr5, Hfr4; done.
  - rewrite !lookup_insert_ne by done. rewrite Hm9. simpl.
    rewrite !lookup_insert_ne by done. apply lookup_insert_eq.
  - by rewrite He9.
  - rewrite !lookup_insert_ne by done. exact Hrep9.
  - apply lookup_insert_eq.
Qed.

(** Lines 190 to 215 when the metadata is no dictionary: the first write
    under ['Scan Metadata'], if it is reached, raises; the store is not. *)
Lemma annotate_and_store_no_dict a results scan_time sub_conf n s :
  (∀ l, metadata a ≠ VRef l) →
  ∃ e s',
    annotate_and_store E a results scan_time sub_conf n s = (Raise e, s') ∧
    log_of s' = log_of s.
Proof.
  intros Hmd. unfold annotate_and_store.
  assert (∀ k st, getitem (metadata a) k st = (Raise TypeError, st)) as Hget.
  { intros k st. unfold getitem. destruct (metadata a) as [| | | |l|]; try done.
    by destruct (Hmd l). }
  assert (∀ k v st, setitem (metadata a) k v st = (Raise TypeError, st)) as Hset.
  { intros k v st. unfold setitem. destruct (metadata a) as [| | | |l|]; try done.
    by destruct (Hmd l). }
  destruct (getitem results (file_ a) s) as [[r|e] s1] eqn:Hg.
  2: { rewrite (bind_raise _ _ _ _ _ Hg). exists e, s1. split; [done|].
       by eapply heap_only_getitem. }
  rewrite (bind_ok _ _ _ _ _ Hg).
  assert (s1 = s ∧ ∃ lres resd, results = VRef lres ∧ heap s !! lres = Some resd ∧
                                resd !! file_ a = Some r)
    as (-> & lres & resd & -> & Hres & Hf).
  { unfold getitem in Hg. destruct results as [| | | |l|]; try done.
    destruct (heap s !! l) as [d|] eqn:Hl; [|done].
    destruct (d !! file_ a) as [v|] eqn:Hv; [|done].
    inversion Hg; subst. eauto 10. }
  destruct (setitem r "Scan Metadata" (metadata a) s) as [[[]|e] s2] eqn:Hs.
  2: { rewrite (bind_raise _ _ _ _ _ Hs). exists e, s2. split; [done|].
       by eapply heap_only_setitem. }
  rewrite (bind_ok _ _ _ _ _ Hs).
  assert (∃ lr dr, r = VRef lr ∧ heap s !! lr = Some dr ∧
            s2 = set_heap (<[lr := <["Scan Metadata" := metadata a]> dr]> (heap s)) s)
    as (lr & dr & -> & Hlr & ->).
  { unfold setitem in Hs. destruct r as [| | | |l|]; try done.
    destruct (heap s !! l) as [d|] eqn:Hl; [|done].
    inversion Hs; subst. eauto 10. }
  set (s2 := set_heap _ s).
  assert (heap s2 !! lr = Some (<["Scan Metadata" := metadata a]> dr)) as Hlr2.
  { subst s2. simpl. apply lookup_insert_eq. }
  assert (set_scan_metadata (VRef lres) (file_ a) "Worker Node" (VStr (gethostname E)) s2 =
          (Raise TypeError, s2)) as Hw.
  { unfold set_scan_metadata.
    destruct (decide (lres = lr)) as [-> | Hne].
    - assert (dr = resd) as -> by congruence.
      destruct (decide (file_ a = "Scan Metadata")) as [Heq | Hneq].
      + rewrite (bind_ok _ _ _ _ _ (getitem_ok _ _ (file_ a) (metadata a) _ Hlr2
                   ltac:(rewrite Heq; apply lookup_insert_eq))).
        by rewrite (bind_raise _ _ _ _ _ (Hget _ _)).
      + rewrite (bind_ok _ _ _ _ _ (getitem_ok _ _ (file_ a) (VRef lr) _ Hlr2
                   ltac:(by rewrite lookup_insert_ne))).
        rewrite (bind_ok _ _ _ _ _ (getitem_ok _ _ _ _ _ Hlr2 (lookup_insert_eq _ _ _))).
        apply Hset.
    - assert (heap s2 !! lres = Some resd) as Hres2.
      { subst s2. simpl. by rewrite lookup_insert_ne. }
      rewrite (bind_ok _ _ _ _ _ (getitem_ok _ _ _ _ _ Hres2 Hf)).
      rewrite (bind_ok _ _ _ _ _ (getitem_ok _ _ _ _ _ Hlr2 (lookup_insert_eq _ _ _))).
      apply Hset. }
  rewrite (bind_raise _ _ _ _ _ Hw). by exists TypeError, s2.
Qed.

End BodyStages.

(** ** The callbacks *)

Section Callbacks.

Variable E : env.

Lemma bind_db {B} (k : unit → M B) s :
  bind db k s =
  k tt (mkState (heap s) (tick s) true (events s ++ db_init_events s)).
Proof.
  unfold bind, db, db_init_events. destruct s as [h t [] ev]; simpl; [|done].
  by rewrite app_nil_r.
Qed.

Lemma on_failure_run exc a s :
  on_failure E exc a s =
  (Ok tt, mkState (heap s) (S (tick s)) true
            (events s ++ failure_events exc a s ++
             [EvUpdateTask (task_id a) "Failed" (VStr (now E (tick s)))])).
Proof.
  unfold on_failure, update_task, failure_events.
  rewrite !bind_emit, bind_now, bind_db. simpl.
  unfold bind, ret, emit. simpl. by rewrite <- !app_assoc.
Qed.

(** [on_success] either fails to find the scan time in the returned
    value, and updates nothing, or records [Complete] with what it found. *)
Lemma on_success_log retval a s r s' :
  on_success retval a s = (r, s') →
  tick s' = tick s ∧
  ((∃ e, r = Raise e ∧ events s' = (events s ++ success_events a s)%list) ∨
   (∃ t, r = Ok tt ∧
         events s' = (events s ++ success_events a s ++
                      [EvUpdateTask (task_id a) "Complete" t])%list)).
Proof.
  unfold on_success, update_task, success_events.
  rewrite bind_emit, bind_db. simpl.
  set (s1 := mkState _ _ _ _).
  rewrite (bind_ok (ret (task_id a)) _ s1 _ s1 eq_refl).
  intros H. unfold bind at 1 in H.
  match type of H with context [bind ?m ?k s1] =>
    assert (heap_only (bind m k)) as Hho by heap_only_tac;
    destruct (bind m k s1) as [[t|e] s2] eqn:Hrun end.
  - apply Hho in Hrun as Hlog. unfold log_of in Hlog. injection Hlog as He Ht Hd.
    unfold emit in H. inversion H; subst; simpl. split; [done|].
    right. exists t. split; [done|].
    rewrite He. subst s1; simpl. by rewrite <- !app_assoc.
  - apply Hho in Hrun as Hlog. unfold log_of in Hlog. injection Hlog as He Ht Hd.
    inversion H; subst. split; [done|]. left. exists e. split; [done|].
    rewrite He. subst s1; simpl. by rewrite <- !app_assoc.
Qed.

(** The lookup [retval[args[1]]] fails when the returned mapping has no
    entry for the original filename. *)
Lemma on_success_missing l resd a s :
  heap s !! l = Some resd → resd !! original_filename a = None →
  on_success (VRef l) a s =
  (Raise (KeyError (original_filename a)),
   mkState (heap s) (tick s) true (events s ++ success_events a s)).
Proof.
  intros Hl Hmiss. unfold on_success, update_task, success_events.
  rewrite bind_emit, bind_db. simpl.
  set (s1 := mkState _ _ _ _).
  rewrite (bind_ok (ret (task_id a)) _ s1 _ s1 eq_refl).
  assert (heap s1 !! l = Some resd) as Hl1 by done.
  unfold bind at 1.
  rewrite (bind_raise _ _ _ _ _ (getitem_missing _ _ _ _ Hl1 Hmiss)).
  subst s1. simpl. by rewrite <- !app_assoc.
Qed.

(** The lookup [retval[args[1]]['Scan Metadata']['Scan Time']] through the
    report and the metadata. *)
Lemma on_success_found lres resd lrep rep lm m t a s :
  heap s !! lres = Some resd → resd !! original_filename a = Some (VRef lrep) →
  heap s !! lrep = Some rep → rep !! "Scan Metadata" = Some (VRef lm) →
  heap s !! lm = Some m → m !! "Scan Time" = Some t →
  on_success (VRef lres) a s =
  (Ok tt, mkState (heap s) (tick s) true
            (events s ++ success_events a s ++ [EvUpdateTask (task_id a) "Complete" t])).
Proof.
  intros Hres Hf Hrep Hsm Hm Ht. unfold on_success, update_task, success_events.
  rewrite bind_emit, bind_db. simpl.
  set (s1 := mkState _ _ _ _).
  rewrite (bind_ok (ret (task_id a)) _ s1 _ s1 eq_refl).
  assert (heap s1 = heap s) as Hh by done.
  rewrite <- Hh in Hres, Hrep, Hm.
  unfold bind at 1.
  rewrite (bind_ok _ _ _ _ _ (getitem_ok _ _ _ _ _ Hres Hf)).
  rewrite (bind_ok _ _ _ _ _ (getitem_ok _ _ _ _ _ Hrep Hsm)).
  rewrite (getitem_ok _ _ _ _ _ Hm Ht).
  unfold emit. subst s1. simpl. by rewrite <- !app_assoc.
Qed.



End Callbacks.

(** ** Reading the log of a run *)

Lemma new_events_app s s' evs :
  events s' = (events s ++ evs)%list → new_events s s' = evs.
Proof. intros H. unfold new_events. rewrite H. apply drop_app_length. Qed.

Lemma final_status_update tid evs st t :
  final_status tid (evs ++ [EvUpdateTask tid st t]) = Some st.
Proof.
  unfold final_status, db_updates. rewrite !omap_app. simpl.
  rewrite decide_True by done. apply last_snoc.
Qed.

Lemma final_status_failed evs exc a s t :
  final_status (task_id a)
    (evs ++ failure_events exc a s ++ [EvUpdateTask (task_id a) "Failed" t]) =
  Some "Failed".
Proof. rewrite app_assoc. apply final_status_update. Qed.

Lemma store_calls_app evs1 evs2 :
  store_calls (evs1 ++ evs2) = (store_calls evs1 ++ store_calls evs2)%list.
Proof. apply omap_app. Qed.

Lemma db_updates_app evs1 evs2 :
  db_updates (evs1 ++ evs2) = (db_updates evs1 ++ db_updates evs2)%list.
Proof. apply omap_app. Qed.

Lemma store_calls_failure exc a s : store_calls (failure_events exc a s) = [].
Proof. unfold failure_events, db_init_events. by destruct (db_ready s). Qed.

Lemma db_updates_failure exc a s : db_updates (failure_events exc a s) = [].
Proof. unfold failure_events, db_init_events. by destruct (db_ready s). Qed.

Lemma store_calls_success a s : store_calls (success_events a s) = [].
Proof. unfold success_events, db_init_events. by destruct (db_ready s). Qed.

Lemma db_updates_success a s : db_updates (success_events a s) = [].
Proof. unfold success_events, db_init_events. by destruct (db_ready s). Qed.

(** ** The job dispatcher and the lifecycle tracker *)

Section Lifecycle.

Variable E : env.

(** A run whose body raises [exc]: [on_failure] records [Failed] with the
    time of the callback. *)
Lemma run_task_failure a s exc s1 :
  multiscanner_celery E a s = (Raise exc, s1) →
  run_task E a s =
  (Ok (FAILURE exc),
   mkState (heap s1) (S (tick s1)) true
     (events s1 ++ failure_events exc a s1 ++
      [EvUpdateTask (task_id a) "Failed" (VStr (now E (tick s1)))])).
Proof.
  intros Hb. unfold run_task. rewrite Hb.
  by rewrite (bind_ok _ _ _ _ _ (on_failure_run E exc a s1)).
Qed.

(** C1. When the scan succeeds and the store returns no backend id, the
    task body raises [ValueError('Report failed to index')] and the only
    status recorded for the job is [Failed]. *)
Theorem publish_failure_fails_job a s r s' :
  run_task E a s = (r, s') →
  (∃ res, (res, []) ∈ store_calls (new_events s s')) →
  (∃ reports, scan E [file_ a] (config_of E a) (module_list a) = Ok reports) ∧
  r = Ok (FAILURE (ValueError "Report failed to index")) ∧
  db_updates (new_events s s') =
    [(task_id a, "Failed", VStr (now E (S (tick s))))] ∧
  final_status (task_id a) (events s') = Some "Failed".
Proof.
  intros Hrun [res0 Hstore].
  destruct (multiscanner_celery E a s) as [[retval|exc] s1] eqn:Hb.
  - (* the body returned: the store gave an id *)
    exfalso.
    apply multiscanner_celery_log in Hb as Hlog.
    destruct Hlog as [(e & _ & Hr & _) | (reports & s0 & Hscan & He0 & Ht0 & Hd0 & Hpost)];
      [done|].
    destruct Hpost as (Ht & Hd & [(e & Hr & _) | (res & ids & Hids & He1 & Hr)]); [done|].
    destruct ids as [|i ids]; [done|].
    unfold run_task in Hrun. rewrite Hb in Hrun. unfold bind in Hrun.
    destruct (on_success retval a s1) as [[[]|e] s2] eqn:Hcb;
      inversion Hrun; subst r s'; clear Hrun;
      apply on_success_log in Hcb as (_ & [(e' & Hr' & He2) | (t & Hr' & He2)]);
      try done;
      rewrite He1, He0, <- !app_assoc in He2;
      rewrite (new_events_app _ _ _ He2) in Hstore;
      rewrite !store_calls_app, store_calls_success in Hstore; simpl in Hstore;
      apply list_elem_of_singleton in Hstore; done.
  - rewrite (run_task_failure _ _ _ _ Hb) in Hrun. inversion Hrun; subst r s'; clear Hrun.
    simpl in *.
    apply multiscanner_celery_log in Hb as Hlog.
    destruct Hlog as [(e & _ & Hr & Hs1) | (reports & s0 & Hscan & He0 & Ht0 & Hd0 & Hpost)].
    + exfalso. subst s1. simpl in Hstore.
      rewrite (new_events_app s _ (scan_prefix E a ++ failure_events exc a
                 (mkState (heap s) (tick s) (db_ready s) (events s ++ scan_prefix E a)) ++
                 [EvUpdateTask (task_id a) "Failed" (VStr (now E (tick s)))])) in Hstore
        by (simpl; by rewrite <- !app_assoc).
      rewrite !store_calls_app, store_calls_failure in Hstore. simpl in Hstore.
      by apply elem_of_nil in Hstore.
    + destruct Hpost as (Ht & Hd & [(e & Hr & He1) | (res & ids & Hids & He1 & Hr)]).
      * exfalso.
        rewrite (new_events_app s _ (scan_prefix E a ++ failure_events exc a s1 ++
                 [EvUpdateTask (task_id a) "Failed" (VStr (now E (tick s1)))])) in Hstore
          by (simpl; rewrite He1, He0; by rewrite <- !app_assoc).
        rewrite !store_calls_app, store_calls_failure in Hstore. simpl in Hstore.
        by apply elem_of_nil in Hstore.
      * destruct ids as [|i ids]; [|done]. injection Hr as ->.
        split; [eauto|]. split; [done|]. split.
        -- rewrite (new_events_app s _ (scan_prefix E a ++
                 [EvStore res []; EvStorageClose] ++
                 failure_events (ValueError "Report failed to index") a s1 ++
                 [EvUpdateTask (task_id a) "Failed" (VStr (now E (tick s1)))]))
             by (simpl; rewrite He1, He0; by rewrite <- !app_assoc).
           rewrite !db_updates_app, db_updates_failure. simpl.
           by rewrite Ht, Ht0.
        -- exact (final_status_failed (events s1) _ a s1 _).
Qed.

(** C7. When the engine returns no report for the submitted file the task
    body raises before the store is called, and the only status recorded
    for the job is [Failed]. *)
Theorem empty_result_fails_job a s reports :
  scan E [file_ a] (config_of E a) (module_list a) = Ok reports →
  reports !! file_ a = None →
  ∃ exc s',
    run_task E a s = (Ok (FAILURE exc), s') ∧
    (exc = KeyError (file_ a) ∨ exc = KeyError "ENABLED") ∧
    store_calls (new_events s s') = [] ∧
    db_updates (new_events s s') =
      [(task_id a, "Failed", VStr (now E (S (tick s))))] ∧
    final_status (task_id a) (events s') = Some "Failed".
Proof.
  intros Hscan Hnone.
  destruct (multiscanner_celery_scanned E a reports s Hscan) as (r & s1 & Hb & Hcases).
  assert (∃ exc, r = Raise exc ∧ (exc = KeyError (file_ a) ∨ exc = KeyError "ENABLED") ∧
                 events s1 = (events s ++ scan_prefix E a)%list ∧ tick s1 = S (tick s))
    as (exc & -> & Hexc & He1 & Ht1).
  { destruct Hcases as [(-> & _ & He & Ht & _) | [(_ & -> & He & Ht & _) | (rep & Hrep & _)]].
    - eauto 10.
    - eauto 10.
    - congruence. }
  eexists exc, _. split; [by apply run_task_failure|]. split; [done|].
  simpl.
  rewrite (new_events_app s _ (scan_prefix E a ++ failure_events exc a s1 ++
             [EvUpdateTask (task_id a) "Failed" (VStr (now E (tick s1)))]))
    by (simpl; rewrite He1; by rewrite <- !app_assoc).
  rewrite !store_calls_app, !db_updates_app, store_calls_failure, db_updates_failure.
  simpl. rewrite Ht1. split_and!; try done.
  exact (final_status_failed (events s1) _ a s1 _).
Qed.


(** What a returned value is: the dictionary of the results, in which the
    key of the submitted file has been deleted. *)
Lemma returned_lacks_file a s retval s' :
  multiscanner_celery E a s = (Ok retval, s') →
  ∃ l resd, retval = VRef l ∧ heap s' !! l = Some resd ∧ resd !! file_ a = None.
Proof.
  set (P := fun (r : result val) (s' : state) =>
    ∀ retval, r = Ok retval →
      ∃ l resd, retval = VRef l ∧ heap s' !! l = Some resd ∧ resd !! file_ a = None).
  assert (∀ A (m : M A) (k : A → M val),
            (∀ x s1 r s', k x s1 = (r, s') → P r s') →
            ∀ s r s', bind m k s = (r, s') → P r s') as Hbind.
  { intros A m k Hk s0 r s0' H. unfold bind in H.
    destruct (m s0) as [[x|e] s1]; [by eapply Hk|].
    inversion H; subst. intros ? [=]. }
  intros Hb. enough (P (Ok retval) s') as HP by (by apply HP).
  revert Hb. generalize (Ok retval). intros r. revert s r s'.
  unfold multiscanner_celery.
  do 15 (apply Hbind; intros ? ? ? ?).
  intros H. unfold bind at 1 in H.
  match type of H with context [delitem ?o ?f ?st] =>
    destruct (delitem o f st) as [[[]|e] sd] eqn:Hdel end.
  2: { inversion H; subst. intros ? [=]. }
  unfold delitem in Hdel.
  match type of Hdel with context [match ?o with VRef _ => _ | _ => _ end] =>
    destruct o as [| | | |l|] eqn:Ho; try done end.
  match type of Hdel with context [heap ?st !! l] =>
    destruct (heap st !! l) as [d|] eqn:Hl; [|done];
    destruct (d !! file_ a) eqn:Hf; [|done] end.
  inversion Hdel; subst sd; clear Hdel.
  unfold bind, storage_store, emit in H. simpl in H.
  match type of H with context [match ?ids with [] => _ | _ => _ end] =>
    destruct ids end; inversion H; subst; intros ? [= <-].
  exists l, (delete (file_ a) d). simpl.
  split_and!; [done | apply lookup_insert_eq | apply lookup_delete_eq].
Qed.

(** C9. When the original filename is the reference of the submitted
    file, the new key is the key that is deleted. Whenever the task body
    returns on such a job, the engine had reported on the file and the
    store was called and gave an id, yet the returned mapping, which is
    what the store was given, has no entry for the original filename;
    the lookup of the scan time in [on_success] raises [KeyError], and
    the run records no status. For a caller whose metadata is a
    dictionary the entry is seen to go: the results of the engine had
    the report of the file under its reference, the report was annotated
    and is still in the heap, and the returned mapping is these results
    with that one entry deleted. *)
Theorem same_name_drops_result a s retval s' :
  multiscanner_celery E a s = (Ok retval, s') →
  original_filename a = file_ a →
  (∃ l resd, retval = VRef l ∧ heap s' !! l = Some resd ∧
             resd !! original_filename a = None) ∧
  on_success retval a s' =
    (Raise (KeyError (original_filename a)),
     mkState (heap s') (tick s') true (events s' ++ success_events a s')) ∧
  (run_task E a s).1 = Raise (KeyError (original_filename a)) ∧
  db_updates (new_events s (run_task E a s).2) = [] ∧
  (∃ reports rep ids,
     scan E [file_ a] (config_of E a) (module_list a) = Ok reports ∧
     reports !! file_ a = Some rep ∧
     store_calls (new_events s s') = [(retval, ids)] ∧ ids ≠ []) ∧
  (∀ lm m, metadata a = VRef lm → heap s !! lm = Some m →
     ∃ reports rep lres lrep resd0,
       scan E [file_ a] (config_of E a) (module_list a) = Ok reports ∧
       reports !! file_ a = Some rep ∧
       resd0 !! file_ a = Some (VRef lrep) ∧
       (∀ f, is_Some (resd0 !! f) ↔ is_Some (reports !! f)) ∧
       heap s' !! lrep = Some (<["Scan Metadata" := VRef lm]> rep) ∧
       retval = VRef lres ∧
       heap s' !! lres = Some (delete (file_ a) resd0)).
Proof.
  intros Hb Hsame.
  destruct (returned_lacks_file a s retval s' Hb) as (l & resd & -> & Hl & Hnone).
  rewrite <- Hsame in Hnone.
  pose proof (on_success_missing l resd a s' Hl Hnone) as Hcb.
  split; [eauto|]. split; [done|].
  unfold run_task. rewrite Hb. rewrite (bind_raise _ _ _ _ _ Hcb). simpl.
  split; [done|].
  apply multiscanner_celery_log in Hb as Hlog.
  destruct Hlog as [(e & _ & Hr & _) | (reports & s0 & Hscan & He0 & Ht0 & Hd0 & Hpost)];
    [done|].
  destruct Hpost as (Ht & Hd & [(e & Hr & _) | (res & ids & Hids & He1 & Hr)]); [done|].
  split.
  { rewrite (new_events_app s _ (scan_prefix E a ++ [EvStore res ids; EvStorageClose] ++
               success_events a s'))
      by (simpl; rewrite He1, He0; by rewrite <- !app_assoc).
    by rewrite !db_updates_app, db_updates_success. }
  (* the two stages of the body *)
  destruct (multiscanner_celery_counted E a reports s Hscan)
    as (lres & resd0 & lsc & rt & s3 & D & Hbody & _ & _ & _ & HD & HresD & HscD &
        Hlres & Hlsc & Hsc_res & Hold & Hres3 & Habsent & Hpresent & _).
  rewrite Hb in Hbody.
  assert (∃ n, rt = Ok n) as [n ->].
  { destruct rt as [n|e]; [eauto | done]. }
  destruct (reports !! file_ a) as [rep|] eqn:Hfile.
  2: { unfold annotate_and_store in Hbody.
       rewrite (bind_raise _ _ _ _ _
                  (getitem_missing _ _ _ _ Hres3 (Habsent _ Hfile))) in Hbody.
       done. }
  split.
  { exists reports, rep, ids. split; [done|]. split; [done|].
    rewrite (new_events_app s s' (scan_prefix E a ++ [EvStore res ids; EvStorageClose]))
      by (rewrite He1, He0; by rewrite <- !app_assoc).
    rewrite store_calls_app.
    destruct ids as [|i ids]; [done|]. by injection Hr as <-. }
  intros lm m Hmeta Hm.
  assert (lm ∈ dom (heap s)) as Hlm by (apply elem_of_dom; eauto).
  destruct (Hpresent _ _ Hfile) as (lrep & Hf & HrepD & Hrep_res & Hrep_sc & Hlrep & Hrep3).
  assert (heap s3 !! lm = Some m) as Hm3 by (by rewrite Hold).
  destruct (annotate_and_store_run E a lres resd0 lrep rep lm m (now E (tick s)) (VRef lsc) n s3
              Hmeta Hres3 Hf Hrep3 Hm3)
    as (r & s'' & ids' & Hrun & _ & _ & _ & Hr' & _ & Hrep' & Hres');
    [by intros -> .. | done |].
  rewrite Hrun in Hbody. injection Hbody as <- <-.
  exists reports, rep, lres, lrep, resd0. split_and!; try done.
  - intros f. split.
    + intros [v Hv]. destruct (reports !! f) as [r|] eqn:Hrf; [eauto|].
      rewrite (Habsent f Hrf) in Hv. done.
    + intros [r Hrf]. destruct (Hpresent f r Hrf) as (l' & Hl' & _). eauto.
  - destruct ids'; by inversion Hr'.
  - rewrite Hres', Hsame. by rewrite delete_insert_eq.
Qed.

(** A run that returns, for a caller whose metadata is a dictionary, went
    through the store. *)
Lemma returned_published a s lm m retval s' :
  metadata a = VRef lm → heap s !! lm = Some m →
  multiscanner_celery E a s = (Ok retval, s') →
  ∃ reports rep,
    scan E [file_ a] (config_of E a) (module_list a) = Ok reports ∧
    reports !! file_ a = Some rep ∧
    tick s' = S (tick s) ∧
    published E a s rep lm m (Ok retval) s'.
Proof.
  intros Hmeta Hm Hb.
  apply multiscanner_celery_log in Hb as Hlog.
  destruct Hlog as [(e & _ & Hr & _) | (reports & s0 & Hscan & _)]; [done|].
  destruct (multiscanner_celery_scanned E a reports s Hscan) as (r & s1 & Hb' & Hcases).
  rewrite Hb in Hb'. injection Hb' as <- <-.
  destruct Hcases as [(Hr & _) | [(_ & Hr & _) | (rep & Hrep & Hpub)]]; try done.
  destruct (Hpub lm m Hmeta Hm) as (Ht & _ & Hp). eauto 10.
Qed.

(** The scan time reaches the task database: when the original filename is
    not the reference of the file, a run that returns records [Complete]
    with the time read after the scan, not with the time of the callback. *)
Lemma complete_records_scan_time a s lm m retval s1 :
  metadata a = VRef lm → heap s !! lm = Some m →
  original_filename a ≠ file_ a →
  multiscanner_celery E a s = (Ok retval, s1) →
  run_task E a s =
  (Ok SUCCESS,
   mkState (heap s1) (tick s1) true
     (events s1 ++ success_events a s1 ++
      [EvUpdateTask (task_id a) "Complete" (VStr (now E (tick s)))])).
Proof.
  intros Hmeta Hm Hne Hb.
  destruct (returned_published a s lm m retval s1 Hmeta Hm Hb)
    as (reports & rep & Hscan & Hrep & Ht & Hpub).
  destruct Hpub as (lres & lrep & lsc & resd & ids & _ & _ & _ & _ & Hids & He & Hr &
                    Hlm & Hlrep & Hlres & _ & Horig & _).
  assert (retval = VRef lres) as -> by (destruct ids; by inversion Hr).
  assert (scan_metadata E a lsc (tick s) m !! "Scan Time" =
          Some (VStr (now E (tick s)))) as Htime.
  { unfold scan_metadata. by rewrite lookup_insert_ne, lookup_insert_eq. }
  unfold run_task. rewrite Hb.
  rewrite (bind_ok _ _ _ _ _
    (on_success_found lres resd lrep _ lm _ (VStr (now E (tick s))) a s1
       Hlres (Horig Hne) Hlrep (lookup_insert_eq _ _ _) Hlm Htime)).
  done.
Qed.

(** C4, as the code has it. After a run that returns, the caller's
    metadata holds under ['Modules Enabled'] the string ["E / T"]: T is
    the number of entries of the configuration less one, and E is the
    length of the module subset when the subset given is not empty; with
    no subset, or with an empty one, E is the number of entries other
    than ["main"] whose [ENABLED] is [True]. *)
Theorem modules_enabled_ratio a s lm m retval s' :
  metadata a = VRef lm → heap s !! lm = Some m →
  multiscanner_celery E a s = (Ok retval, s') →
  (heap s' !! lm) ≫= (.!! "Modules Enabled") =
    Some (VStr (str_of_int
                  (Z.of_nat (match module_list a with
                             | Some (x :: l) => length (x :: l)
                             | _ => enabled_modules (config_of E a)
                             end))
                ++ " / "
                ++ str_of_int (Z.of_nat (size (config_of E a)) - 1))).
Proof.
  intros Hmeta Hm Hb.
  destruct (returned_published a s lm m retval s' Hmeta Hm Hb)
    as (reports & rep & Hscan & Hrep & Ht & Hpub).
  destruct Hpub as (lres & lrep & lsc & resd & ids & _ & _ & _ & _ & _ & _ & _ &
                    Hlm & _).
  rewrite Hlm. simpl. unfold scan_metadata.
  rewrite !lookup_insert_ne by done. rewrite lookup_insert_eq.
  unfold modules_enabled. by destruct (module_list a) as [[|x l]|].
Qed.

(** C10. The caller's metadata is installed in the report by reference and
    written in place: after a run that returns, the object the caller
    gave holds the five values of the dispatcher under ['Worker Node'],
    ['Scan Config'], ['Modules Enabled'], ['Scan Time'] and ['Task ID'],
    whatever it held under these keys, and holds under every other key
    what the caller had put there; the report of the engine for the file
    refers to this very object under ['Scan Metadata'], and is the
    envelope's entry for the original filename when this is not the
    reference of the file. *)
Theorem metadata_written_in_place a s lm m retval s' :
  metadata a = VRef lm → heap s !! lm = Some m →
  multiscanner_celery E a s = (Ok retval, s') →
  ∃ m' lsc lres lrep resd reports rep,
    heap s' !! lm = Some m' ∧
    m' !! "Worker Node" = Some (VStr (gethostname E)) ∧
    m' !! "Scan Config" = Some (VRef lsc) ∧ (lsc ∉ dom (heap s)) ∧
    m' !! "Modules Enabled" =
      Some (VStr (modules_enabled (config_of E a) (module_list a))) ∧
    m' !! "Scan Time" = Some (VStr (now E (tick s))) ∧
    m' !! "Task ID" = Some (task_id a) ∧
    (∀ k, k ∉ ["Worker Node"; "Scan Config"; "Modules Enabled"; "Scan Time"; "Task ID"] →
          m' !! k = m !! k) ∧
    scan E [file_ a] (config_of E a) (module_list a) = Ok reports ∧
    reports !! file_ a = Some rep ∧
    heap s' !! lrep = Some (<["Scan Metadata" := VRef lm]> rep) ∧
    retval = VRef lres ∧ heap s' !! lres = Some resd ∧
    (original_filename a ≠ file_ a → resd !! original_filename a = Some (VRef lrep)).
Proof.
  intros Hmeta Hm Hb.
  destruct (returned_published a s lm m retval s' Hmeta Hm Hb)
    as (reports & rep & Hscan & Hrep & Ht & Hpub).
  destruct Hpub as (lres & lrep & lsc & resd & ids & _ & _ & Hlsc & _ & Hids & He & Hr &
                    Hlm & Hlrep & Hlres & _ & Horig & _).
  assert (retval = VRef lres) as -> by (destruct ids; by inversion Hr).
  exists (scan_metadata E a lsc (tick s) m), lsc, lres, lrep, resd, reports, rep.
  unfold scan_metadata. split_and!; try done;
    try (by repeat (rewrite lookup_insert_ne by done); rewrite lookup_insert_eq).
  intros k Hk. rewrite !lookup_insert_ne; [done|..]; intros <-; apply Hk;
    repeat (first [by left | right]).
Qed.

End Lifecycle.

(** ** The periodic scheduler *)

Section Scheduler.

Variable E : env.

(** The loop over the handlers only calls [delete_index], with the days it
    is given, and logs; it calls it when there is an Elasticsearch handler. *)
Lemma delete_old_indices_spec handlers days s :
  ∃ r evs,
    delete_old_indices E handlers days s =
      (r, mkState (heap s) (tick s) (db_ready s) (events s ++ evs)) ∧
    Forall (eq days) (cleanup_calls evs) ∧
    ((∃ n, ElasticSearchStorage n ∈ handlers) → cleanup_calls evs ≠ []) ∧
    store_calls evs = [] ∧ db_updates evs = [].
Proof.
  revert s. induction handlers as [|h rest IH]; intros s.
  - exists (Ok tt), []. simpl. rewrite app_nil_r. destruct s. split_and!; try done.
    intros [n Hn]. by apply elem_of_nil in Hn.
  - simpl. destruct h as [n|n].
    + rewrite bind_emit.
      destruct (delete_index E (ElasticSearchStorage n) "metricbeat" days) as [v|e].
      * rewrite (bind_ok (ret v) _ _ v _ eq_refl).
        set (ev := if decide (v = VBool false)
                   then EvLog WARNING "Metricbeat Roller failed" []
                   else EvLog INFO "Metricbeat indices older than {} days deleted" [LVal days]).
        assert (∀ B (k : unit → M B) st,
                  bind (if decide (v = VBool false)
                        then emit (EvLog WARNING "Metricbeat Roller failed" [])
                        else emit (EvLog INFO "Metricbeat indices older than {} days deleted"
                                     [LVal days])) k st =
                  k tt (mkState (heap st) (tick st) (db_ready st) (events st ++ [ev])))
          as Hlog by (intros; subst ev; by case_decide).
        rewrite Hlog.
        match goal with |- context [delete_old_indices E rest days ?st] =>
          destruct (IH st) as (r & evs & Hrun & Hall & _ & Hst & Hdb) end.
        exists r, ([EvDeleteIndex (ElasticSearchStorage n) "metricbeat" days] ++ [ev] ++ evs)%list.
        rewrite Hrun. simpl events. rewrite <- !app_assoc.
        assert (cleanup_calls [ev] = []) as Hc1 by (subst ev; by case_decide).
        assert (store_calls [ev] = []) as Hc2 by (subst ev; by case_decide).
        assert (db_updates [ev] = []) as Hc3 by (subst ev; by case_decide).
        split; [done|].
        unfold cleanup_calls, store_calls, db_updates in *.
        rewrite !omap_app, Hc1, Hc2, Hc3, Hst, Hdb. simpl.
        split_and!; try done. by constructor.
      * exists (Raise e), [EvDeleteIndex (ElasticSearchStorage n) "metricbeat" days].
        rewrite (bind_raise (raise e) _ _ e _ eq_refl).
        split_and!; try done. by repeat constructor.
    + destruct (IH s) as (r & evs & Hrun & Hall & Hex & Hst & Hdb).
      exists r, evs. split_and!; try done.
      intros [m Hm]. apply Hex. exists m.
      apply elem_of_cons in Hm as [Hm|Hm]; [done|exact Hm].
Qed.

(** Every call of [metricbeat_rollover_celery] returns [None]: it opens the
    storage handler, then gives up when the flag is off, logs the
    [NameError] it raises when it has no days, or deletes the old
    indices with the days it resolved, and closes the handler. *)
Lemma metricbeat_rollover_celery_run days s :
  ∃ mid,
    metricbeat_rollover_celery E days s =
      (Ok VNone,
       mkState (heap s) (tick s) (db_ready s)
         (events s ++ [EvStorageOpen] ++ mid ++ [EvStorageClose])) ∧
    store_calls mid = [] ∧
    (truthy (heap s) (rollover_flag E) = false →
       mid = [EvLog DEBUG "Metricbeat logging not enbaled, exiting..." []]) ∧
    (truthy (heap s) (rollover_flag E) = true →
       truthy (heap s) (resolved_days E (heap s) days) = false →
       mid = [EvLog WARNING "{}"
                [LExn (NameError "name 'days' is not defined, check storage.ini for 'metricbeat_rollover_days' setting")]]) ∧
    (truthy (heap s) (rollover_flag E) = true →
       truthy (heap s) (resolved_days E (heap s) days) = true →
       Forall (eq (resolved_days E (heap s) days)) (cleanup_calls mid) ∧
       ((∃ n, ElasticSearchStorage n ∈ loaded_storage E) → cleanup_calls mid ≠ [])).
Proof.
  unfold metricbeat_rollover_celery, metricbeat_rollover_celery_built,
      new_storage_handler, close_storage_handler, try_finally, try_except.
  rewrite bind_emit.
  unfold bind at 1, get_heap at 1. cbv beta iota. cbn [heap].
  fold (rollover_flag E).
  destruct (truthy (heap s) (rollover_flag E)) eqn:Hflag; cbn [negb].
  - replace (if negb (truthy (heap s) days)
             then dict_get (es_storage_config E) "metricbeat_rollover_days" (VInt 7)
             else days) with (resolved_days E (heap s) days)
      by (unfold resolved_days; by destruct (truthy (heap s) days)).
    destruct (truthy (heap s) (resolved_days E (heap s) days)) eqn:Hdays; cbn [negb].
    + set (st := mkState (heap s) (tick s) (db_ready s) (events s ++ [EvStorageOpen])).
      destruct (delete_old_indices_spec (loaded_storage E) (resolved_days E (heap s) days) st)
        as (r & evs & Hrun & Hall & Hex & Hst & Hdb).
      unfold bind at 1. rewrite Hrun. destruct r as [[]|e].
      * exists evs. simpl. unfold emit. simpl. rewrite <- !app_assoc.
        split_and!; try done.
      * exists (evs ++ [EvLog WARNING "{}" [LExn e]])%list.
        simpl. unfold bind, emit, ret. simpl. rewrite <- !app_assoc.
        split_and!; try done.
        -- by rewrite store_calls_app, Hst.
        -- intros _ _. unfold cleanup_calls in *. rewrite omap_app. simpl.
           rewrite app_nil_r. done.
    + eexists [_]. simpl. unfold bind, emit, ret, raise. simpl. rewrite <- !app_assoc.
      split_and!; try done.
  - eexists [_]. simpl. unfold bind, emit, ret. simpl. rewrite <- !app_assoc.
    split_and!; try done.
Qed.

(** C6. With the flag off [setup_periodic_tasks] adds the correlation task
    and nothing else, and a call of the rollover action opens the storage
    handler, logs that it gives up and closes the handler: no index is
    deleted and nothing is stored. *)
Theorem rollover_disabled_no_work sender days s :
  truthy (heap s) (rollover_flag E) = false →
  setup_periodic_tasks E (heap s) sender =
    (sender ++ [mkEntry (mkCrontab 2 0) ssdeep_compare_celery_task [] [] low_tasks])%list ∧
  ∃ s',
    metricbeat_rollover_celery E days s = (Ok VNone, s') ∧
    heap s' = heap s ∧
    new_events s s' =
      [EvStorageOpen;
       EvLog DEBUG "Metricbeat logging not enbaled, exiting..." [];
       EvStorageClose] ∧
    cleanup_calls (new_events s s') = [] ∧
    store_calls (new_events s s') = [].
Proof.
  intros Hflag. split.
  - unfold setup_periodic_tasks. fold (rollover_flag E). by rewrite Hflag.
  - destruct (metricbeat_rollover_celery_run days s) as (mid & Hrun & _ & Hoff & _).
    rewrite (Hoff Hflag) in Hrun. eexists. split; [exact Hrun|].
    assert (new_events s (mkState (heap s) (tick s) (db_ready s)
              (events s ++ [EvStorageOpen] ++
               [EvLog DEBUG "Metricbeat logging not enbaled, exiting..." []] ++
               [EvStorageClose])) =
            [EvStorageOpen;
             EvLog DEBUG "Metricbeat logging not enbaled, exiting..." [];
             EvStorageClose]) as Hnew by (by apply new_events_app).
    rewrite Hnew. done.
Qed.

(** C8. With the flag on [setup_periodic_tasks] registers the rollover task
    with two positional arguments, the configured days and 7, and the
    keyword argument [config], for a function whose only parameter is
    [days]: every occurrence of the entry raises [TypeError] at the call,
    before the function is entered, and leaves no trace. So does any call
    with two positional arguments, or with a keyword [config]. *)
Theorem rollover_entry_arity_error sender h :
  truthy h (rollover_flag E) = true →
  ∃ e,
    setup_periodic_tasks E h sender =
      (sender ++ [mkEntry (mkCrontab 2 0) ssdeep_compare_celery_task [] [] low_tasks; e])%list ∧
    sig e = metricbeat_rollover_celery_task ∧
    p_args e = [dict_get (es_storage_config E) "metricbeat_rollover_days" VNone; VInt 7] ∧
    (p_kwargs e).*1 = ["config"] ∧
    task_params (sig e) = ["days"] ∧
    (∀ s, fire E e s = (Raise TypeError, s)) ∧
    (∀ x y kwargs s,
       call_task E metricbeat_rollover_celery_task [x; y] kwargs s = (Raise TypeError, s)) ∧
    (∀ x v s,
       call_task E metricbeat_rollover_celery_task [x] [("config", v)] s = (Raise TypeError, s)).
Proof.
  intros Hflag. eexists. split.
  - unfold setup_periodic_tasks. fold (rollover_flag E). rewrite Hflag.
    rewrite <- app_assoc. reflexivity.
  - simpl. split_and!; try done.
Qed.

End Scheduler.

(** * The properties on the example inputs *)

(** C1 on a worker whose store writes to no backend. *)
Lemma publish_failure_fails_job_witness :
  (∃ res, (res, []) ∈ store_calls (new_events st0 (run_task env_unpublished args0 st0).2)) ∧
  (run_task env_unpublished args0 st0).1 = Ok (FAILURE (ValueError "Report failed to index")) ∧
  final_status (VInt 7) (events (run_task env_unpublished args0 st0).2) = Some "Failed".
Proof.
  assert (∃ res, (res, []) ∈ store_calls (new_events st0 (run_task env_unpublished args0 st0).2))
    as Hstore.
  { exists (VRef 3%positive). vm_compute. left. }
  split; [exact Hstore|].
  destruct (publish_failure_fails_job env_unpublished args0 st0 _ _
              (surjective_pairing _) Hstore) as (_ & Hr & _ & Hfinal).
  split; [exact Hr | exact Hfinal].
Defined.

(** C7 on a worker whose engine reports nothing. *)
Lemma empty_result_fails_job_witness :
  ∃ exc s',
    run_task env_empty args0 st0 = (Ok (FAILURE exc), s') ∧
    store_calls (new_events st0 s') = [] ∧
    final_status (VInt 7) (events s') = Some "Failed".
Proof.
  destruct (empty_result_fails_job env_empty args0 st0 ∅ eq_refl eq_refl)
    as (exc & s' & Hrun & _ & Hstore & _ & Hfinal).
  exists exc, s'. split; [exact Hrun|]. split; [exact Hstore | exact Hfinal].
Defined.



(** C3 fails on a job whose original filename is the path of the file: the
    scan and the store succeed, and no status is recorded. *)
Lemma complete_not_recorded_same_name :
  (multiscanner_celery env0 args_same st0).1 = Ok (VRef 3%positive) ∧
  store_calls (events (run_task env0 args_same st0).2) =
    [(VRef 3%positive, [VStr "ElasticSearchStorage"])] ∧
  (run_task env0 args_same st0).1 = Raise (KeyError "/tmp/f1") ∧
  db_updates (events (run_task env0 args_same st0).2) = [].
Proof. by vm_compute. Qed.

(** C9 on the same job: the engine reports on the file, the store is
    given the mapping and answers, and the mapping returned is the
    results less the entry of the file. *)
Lemma same_name_drops_result_witness :
  original_filename args_same = file_ args_same ∧
  (run_task env0 args_same st0).1 = Raise (KeyError "/tmp/f1") ∧
  db_updates (new_events st0 (run_task env0 args_same st0).2) = [] ∧
  (∃ ids, store_calls (new_events st0 (multiscanner_celery env0 args_same st0).2) =
            [(VRef 3%positive, ids)] ∧ ids ≠ []) ∧
  ∃ lrep resd0,
    resd0 !! "/tmp/f1" = Some (VRef lrep) ∧
    heap (multiscanner_celery env0 args_same st0).2 !! 3%positive =
      Some (delete "/tmp/f1" resd0).
Proof.
  split; [reflexivity|].
  destruct (same_name_drops_result env0 args_same st0 (VRef 3%positive)
              (multiscanner_celery env0 args_same st0).2)
    as (_ & _ & Hr & Hdb & (reports & rep & ids & _ & _ & Hstore & Hids) & Hgone).
  { vm_compute. reflexivity. }
  { reflexivity. }
  split; [exact Hr|]. split; [exact Hdb|].
  split; [exists ids; split; [exact Hstore | exact Hids]|].
  destruct (Hgone 1%positive {[ "submitter" := VStr "alice"; "Task ID" := VInt 0 ]}
              eq_refl)
    as (reports' & rep' & lres & lrep & resd0 & _ & _ & Hin & _ & _ & Hret & Hres).
  { vm_compute. reflexivity. }
  injection Hret as <-.
  exists lrep, resd0. split; [exact Hin | exact Hres].
Defined.

(** C4 on the configuration of four modules, two of them enabled. *)
Lemma modules_enabled_ratio_witness :
  (heap (multiscanner_celery env0 args0 st0).2 !! 1%positive) ≫= (.!! "Modules Enabled") =
    Some (VStr "2 / 4") ∧
  (heap (multiscanner_celery env0 args_subset st0).2 !! 1%positive) ≫= (.!! "Modules Enabled") =
    Some (VStr "3 / 4").
Proof.
  split.
  - rewrite (modules_enabled_ratio env0 args0 st0 1%positive _ (VRef 3%positive) _
               eq_refl eq_refl); [by vm_compute|].
    by vm_compute.
  - rewrite (modules_enabled_ratio env0 args_subset st0 1%positive _ (VRef 3%positive) _
               eq_refl eq_refl); [by vm_compute|].
    by vm_compute.
Defined.

(** C4 as the claim has it fails on an empty subset: the subset given has
    no module, and the ratio is that of the configuration, 2 of 4. *)
Lemma empty_subset_counts_config :
  module_list args_empty_subset = Some [] ∧
  (heap (multiscanner_celery env0 args_empty_subset st0).2 !! 1%positive)
     ≫= (.!! "Modules Enabled") = Some (VStr "2 / 4") ∧
  (heap (multiscanner_celery env0 args_empty_subset st0).2 !! 1%positive)
     ≫= (.!! "Modules Enabled") ≠
    Some (VStr (str_of_int (Z.of_nat (length (@nil string))) ++ " / " ++ "4")).
Proof.
  assert ((heap (multiscanner_celery env0 args_empty_subset st0).2 !! 1%positive)
            ≫= (.!! "Modules Enabled") = Some (VStr "2 / 4")) as H by (by vm_compute).
  split; [reflexivity|]. split; [exact H|]. rewrite H. by vm_compute.
Qed.

(** C10 on the first example: the caller's [Task ID] is overwritten and
    the caller's [submitter] is kept. *)
Lemma metadata_written_in_place_witness :
  ∃ m',
    heap (multiscanner_celery env0 args0 st0).2 !! 1%positive = Some m' ∧
    m' !! "Task ID" = Some (VInt 7) ∧
    m' !! "submitter" = Some (VStr "alice").
Proof.
  destruct (metadata_written_in_place env0 args0 st0 1%positive
              {[ "submitter" := VStr "alice"; "Task ID" := VInt 0 ]}
              (VRef 3%positive)
              (multiscanner_celery env0 args0 st0).2 eq_refl eq_refl)
    as (m' & lsc & lres & lrep & resd & reports & rep &
        Hm' & _ & _ & _ & _ & _ & Hid & Hother & _).
  { by vm_compute. }
  exists m'. split; [exact Hm'|]. split; [exact Hid|].
  rewrite Hother; [reflexivity|].
  intros Hin. vm_compute in Hin. repeat (apply elem_of_cons in Hin as [Hin|Hin]; [discriminate Hin|]).
  by apply elem_of_nil in Hin.
Defined.

(** C5 fails on every scheduled occurrence. With a retention of 14 days
    configured the entry is registered with the positional arguments 14
    and 7 and the keyword [config]; its occurrence raises [TypeError] at
    the call, before the body: the state is as it was, so no days are
    resolved, no index is cleaned and nothing is caught or logged. With
    no retention configured the arguments are [None] and 7, and the
    occurrence fails alike: the fallback is not used either. The body,
    when it is reached by a call with one argument, works with 14. *)
Lemma rollover_firing_resolves_nothing :
  (∃ e,
     setup_periodic_tasks (env_es es_14) (heap st0) [] =
       [mkEntry (mkCrontab 2 0) ssdeep_compare_celery_task [] [] low_tasks; e] ∧
     sig e = metricbeat_rollover_celery_task ∧
     p_args e = [VInt 14; VInt 7] ∧
     fire (env_es es_14) e st0 = (Raise TypeError, st0)) ∧
  (∃ e,
     setup_periodic_tasks env0 (heap st0) [] =
       [mkEntry (mkCrontab 2 0) ssdeep_compare_celery_task [] [] low_tasks; e] ∧
     sig e = metricbeat_rollover_celery_task ∧
     p_args e = [VNone; VInt 7] ∧
     fire env0 e st0 = (Raise TypeError, st0)) ∧
  cleanup_calls (events (metricbeat_rollover_celery (env_es es_14) VNone st0).2) =
    [VInt 14].
Proof.
  split; [|split].
  - eexists. vm_compute. split; [reflexivity|]. split; [reflexivity|].
    split; reflexivity.
  - eexists. vm_compute. split; [reflexivity|]. split; [reflexivity|].
    split; reflexivity.
  - vm_compute. reflexivity.
Qed.

(** A direct call with its own days: with a retention of 14 days
    configured, a call with 30 deletes the indices older than 30 days. *)
Lemma rollover_days_not_from_config :
  dict_get (es_storage_config (env_es es_14)) "metricbeat_rollover_days" (VInt 7) = VInt 14 ∧
  cleanup_calls (events (metricbeat_rollover_celery (env_es es_14) (VInt 30) st0).2) =
    [VInt 30] ∧
  ¬ Forall (eq (VInt 14))
      (cleanup_calls (events (metricbeat_rollover_celery (env_es es_14) (VInt 30) st0).2)).
Proof.
  assert (cleanup_calls (events (metricbeat_rollover_celery (env_es es_14) (VInt 30) st0).2) =
          [VInt 30]) as H by (by vm_compute).
  split; [by vm_compute|]. split; [exact H|].
  rewrite H. intros Hall. apply Forall_cons in Hall as [Heq _]. discriminate Heq.
Qed.

(** C6 with the rollover switched off. *)
Lemma rollover_disabled_no_work_witness :
  truthy (heap st0) (rollover_flag (env_es es_off)) = false ∧
  length (setup_periodic_tasks (env_es es_off) (heap st0) []) = 1%nat ∧
  ∃ s',
    metricbeat_rollover_celery (env_es es_off) (VInt 7) st0 = (Ok VNone, s') ∧
    cleanup_calls (new_events st0 s') = [].
Proof.
  split; [reflexivity|].
  destruct (rollover_disabled_no_work (env_es es_off) [] (VInt 7) st0 eq_refl)
    as (Hsetup & s' & Hrun & _ & _ & Hclean & _).
  split; [by rewrite Hsetup|].
  exists s'. split; [exact Hrun | exact Hclean].
Defined.

(** C8 on the first example, whose flag is unset. *)
Lemma rollover_entry_arity_error_witness :
  truthy (heap st0) (rollover_flag env0) = true ∧
  ∃ e,
    e ∈ setup_periodic_tasks env0 (heap st0) [] ∧
    sig e = metricbeat_rollover_celery_task ∧
    fire env0 e st0 = (Raise TypeError, st0).
Proof.
  split; [reflexivity|].
  destruct (rollover_entry_arity_error env0 [] (heap st0) eq_refl)
    as (e & Hsetup & Hsig & _ & _ & _ & Hfire & _).
  exists e. split; [|split; [exact Hsig | exact (Hfire st0)]].
  rewrite Hsetup. simpl. right. left.
Defined.

(** * Further properties of the worker *)

(** ** What a run of a job does, and does not *)

Section Attempts.

Variable E : env.

(** The events of a run: the scan, then the store and the close of the
    handler when the store is reached, then those of the callback. *)
Lemma run_task_events a s r s' :
  run_task E a s = (r, s') →
  ∃ mid cb s1,
    events s' = (events s ++ scan_prefix E a ++ mid ++ cb)%list ∧
    db_ready s1 = db_ready s ∧ db_ready s' = true ∧
    (mid = [] ∨ ∃ res ids, mid = [EvStore res ids; EvStorageClose]) ∧
    ((∃ exc t, cb = (failure_events exc a s1 ++ [EvUpdateTask (task_id a) "Failed" t])%list) ∨
     cb = success_events a s1 ∨
     (∃ t, cb = (success_events a s1 ++ [EvUpdateTask (task_id a) "Complete" t])%list)).
Proof.
  intros Hrun.
  destruct (multiscanner_celery E a s) as [[retval|exc] s1] eqn:Hb.
  - apply multiscanner_celery_log in Hb as Hlog.
    destruct Hlog as [(e & _ & Hr & _) | (reports & s0 & Hscan & He0 & Ht0 & Hd0 & Hpost)];
      [done|].
    destruct Hpost as (Ht & Hd & [(e & Hr & _) | (res & ids & Hids & He1 & Hr)]); [done|].
    unfold run_task in Hrun. rewrite Hb in Hrun. unfold bind in Hrun.
    destruct (on_success retval a s1) as [rc s2] eqn:Hcb.
    assert (db_ready s2 = true) as Hready.
    { revert Hcb. unfold on_success, update_task. rewrite bind_emit, bind_db.
      set (st := mkState _ _ _ _). rewrite (bind_ok (ret (task_id a)) _ st _ st eq_refl).
      intros H. unfold bind at 1 in H.
      match type of H with context [bind ?m ?k st] =>
        assert (heap_only (bind m k)) as Hho by heap_only_tac;
        destruct (bind m k st) as [[t|e] s3] eqn:Hl end;
        apply Hho in Hl; unfold log_of in Hl; injection Hl as _ _ Hd3;
        inversion H; subst; simpl; by rewrite ?Hd3. }
    apply on_success_log in Hcb as (_ & Hcases).
    exists [EvStore res ids; EvStorageClose].
    destruct Hcases as [(e' & -> & He2) | (t & -> & He2)];
      inversion Hrun; subst r s'; clear Hrun;
      rewrite He1, He0, <- !app_assoc in He2.
    + exists (success_events a s1), s1.
      split_and!; eauto; congruence.
    + exists (success_events a s1 ++ [EvUpdateTask (task_id a) "Complete" t])%list, s1.
      split_and!; eauto; congruence.
  - rewrite (run_task_failure _ _ _ _ _ Hb) in Hrun. inversion Hrun; subst r s'; clear Hrun.
    apply multiscanner_celery_log in Hb as Hlog.
    assert (∃ mid, events s1 = (events s ++ scan_prefix E a ++ mid)%list ∧
                   db_ready s1 = db_ready s ∧
                   (mid = [] ∨ ∃ res ids, mid = [EvStore res ids; EvStorageClose]))
      as (mid & He1 & Hd1 & Hmid).
    { destruct Hlog as [(e & _ & Hr & ->) | (reports & s0 & Hscan & He0 & Ht0 & Hd0 & Hpost)].
      - exists []. split_and!; [|done|by left]. simpl. reflexivity.
      - destruct Hpost as (Ht & Hd & [(e & Hr & He1) | (res & ids & Hids & He1 & Hr)]).
        + exists []. split_and!; [|congruence|by left]. by rewrite He1, He0, app_nil_r.
        + exists [EvStore res ids; EvStorageClose]. split_and!; [|congruence|eauto].
          by rewrite He1, He0, <- app_assoc. }
    exists mid,
      (failure_events exc a s1 ++
       [EvUpdateTask (task_id a) "Failed" (VStr (now E (tick s1)))])%list, s1.
    split_and!; try done.
    + simpl. rewrite He1. by rewrite <- !app_assoc.
    + left. eauto.
Qed.

(** A job is attempted once: every run calls the scan engine exactly once,
    on the submitted file alone, calls the store at most once and updates
    the status of the job at most once. Nothing is tried again. *)
Theorem run_is_single_attempt a s :
  let evs := new_events s (run_task E a s).2 in
  scan_calls evs = [[file_ a]] ∧
  (length (store_calls evs) ≤ 1)%nat ∧
  (length (db_updates evs) ≤ 1)%nat.
Proof.
  destruct (run_task_events a s _ _ (surjective_pairing _))
    as (mid & cb & s1 & Hnew & _ & _ & Hmid & Hcb).
  simpl. rewrite (new_events_app _ _ _ Hnew).
  unfold scan_calls, store_calls, db_updates. rewrite !omap_app, !length_app.
  destruct Hmid as [-> | (res & ids & ->)];
    destruct Hcb as [(exc & t & ->) | [-> | (t & ->)]];
    unfold failure_events, success_events, db_init_events;
    destruct (db_ready s1); simpl; split_and!; done || lia.
Qed.

(** The storage handler opened at the start of a run is closed exactly
    when the store has been called: a run that raises before the store,
    be it in the scan or on a missing report, leaves the handler open. *)
Theorem storage_handler_closed_iff_stored a s :
  let evs := new_events s (run_task E a s).2 in
  storage_opens evs = 1%nat ∧
  storage_closes evs = length (store_calls evs).
Proof.
  destruct (run_task_events a s _ _ (surjective_pairing _))
    as (mid & cb & s1 & Hnew & _ & _ & Hmid & Hcb).
  simpl. rewrite (new_events_app _ _ _ Hnew).
  unfold storage_opens, storage_closes, store_calls. rewrite !omap_app, !length_app.
  destruct Hmid as [-> | (res & ids & ->)];
    destruct Hcb as [(exc & t & ->) | [-> | (t & ->)]];
    unfold failure_events, success_events, db_init_events;
    destruct (db_ready s1); simpl; split_and!; done || lia.
Qed.

(** The task database is opened by the first callback that needs it and
    never again: a run opens it when it was not open yet, and leaves it
    open. *)
Theorem task_database_opened_once a s :
  db_ready (run_task E a s).2 = true ∧
  db_inits (new_events s (run_task E a s).2) = (if db_ready s then 0 else 1)%nat.
Proof.
  destruct (run_task_events a s _ _ (surjective_pairing _))
    as (mid & cb & s1 & Hnew & Hd1 & Hready & Hmid & Hcb).
  split; [done|]. rewrite (new_events_app _ _ _ Hnew).
  unfold db_inits. rewrite !omap_app, !length_app.
  destruct Hmid as [-> | (res & ids & ->)];
    destruct Hcb as [(exc & t & ->) | [-> | (t & ->)]];
    unfold failure_events, success_events, db_init_events;
    rewrite Hd1; destruct (db_ready s); simpl; done.
Qed.

(** When the scan engine raises, the job fails with the engine's own
    exception: the caller's objects are left as they were, nothing is
    stored, and [Failed] is recorded with the time of the callback. *)
Theorem engine_error_fails_job a s e :
  scan E [file_ a] (config_of E a) (module_list a) = Raise e →
  ∃ s',
    run_task E a s = (Ok (FAILURE e), s') ∧
    heap s' = heap s ∧
    store_calls (new_events s s') = [] ∧
    db_updates (new_events s s') = [(task_id a, "Failed", VStr (now E (tick s)))] ∧
    final_status (task_id a) (events s') = Some "Failed".
Proof.
  intros Hscan.
  destruct (multiscanner_celery E a s) as [r s1] eqn:Hb.
  apply multiscanner_celery_log in Hb as Hlog.
  destruct Hlog as [(e' & Hscan' & -> & ->) | (reports & _ & Hscan' & _)]; [|congruence].
  assert (e' = e) as -> by congruence.
  eexists. split; [by apply run_task_failure|]. simpl. split; [done|].
  rewrite (new_events_app s _ (scan_prefix E a ++ failure_events e a
             (mkState (heap s) (tick s) (db_ready s) (events s ++ scan_prefix E a)) ++
             [EvUpdateTask (task_id a) "Failed" (VStr (now E (tick s)))]))
    by (simpl; by rewrite <- !app_assoc).
  rewrite !store_calls_app, !db_updates_app, store_calls_failure, db_updates_failure.
  split_and!; try done.
  exact (final_status_failed (events s ++ scan_prefix E a) _ a
           (mkState (heap s) (tick s) (db_ready s) (events s ++ scan_prefix E a)) _).
Qed.

(** A task body that returns has stored what it returns: the store was
    called on the returned mapping and gave at least one backend id, the
    handler was closed, and the mapping has no entry under the reference
    of the submitted file. *)
Theorem returned_was_stored a s retval s' :
  multiscanner_celery E a s = (Ok retval, s') →
  ∃ ids l resd,
    ids = store E (heap s') retval ∧ ids ≠ [] ∧
    new_events s s' = (scan_prefix E a ++ [EvStore retval ids; EvStorageClose])%list ∧
    retval = VRef l ∧ heap s' !! l = Some resd ∧ resd !! file_ a = None.
Proof.
  intros Hb.
  destruct (returned_lacks_file E a s retval s' Hb) as (l & resd & Hret & Hl & Hnone).
  apply multiscanner_celery_log in Hb as Hlog.
  destruct Hlog as [(e & _ & Hr & _) | (reports & s0 & Hscan & He0 & Ht0 & Hd0 & Hpost)];
    [done|].
  destruct Hpost as (Ht & Hd & [(e & Hr & _) | (res & ids & Hids & He1 & Hr)]); [done|].
  destruct ids as [|i ids]; [done|]. injection Hr as ->.
  exists (i :: ids), l, resd. split_and!; try done.
  apply new_events_app. rewrite He1, He0. by rewrite <- !app_assoc.
Qed.

(** When the store gives no id the annotations stay: the caller's metadata
    has been written and is not put back. *)
Theorem publish_failure_keeps_annotations a s lm m reports s' :
  metadata a = VRef lm → heap s !! lm = Some m →
  scan E [file_ a] (config_of E a) (module_list a) = Ok reports →
  multiscanner_celery E a s = (Raise (ValueError "Report failed to index"), s') →
  ∃ m' res,
    heap s' !! lm = Some m' ∧
    m' !! "Worker Node" = Some (VStr (gethostname E)) ∧
    m' !! "Scan Time" = Some (VStr (now E (tick s))) ∧
    m' !! "Task ID" = Some (task_id a) ∧
    store_calls (new_events s s') = [(res, [])].
Proof.
  intros Hmeta Hm Hscan Hb.
  destruct (multiscanner_celery_scanned E a reports s Hscan) as (r & s1 & Hb' & Hcases).
  rewrite Hb in Hb'. injection Hb' as <- <-.
  destruct Hcases as [(Hr & _) | [(_ & Hr & _) | (rep & Hrep & Hpub)]]; try done.
  destruct (Hpub lm m Hmeta Hm) as (_ & _ & Hp).
  destruct Hp as (lres & lrep & lsc & resd & ids & _ & _ & _ & _ & Hids & He & Hr &
                  Hlm & _).
  destruct ids as [|i ids]; [|done].
  exists (scan_metadata E a lsc (tick s) m), (VRef lres).
  split; [done|]. unfold scan_metadata.
  split_and!;
    try (by repeat (rewrite lookup_insert_ne by done); rewrite lookup_insert_eq).
  by rewrite (new_events_app _ _ _ He).
Qed.

(** A run records a status for its own job alone: the status recorded
    for any other job is after the run what it was before. *)
Theorem run_updates_own_task_only a s tid :
  tid ≠ task_id a →
  final_status tid (events (run_task E a s).2) = final_status tid (events s).
Proof.
  intros Hne.
  destruct (run_task_events a s _ _ (surjective_pairing _))
    as (mid & cb & s1 & Hev & _ & _ & Hmid & Hcb).
  rewrite Hev. unfold final_status.
  rewrite !db_updates_app, !omap_app.
  assert (db_updates (scan_prefix E a) = []) as -> by done.
  assert (db_updates mid = []) as ->.
  { by destruct Hmid as [-> | (res & ids & ->)]. }
  assert (omap (fun u : val * string * val =>
                  if decide (u.1.1 = tid) then Some u.1.2 else None) (db_updates cb) = [])
    as ->.
  { destruct Hcb as [(exc & t & ->) | [-> | (t & ->)]];
      rewrite ?db_updates_app, ?db_updates_failure, ?db_updates_success; simpl;
      try done; by rewrite decide_False. }
  simpl. by rewrite !app_nil_r.
Qed.

End Attempts.

(** ** More on the periodic tasks *)

Section MoreScheduler.

Variable E : env.

(** In a list, the first element with a property is where it is. *)
Lemma first_split_unique {A} (P : A → Prop) (pre pre' : list A) h h' post post' :
  (pre ++ h :: post = pre' ++ h' :: post')%list →
  P h → P h' →
  (∀ x, x ∈ pre → ¬ P x) → (∀ x, x ∈ pre' → ¬ P x) →
  pre = pre' ∧ h = h'.
Proof.
  revert pre'. induction pre as [|x pre IH]; intros [|x' pre'] Heq Ph Ph' Hpre Hpre'.
  - simpl in Heq. by injection Heq as -> _.
  - simpl in Heq. injection Heq as -> _. destruct (Hpre' x'); [left | done].
  - simpl in Heq. injection Heq as -> _. destruct (Hpre h'); [left | done].
  - simpl in Heq. injection Heq as -> Heq.
    destruct (IH pre' Heq Ph Ph') as [-> ->]; [| | done].
    + intros y Hy. apply Hpre. by right.
    + intros y Hy. apply Hpre'. by right.
Qed.

(** The loop over the handlers, in full: it calls [delete_index] on the
    Elasticsearch handlers in order, skips the others, goes on after an
    answer [False], and stops at the first call that raises. *)
Lemma delete_old_indices_trace handlers days s :
  ∃ r evs,
    delete_old_indices E handlers days s =
      (r, mkState (heap s) (tick s) (db_ready s) (events s ++ evs)) ∧
    storage_opens evs = 0%nat ∧ storage_closes evs = 0%nat ∧
    store_calls evs = [] ∧ db_updates evs = [] ∧ logged_exceptions evs = [] ∧
    match r with
    | Ok _ =>
        (∀ h, h ∈ handlers → is_elastic h = true →
              ∃ v, delete_index E h "metricbeat" days = Ok v) ∧
        cleanup_calls evs = replicate (length (elastic_handlers handlers)) days
    | Raise e =>
        ∃ pre h post,
          handlers = (pre ++ h :: post)%list ∧ is_elastic h = true ∧
          delete_index E h "metricbeat" days = Raise e ∧
          (∀ h', h' ∈ pre → is_elastic h' = true →
                 ∃ v, delete_index E h' "metricbeat" days = Ok v) ∧
          cleanup_calls evs =
            replicate (S (length (elastic_handlers pre))) days
    end.
Proof.
  revert s. induction handlers as [|h rest IH]; intros s.
  - exists (Ok tt), []. simpl. rewrite app_nil_r. destruct s. split_and!; try done.
    intros h Hh. by apply elem_of_nil in Hh.
  - simpl. destruct h as [n|n].
    + rewrite bind_emit.
      destruct (delete_index E (ElasticSearchStorage n) "metricbeat" days) as [v|e] eqn:Hdel.
      * rewrite (bind_ok (ret v) _ _ v _ eq_refl).
        set (ev := if decide (v = VBool false)
                   then EvLog WARNING "Metricbeat Roller failed" []
                   else EvLog INFO "Metricbeat indices older than {} days deleted" [LVal days]).
        assert (∀ B (k : unit → M B) st,
                  bind (if decide (v = VBool false)
                        then emit (EvLog WARNING "Metricbeat Roller failed" [])
                        else emit (EvLog INFO "Metricbeat indices older than {} days deleted"
                                     [LVal days])) k st =
                  k tt (mkState (heap st) (tick st) (db_ready st) (events st ++ [ev])))
          as Hlog by (intros; subst ev; by case_decide).
        rewrite Hlog.
        match goal with |- context [delete_old_indices E rest days ?st] =>
          destruct (IH st) as (r & evs & Hrun & Ho & Hc & Hst & Hdb & Hle & Hr) end.
        exists r, ([EvDeleteIndex (ElasticSearchStorage n) "metricbeat" days] ++ [ev] ++ evs)%list.
        rewrite Hrun. cbn [events heap tick db_ready]. rewrite <- !app_assoc.
        assert (cleanup_calls [ev] = [] ∧ store_calls [ev] = [] ∧ db_updates [ev] = [] ∧
                logged_exceptions [ev] = [] ∧ storage_opens [ev] = 0%nat ∧
                storage_closes [ev] = 0%nat) as (Hc1 & Hc2 & Hc3 & Hc4 & Hc5 & Hc6)
          by (subst ev; by case_decide).
        split; [done|].
        unfold cleanup_calls, store_calls, db_updates, logged_exceptions,
          storage_opens, storage_closes in *.
        rewrite !omap_app, !length_app, Hc1, Hc2, Hc3, Hc4, Hc5, Hc6, Ho, Hc, Hst, Hdb, Hle.
        split_and!; try done.
        destruct r as [[]|e].
        -- destruct Hr as (Hall & Hcl). split.
           ++ intros h Hh Hes. apply elem_of_cons in Hh as [-> | Hh]; eauto.
           ++ rewrite Hcl. reflexivity.
        -- destruct Hr as (pre & h & post & -> & Hes & Hraise & Hpre & Hcl).
           exists (ElasticSearchStorage n :: pre), h, post. split_and!; try done.
           ++ intros h' Hh' Hes'. apply elem_of_cons in Hh' as [-> | Hh']; eauto.
           ++ rewrite Hcl. reflexivity.
      * exists (Raise e), [EvDeleteIndex (ElasticSearchStorage n) "metricbeat" days].
        rewrite (bind_raise (raise e) _ _ e _ eq_refl).
        split_and!; try done.
        exists [], (ElasticSearchStorage n), rest. split_and!; try done.
        intros h' Hh'. by apply elem_of_nil in Hh'.
    + destruct (IH s) as (r & evs & Hrun & Ho & Hc & Hst & Hdb & Hle & Hr).
      exists r, evs. split_and!; try done.
      destruct r as [[]|e].
      * destruct Hr as (Hall & Hcl). split; [|exact Hcl].
        intros h Hh Hes. apply elem_of_cons in Hh as [-> | Hh]; [done|eauto].
      * destruct Hr as (pre & h & post & -> & Hes & Hraise & Hpre & Hcl).
        exists (OtherStorage n :: pre), h, post. split_and!; try done.
        intros h' Hh' Hes'. apply elem_of_cons in Hh' as [-> | Hh']; [done|eauto].
Qed.

(** The three ways through [metricbeat_rollover_celery]. *)
Lemma metricbeat_rollover_celery_cases days s :
  let st := mkState (heap s) (tick s) (db_ready s) (events s ++ [EvStorageOpen]) in
  let final mid := mkState (heap s) (tick s) (db_ready s)
                     (events s ++ [EvStorageOpen] ++ mid ++ [EvStorageClose]) in
  if truthy (heap s) (rollover_flag E)
  then
    if truthy (heap s) (resolved_days E (heap s) days)
    then
      ∃ r evs,
        delete_old_indices E (loaded_storage E) (resolved_days E (heap s) days) st =
          (r, mkState (heap s) (tick s) (db_ready s) (events st ++ evs)) ∧
        metricbeat_rollover_celery E days s =
          (Ok VNone,
           final (evs ++ match r with
                         | Ok _ => []
                         | Raise e => [EvLog WARNING "{}" [LExn e]]
                         end)%list)
    else
      metricbeat_rollover_celery E days s =
        (Ok VNone,
         final [EvLog WARNING "{}"
                  [LExn (NameError "name 'days' is not defined, check storage.ini for 'metricbeat_rollover_days' setting")]])
  else
    metricbeat_rollover_celery E days s =
      (Ok VNone, final [EvLog DEBUG "Metricbeat logging not enbaled, exiting..." []]).
Proof.
  intros st final.
  assert (∀ flag,
            truthy (heap s) (rollover_flag E) = flag →
            metricbeat_rollover_celery E days s =
              let (r, s') :=
                try_except
                  (if negb flag
                   then
                     emit (EvLog DEBUG "Metricbeat logging not enbaled, exiting..." []) ;;;
                     ret VNone
                   else
                     if negb (truthy (heap s) (resolved_days E (heap s) days))
                     then raise (NameError "name 'days' is not defined, check storage.ini for 'metricbeat_rollover_days' setting")
                     else
                       delete_old_indices E (loaded_storage E)
                         (resolved_days E (heap s) days) ;;;
                       ret VNone)
                  (fun e => emit (EvLog WARNING "{}" [LExn e]) ;;; ret VNone) st in
              let (_, s'') := emit EvStorageClose s' in (r, s'')) as Hstep.
  { intros flag Hflag.
    unfold metricbeat_rollover_celery, metricbeat_rollover_celery_built,
      new_storage_handler, close_storage_handler, try_finally, try_except.
    rewrite bind_emit.
    unfold bind at 1, get_heap at 1. cbv beta iota. cbn [heap].
    fold (rollover_flag E). rewrite Hflag.
    replace (if negb (truthy (heap s) days)
             then dict_get (es_storage_config E) "metricbeat_rollover_days" (VInt 7)
             else days) with (resolved_days E (heap s) days)
      by (unfold resolved_days; by destruct (truthy (heap s) days)).
    reflexivity. }
  destruct (truthy (heap s) (rollover_flag E)) eqn:Hflag.
  - destruct (truthy (heap s) (resolved_days E (heap s) days)) eqn:Hdays.
    + destruct (delete_old_indices_trace (loaded_storage E) (resolved_days E (heap s) days) st)
        as (r & evs & Hrun & _).
      exists r, evs. split; [exact Hrun|].
      rewrite (Hstep true eq_refl). cbn [negb]. unfold try_except.
      unfold bind at 1. rewrite Hrun. subst final st. destruct r as [[]|e].
      * simpl. unfold emit. simpl. by rewrite app_nil_r, <- !app_assoc.
      * simpl. unfold bind, emit, ret. simpl. by rewrite <- !app_assoc.
    + rewrite (Hstep true eq_refl). subst final st. cbn [negb]. unfold try_except, bind, emit, ret, raise.
      cbn [heap tick db_ready events]. by rewrite <- ?app_assoc.
  - rewrite (Hstep false eq_refl). subst final st. cbn [negb]. unfold try_except, bind, emit, ret.
    cbn [heap tick db_ready events]. by rewrite <- ?app_assoc.
Qed.



(** The first [delete_index] that raises ends the cleanup: the handlers
    after it are not tried, the exception is caught and logged as a
    warning, and the action still closes the storage handler and returns. *)
Theorem rollover_stops_at_first_error days s pre h post e :
  truthy (heap s) (rollover_flag E) = true →
  truthy (heap s) (resolved_days E (heap s) days) = true →
  loaded_storage E = (pre ++ h :: post)%list →
  is_elastic h = true →
  delete_index E h "metricbeat" (resolved_days E (heap s) days) = Raise e →
  (∀ h', h' ∈ pre → is_elastic h' = true →
         ∃ v, delete_index E h' "metricbeat" (resolved_days E (heap s) days) = Ok v) →
  (metricbeat_rollover_celery E days s).1 = Ok VNone ∧
  let evs := new_events s (metricbeat_rollover_celery E days s).2 in
  cleanup_calls evs =
    replicate (S (length (elastic_handlers pre)))
      (resolved_days E (heap s) days) ∧
  logged_exceptions evs = [e] ∧
  storage_closes evs = 1%nat.
Proof.
  intros Hflag Hdays Hsplit Hes Hraise Hpre.
  pose proof (metricbeat_rollover_celery_cases days s) as H. simpl in H.
  rewrite Hflag, Hdays in H. destruct H as (r & evs & Hloop & Hrun).
  destruct (delete_old_indices_trace (loaded_storage E) (resolved_days E (heap s) days)
              (mkState (heap s) (tick s) (db_ready s) (events s ++ [EvStorageOpen])))
    as (r' & evs' & Hloop' & _ & Hc & _ & _ & Hle & Hr).
  rewrite Hloop in Hloop'. injection Hloop' as <- Hevs.
  apply app_inv_head in Hevs as <-.
  rewrite Hrun. split; [done|]. simpl.
  rewrite (new_events_app s _ ([EvStorageOpen] ++ (evs ++ match r with
             | Ok _ => [] | Raise e => [EvLog WARNING "{}" [LExn e]] end) ++
             [EvStorageClose])) by done.
  destruct r as [[]|e'].
  - destruct Hr as (Hall & _).
    destruct (Hall h) as [v Hv]; [rewrite Hsplit; set_solver | done | congruence].
  - destruct Hr as (pre' & h' & post' & Heq & Hes' & Hraise' & Hpre' & Hcl).
    (* the handler that raised is the first one that raises *)
    rewrite Hsplit in Heq.
    destruct (first_split_unique
                (fun x => is_elastic x = true ∧
                          ∃ e0, delete_index E x "metricbeat"
                                  (resolved_days E (heap s) days) = Raise e0)
                pre pre' h h' post post' Heq) as [<- <-].
    { split; eauto. }
    { split; eauto. }
    { intros x Hx [Hesx [e0 He0]]. destruct (Hpre x Hx Hesx) as [v Hv]. congruence. }
    { intros x Hx [Hesx [e0 He0]]. destruct (Hpre' x Hx Hesx) as [v Hv]. congruence. }
    assert (e' = e) as -> by congruence.
    unfold cleanup_calls, logged_exceptions, storage_closes in *.
    rewrite !omap_app, !length_app, Hcl, Hle, Hc. simpl.
    by rewrite !app_nil_r.
Qed.

(** What the action does with the days it works with: it calls
    [delete_index] with them and with nothing else, at least once when an
    Elasticsearch handler is loaded, and once for each such handler when
    no call raises. *)
Lemma rollover_cleans_with days d s :
  truthy (heap s) (rollover_flag E) = true →
  resolved_days E (heap s) days = d →
  truthy (heap s) d = true →
  ∃ k,
    cleanup_calls (new_events s (metricbeat_rollover_celery E days s).2) = replicate k d ∧
    (elastic_handlers (loaded_storage E) ≠ [] → k ≠ 0%nat) ∧
    ((∀ h, h ∈ loaded_storage E → is_elastic h = true →
           ∃ v, delete_index E h "metricbeat" d = Ok v) →
     k = length (elastic_handlers (loaded_storage E))).
Proof.
  intros Hflag Hd Hdays.
  pose proof (metricbeat_rollover_celery_cases days s) as H. simpl in H.
  rewrite Hflag, Hd, Hdays in H. destruct H as (r & evs & Hloop & Hrun).
  destruct (delete_old_indices_trace (loaded_storage E) d
              (mkState (heap s) (tick s) (db_ready s) (events s ++ [EvStorageOpen])))
    as (r' & evs' & Hloop' & _ & _ & _ & _ & _ & Hr).
  rewrite Hloop in Hloop'. injection Hloop' as <- Hevs.
  apply app_inv_head in Hevs as <-.
  rewrite Hrun. cbn [snd].
  rewrite (new_events_app s _ ([EvStorageOpen] ++ (evs ++ match r with
             | Ok _ => [] | Raise e => [EvLog WARNING "{}" [LExn e]] end) ++
             [EvStorageClose])) by done.
  assert (∀ k, cleanup_calls evs = replicate k d →
            cleanup_calls ([EvStorageOpen] ++ (evs ++ match r with
               | Ok _ => [] | Raise e => [EvLog WARNING "{}" [LExn e]] end) ++
               [EvStorageClose]) = replicate k d) as Hwrap.
  { intros k Hk. unfold cleanup_calls in *. rewrite !omap_app, Hk.
    destruct r as [[]|e]; simpl; by rewrite !app_nil_r. }
  destruct r as [[]|e].
  - destruct Hr as (_ & Hcl).
    exists (length (elastic_handlers (loaded_storage E))).
    split; [by apply Hwrap|]. split; [|done].
    intros Hne Hlen. apply Hne. by apply length_zero_iff_nil.
  - destruct Hr as (pre & h & post & Heq & Hes & Hraise & _ & Hcl).
    exists (S (length (elastic_handlers pre))).
    split; [by apply Hwrap|]. split; [done|].
    intros Hok. destruct (Hok h) as [v Hv]; [rewrite Heq; set_solver | done | congruence].
Qed.

(** A storage configuration with no [ElasticSearchStorage] section leaves
    the rollover switched on. The entry is registered, with [None] for
    the days; and the action, called with no days to work with, cleans
    with 7: every [delete_index] call it makes is for 7 days, it makes
    one when an Elasticsearch handler is loaded, and one for each such
    handler when none raises. *)
Theorem missing_es_section_defaults storage_config h sender days s :
  storage_config !! "ElasticSearchStorage" = None →
  es_storage_config E = es_section storage_config →
  truthy (heap s) days = false →
  mkEntry (mkCrontab 3 0) metricbeat_rollover_celery_task [VNone; VInt 7]
    [("config", VObj "msconf.MS_CONFIG")] low_tasks ∈ setup_periodic_tasks E h sender ∧
  ∃ k,
    cleanup_calls (new_events s (metricbeat_rollover_celery E days s).2) =
      replicate k (VInt 7) ∧
    (elastic_handlers (loaded_storage E) ≠ [] → k ≠ 0%nat) ∧
    ((∀ h, h ∈ loaded_storage E → is_elastic h = true →
           ∃ v, delete_index E h "metricbeat" (VInt 7) = Ok v) →
     k = length (elastic_handlers (loaded_storage E))).
Proof.
  intros Hnone Hes Hdays. split.
  - unfold setup_periodic_tasks, es_section in *.
    rewrite Hes, Hnone. unfold dict_get. rewrite !lookup_empty. simpl.
    apply elem_of_app. right. by apply list_elem_of_singleton.
  - apply rollover_cleans_with.
    + unfold rollover_flag, dict_get, es_section in *. by rewrite Hes, Hnone, lookup_empty.
    + unfold resolved_days, dict_get, es_section in *.
      by rewrite Hdays, Hes, Hnone, lookup_empty.
    + done.
Qed.

(** The days of a direct call. With the flag on and the handler built,
    the action works with its [days] argument when this is true; when it
    is false the days are read at the call from the storage
    configuration, and are 7 when the setting is unset. With such days
    every [delete_index] call is made with them, one is made when an
    Elasticsearch handler is loaded, and one for each when none raises.
    Only when the setting is there and false does the action raise
    [NameError], which is caught and logged as a warning, and no index
    is deleted. The handler is closed and the action returns [None]. *)
Theorem rollover_days_resolution days s :
  truthy (heap s) (rollover_flag E) = true →
  let d := if truthy (heap s) days then days
           else match es_storage_config E !! "metricbeat_rollover_days" with
                | None => VInt 7
                | Some v => v
                end in
  ∃ mid s',
    metricbeat_rollover_celery E days s = (Ok VNone, s') ∧
    new_events s s' = ([EvStorageOpen] ++ mid ++ [EvStorageClose])%list ∧
    if truthy (heap s) d
    then
      ∃ k,
        cleanup_calls mid = replicate k d ∧
        (elastic_handlers (loaded_storage E) ≠ [] → k ≠ 0%nat) ∧
        ((∀ h, h ∈ loaded_storage E → is_elastic h = true →
               ∃ v, delete_index E h "metricbeat" d = Ok v) →
         k = length (elastic_handlers (loaded_storage E)))
    else
      mid = [EvLog WARNING "{}"
               [LExn (NameError "name 'days' is not defined, check storage.ini for 'metricbeat_rollover_days' setting")]].
Proof.
  intros Hflag d.
  assert (resolved_days E (heap s) days = d) as Hd.
  { unfold resolved_days, dict_get. subst d. by destruct (truthy (heap s) days). }
  pose proof (metricbeat_rollover_celery_cases days s) as H. simpl in H.
  rewrite Hflag, Hd in H.
  destruct (truthy (heap s) d) eqn:Hdays.
  - destruct H as (r & evs & Hloop & Hrun).
    eexists _, _. split; [exact Hrun|]. split; [by apply new_events_app|].
    destruct (rollover_cleans_with days d s Hflag Hd Hdays) as (k & Hk & Hne & Hall).
    exists k. split; [|done].
    rewrite Hrun in Hk. cbn [snd] in Hk.
    rewrite (new_events_app s _ ([EvStorageOpen] ++ (evs ++ match r with
               | Ok _ => [] | Raise e => [EvLog WARNING "{}" [LExn e]] end) ++
               [EvStorageClose])) in Hk by done.
    unfold cleanup_calls in *. rewrite !omap_app in Hk. rewrite omap_app.
    destruct r as [[]|e]; simpl in Hk; simpl;
      rewrite ?app_nil_r in Hk; rewrite ?app_nil_r; exact Hk.
  - exists [EvLog WARNING "{}"
              [LExn (NameError "name 'days' is not defined, check storage.ini for 'metricbeat_rollover_days' setting")]].
    eexists. split; [exact H|]. split; [by apply new_events_app|]. done.
Qed.

(** [setup_periodic_tasks] keeps the entries the sender has and adds one
    or two. Each entry it adds goes to a queue that [app.conf.task_queues]
    declares, the low one, with the routing key of that queue and a
    priority the queue allows, and is due at a full hour. *)
Theorem periodic_entries_on_low_queue h sender :
  ∃ added,
    setup_periodic_tasks E h sender = (sender ++ added)%list ∧
    (1 ≤ length added ≤ 2)%nat ∧
    Forall (fun e =>
              minute (schedule e) = 0 ∧
              ∃ q p,
                q ∈ task_queues ∧ q_name q = "low_tasks" ∧
                entry_option e "queue" = Some (VStr (q_name q)) ∧
                entry_option e "routing_key" = Some (VStr (q_routing_key q)) ∧
                entry_option e "priority" = Some (VInt p) ∧
                (0 ≤ p ≤ q_max_priority q)%Z) added.
Proof.
  assert (∀ e, p_options e = low_tasks → minute (schedule e) = 0 →
               minute (schedule e) = 0 ∧
               ∃ q p,
                 q ∈ task_queues ∧ q_name q = "low_tasks" ∧
                 entry_option e "queue" = Some (VStr (q_name q)) ∧
                 entry_option e "routing_key" = Some (VStr (q_routing_key q)) ∧
                 entry_option e "priority" = Some (VInt p) ∧
                 (0 ≤ p ≤ q_max_priority q)%Z) as Hlow.
  { intros e Hopt Hmin. split; [done|].
    exists (mkQueue "low_tasks" default_exchange "tasks.low" 10), 1.
    unfold entry_option. rewrite Hopt. split_and!; try done; try (by left); simpl; lia. }
  unfold setup_periodic_tasks.
  destruct (truthy h (dict_get (es_storage_config E) "metricbeat_enabled" (VBool true))).
  - eexists [_; _]. rewrite <- app_assoc. split; [reflexivity|].
    split; [simpl; lia|]. repeat constructor; by apply Hlow.
  - eexists [_]. split; [reflexivity|].
    split; [simpl; lia|]. repeat constructor; by apply Hlow.
Qed.

(** The correlation task is scheduled whatever the rollover flag is, daily
    at 2:00, with no arguments; each occurrence of its entry runs the
    comparison once and returns [None]. A call of the task with any
    argument is a [TypeError] and compares nothing. *)
Theorem correlation_entry_fires h sender :
  ∃ e rest,
    setup_periodic_tasks E h sender = (sender ++ e :: rest)%list ∧
    sig e = ssdeep_compare_celery_task ∧
    schedule e = mkCrontab 2 0 ∧
    (∀ s, fire E e s =
            (Ok VNone,
             mkState (heap s) (tick s) (db_ready s) (events s ++ [EvSsdeepCompare]))) ∧
    (∀ x args kwargs s,
       call_task E ssdeep_compare_celery_task (x :: args) kwargs s = (Raise TypeError, s)) ∧
    (∀ k v kwargs s,
       call_task E ssdeep_compare_celery_task [] ((k, v) :: kwargs) s = (Raise TypeError, s)).
Proof.
  unfold setup_periodic_tasks.
  destruct (truthy h (dict_get (es_storage_config E) "metricbeat_enabled" (VBool true))).
  - eexists _, [_]. rewrite <- app_assoc. split; [reflexivity|]. by split_and!.
  - eexists _, []. split; [reflexivity|]. by split_and!.
Qed.

(** The calls of the rollover task that reach its body are those with
    exactly one argument, given by position or as the keyword [days];
    every other call raises [TypeError] before the body, with no trace. *)
Theorem rollover_call_binding args kwargs s :
  call_task E metricbeat_rollover_celery_task args kwargs s =
    match args, kwargs with
    | [d], [] => metricbeat_rollover_celery E d s
    | [], [(k, d)] =>
        if decide (k = "days") then metricbeat_rollover_celery E d s
        else (Raise TypeError, s)
    | _, _ => (Raise TypeError, s)
    end.
Proof.
  unfold call_task, bind_call. simpl task_params.
  destruct args as [|x [|y args]].
  - destruct kwargs as [|[k d] kwargs]; [done|]. simpl.
    destruct (decide (k = "days")) as [-> | Hk].
    + destruct kwargs as [|[k' d'] kwargs]; [done|]. simpl. done.
    + rewrite decide_False by (intros Hin; apply list_elem_of_singleton in Hin; done).
      by destruct kwargs as [|[k' d'] kwargs].
  - destruct kwargs as [|[k d] kwargs]; [done|]. simpl. done.
  - simpl. by destruct (bind_positional [] args) as [[? ?]|?].
Qed.

End MoreScheduler.

(** ** The scan configuration recorded with a job *)

Section ScanConfig.

Variable E : env.

(** A run whose body raises before the store: nothing is stored and
    [Failed] is what is recorded. *)
Lemma run_task_failed_before_store a s e s1 :
  multiscanner_celery E a s = (Raise e, s1) →
  events s1 = (events s ++ scan_prefix E a)%list →
  ∃ s',
    run_task E a s = (Ok (FAILURE e), s') ∧
    heap s' = heap s1 ∧
    store_calls (new_events s s') = [] ∧
    db_updates (new_events s s') = [(task_id a, "Failed", VStr (now E (tick s1)))] ∧
    final_status (task_id a) (events s') = Some "Failed".
Proof.
  intros Hb Hev. eexists. split; [by apply run_task_failure|]. simpl. split; [done|].
  rewrite (new_events_app s _ (scan_prefix E a ++ failure_events e a s1 ++
             [EvUpdateTask (task_id a) "Failed" (VStr (now E (tick s1)))]))
    by (simpl; rewrite Hev; by rewrite <- !app_assoc).
  rewrite !store_calls_app, !db_updates_app, store_calls_failure, db_updates_failure.
  split_and!; try done.
  rewrite Hev.
  exact (final_status_failed (events s ++ scan_prefix E a) _ a s1 _).
Qed.

(** What is recorded under ['Scan Config']. After a run that returns, the
    caller's metadata refers there to a dictionary made by the run. When
    a module subset that is not empty was given, this dictionary is
    empty. Otherwise it has an entry for every section of the
    configuration but ["main"], and for no other key; the entry of a
    section is a dictionary of its own that holds the section's
    [ENABLED] value and nothing else of the section. *)
Theorem scan_config_records_enabled a s lm m retval s' :
  metadata a = VRef lm → heap s !! lm = Some m →
  multiscanner_celery E a s = (Ok retval, s') →
  ∃ lsc sc,
    (heap s' !! lm) ≫= (.!! "Scan Config") = Some (VRef lsc) ∧
    (lsc ∉ dom (heap s)) ∧
    heap s' !! lsc = Some sc ∧
    if module_list_given (module_list a) then sc = ∅
    else
      sc !! "main" = None ∧
      ∀ key, key ≠ "main" →
        match config_of E a !! key with
        | Some sec =>
            ∃ l v, sc !! key = Some (VRef l) ∧ sec !! "ENABLED" = Some v ∧
                   heap s' !! l = Some {[ "ENABLED" := v ]}
        | None => sc !! key = None
        end.
Proof.
  intros Hmeta Hm Hb.
  apply multiscanner_celery_log in Hb as Hlog.
  destruct Hlog as [(e & _ & Hr & _) | (reports & s0 & Hscan & _)]; [done|].
  destruct (multiscanner_celery_counted E a reports s Hscan)
    as (lres & resd & lsc & rt & s3 & D & Hbody & _ & _ & _ & HD & HresD & HscD &
        Hlres & Hlsc & Hsc_res & Hold & Hres3 & Habsent & Hpresent & Hrt).
  rewrite Hb in Hbody.
  assert (lm ∈ dom (heap s)) as Hlm by (apply elem_of_dom; eauto).
  assert (∃ n, rt = Ok n) as [n ->].
  { destruct rt as [n|e]; [eauto | done]. }
  destruct (reports !! file_ a) as [rep|] eqn:Hfile.
  2: { unfold annotate_and_store in Hbody.
       rewrite (bind_raise _ _ _ _ _
                  (getitem_missing _ _ _ _ Hres3 (Habsent _ Hfile))) in Hbody.
       done. }
  destruct (Hpresent _ _ Hfile) as (lrep & Hf & HrepD & Hrep_res & Hrep_sc & Hlrep & Hrep3).
  assert (heap s3 !! lm = Some m) as Hm3 by (by rewrite Hold).
  destruct (annotate_and_store_run E a lres resd lrep rep lm m (now E (tick s)) (VRef lsc) n s3
              Hmeta Hres3 Hf Hrep3 Hm3)
    as (r & s'' & ids & Hrun & Hframe & Hconf & _); [by intros -> .. | done |].
  rewrite Hrun in Hbody. injection Hbody as <- <-.
  assert (lsc ≠ lm) as Hsc_m by (by intros ->).
  exists lsc. destruct (module_list_given (module_list a)).
  - destruct Hrt as [_ Hsc]. exists ∅. split_and!; try done.
    by rewrite Hframe.
  - destruct Hrt as [[[=] _] | (_ & sc & Hsc & Hmain & Hkeys)].
    exists sc. split_and!; try done.
    + by rewrite Hframe.
    + intros key Hkey. specialize (Hkeys key Hkey).
      destruct (config_of E a !! key) as [sec|]; [|done].
      destruct Hkeys as (l & v & H1 & H2 & H3 & H4).
      exists l, v. split_and!; try done.
      rewrite Hframe; [done | | |]; intros ->; apply H4; [by apply HD | done | done].
Qed.

(** A section of the configuration without [ENABLED] fails every job that
    gives no module subset: the body raises [KeyError('ENABLED')] in the
    count, before it looks at the report, whatever the engine found; the
    caller's objects are as they were, nothing is stored and [Failed] is
    recorded. *)
Theorem missing_enabled_fails_job a s reports key sec :
  scan E [file_ a] (config_of E a) (module_list a) = Ok reports →
  module_list_given (module_list a) = false →
  config_of E a !! key = Some sec → key ≠ "main" → sec !! "ENABLED" = None →
  ∃ s',
    run_task E a s = (Ok (FAILURE (KeyError "ENABLED")), s') ∧
    (∀ l, l ∈ dom (heap s) → heap s' !! l = heap s !! l) ∧
    store_calls (new_events s s') = [] ∧
    final_status (task_id a) (events s') = Some "Failed".
Proof.
  intros Hscan Hgiven Hsec Hkey Hnone.
  destruct (multiscanner_celery_counted E a reports s Hscan)
    as (lres & resd & lsc & rt & s3 & D & Hbody & Hev & _ & _ & _ & _ & _ &
        _ & _ & _ & Hold & _ & _ & _ & Hrt).
  rewrite Hgiven in Hrt.
  destruct Hrt as [(-> & _) | (_ & sc & _ & _ & Hkeys)].
  - destruct (run_task_failed_before_store a s _ s3 Hbody Hev)
      as (s' & Hrun & Hheap & Hstore & _ & Hfinal).
    exists s'. split_and!; try done.
    intros l Hl. rewrite Hheap. by apply Hold.
  - specialize (Hkeys key Hkey). rewrite Hsec in Hkeys.
    destruct Hkeys as (l & v & _ & Hv & _). congruence.
Qed.

(** A job whose metadata is no dictionary cannot succeed: whatever the
    engine and the configuration, the body raises before the store, and
    [Failed] is recorded. *)
Theorem job_needs_metadata_dict a s :
  is_scalar (metadata a) = true →
  ∃ e s',
    run_task E a s = (Ok (FAILURE e), s') ∧
    store_calls (new_events s s') = [] ∧
    final_status (task_id a) (events s') = Some "Failed".
Proof.
  intros Hscalar.
  assert (∀ l, metadata a ≠ VRef l) as Hmd.
  { intros l Heq. rewrite Heq in Hscalar. discriminate Hscalar. }
  assert (∃ e s1, multiscanner_celery E a s = (Raise e, s1) ∧
                  events s1 = (events s ++ scan_prefix E a)%list) as (e & s1 & Hb & Hev).
  { destruct (scan E [file_ a] (config_of E a) (module_list a)) as [reports|e] eqn:Hscan.
    - destruct (multiscanner_celery_counted E a reports s Hscan)
        as (lres & resd & lsc & rt & s3 & D & Hbody & Hev & _).
      destruct rt as [n|e]; [|by eauto].
      destruct (annotate_and_store_no_dict E a (VRef lres) (now E (tick s)) (VRef lsc) n s3 Hmd)
        as (e & s1 & Hrun & Hlog).
      exists e, s1. split; [by rewrite Hbody|].
      unfold log_of in Hlog. injection Hlog as He _ _. by rewrite He.
    - destruct (multiscanner_celery E a s) as [r s1] eqn:Hb.
      apply multiscanner_celery_log in Hb as Hlog.
      destruct Hlog as [(e' & _ & -> & ->) | (reports & _ & Hscan' & _)]; [|congruence].
      by eauto. }
  destruct (run_task_failed_before_store a s e s1 Hb Hev)
    as (s' & Hrun & _ & Hstore & _ & Hfinal).
  by eauto.
Qed.

(** The reserved entry is not counted. *)
Lemma enabled_modules_below_size (cfg : gmap string (gmap string val)) main :
  cfg !! "main" = Some main → (S (enabled_modules cfg) ≤ size cfg)%nat.
Proof.
  intros Hmain. unfold enabled_modules.
  rewrite <- (insert_delete_id cfg "main" main Hmain).
  rewrite map_size_insert_None by apply lookup_delete_eq.
  rewrite (Permutation_length
             (filter_Permutation _ _ _
                (map_to_list_insert _ _ _ (lookup_delete_eq _ _)))).
  rewrite filter_cons_False by (simpl; tauto).
  pose proof (length_filter
                (fun kv : string * gmap string val =>
                   kv.1 ≠ "main" ∧ kv.2 !! "ENABLED" = Some (VBool true))
                (map_to_list (delete "main" cfg))) as Hle.
  rewrite length_map_to_list in Hle. lia.
Qed.

(** The ratio under ['Modules Enabled'] is a fraction of the whole when
    the modules are counted from a configuration that has its ["main"]
    entry: the count of enabled modules is between 0 and the total. *)
Theorem modules_enabled_within_total a s lm m retval s' :
  metadata a = VRef lm → heap s !! lm = Some m →
  multiscanner_celery E a s = (Ok retval, s') →
  module_list_given (module_list a) = false →
  is_Some (config_of E a !! "main") →
  ∃ e t : Z,
    (heap s' !! lm) ≫= (.!! "Modules Enabled") =
      Some (VStr (str_of_int e ++ " / " ++ str_of_int t)) ∧
    (0 ≤ e ≤ t)%Z ∧
    t = (Z.of_nat (size (config_of E a)) - 1)%Z.
Proof.
  intros Hmeta Hm Hb Hgiven [main Hmain].
  destruct (returned_published E a s lm m retval s' Hmeta Hm Hb)
    as (reports & rep & Hscan & Hrep & Ht & Hpub).
  destruct Hpub as (lres & lrep & lsc & resd & ids & _ & _ & _ & _ & _ & _ & _ &
                    Hlm & _).
  exists (Z.of_nat (enabled_modules (config_of E a))),
         (Z.of_nat (size (config_of E a)) - 1)%Z.
  split; [|split; [|done]].
  - rewrite Hlm. simpl. unfold scan_metadata.
    rewrite !lookup_insert_ne by done. rewrite lookup_insert_eq.
    unfold modules_enabled. by rewrite Hgiven.
  - pose proof (enabled_modules_below_size (config_of E a) main Hmain). lia.
Qed.

(** [on_success] reads the heap and writes nothing to it. *)
Lemma on_success_heap retval a s r s' :
  on_success retval a s = (r, s') → heap s' = heap s.
Proof.
  unfold on_success, update_task.
  rewrite bind_emit, bind_db. cbn [heap].
  set (s1 := mkState _ _ _ _).
  assert (heap s1 = heap s) as <- by done.
  rewrite (bind_ok (ret (task_id a)) _ s1 _ s1 eq_refl).
  assert (∀ o k st x st', getitem o k st = (x, st') → st' = st) as Hget.
  { intros o k st x st' H. unfold getitem in H. repeat case_match; by simplify_eq. }
  intros H. unfold bind in H.
  destruct (getitem retval (original_filename a) s1) as [[v1|e1] s2] eqn:H1;
    apply Hget in H1 as ->; cbv beta iota in H; [|by simplify_eq].
  destruct (getitem v1 "Scan Metadata" s1) as [[v2|e2] s2] eqn:H2;
    apply Hget in H2 as ->; cbv beta iota in H; [|by simplify_eq].
  destruct (getitem v2 "Scan Time" s1) as [[v3|e3] s2] eqn:H3;
    apply Hget in H3 as ->; cbv beta iota in H; [|by simplify_eq].
  unfold emit in H. by simplify_eq.
Qed.

(** What the task body writes to: of the objects the caller has, the
    metadata alone, and of its keys the five annotations alone. *)
Lemma multiscanner_celery_frame a s lm m r s1 :
  metadata a = VRef lm → heap s !! lm = Some m →
  multiscanner_celery E a s = (r, s1) →
  (∀ l, l ∈ dom (heap s) → l ≠ lm → heap s1 !! l = heap s !! l) ∧
  ∃ m', heap s1 !! lm = Some m' ∧
        ∀ k, k ∉ ["Worker Node"; "Scan Config"; "Modules Enabled"; "Scan Time"; "Task ID"] →
             m' !! k = m !! k.
Proof.
  intros Hmeta Hm Hb.
  assert (lm ∈ dom (heap s)) as Hlm by (apply elem_of_dom; eauto).
  assert (heap s1 = heap s ∨
          (∀ l, l ∈ dom (heap s) → heap s1 !! l = heap s !! l) ∨
          ∃ rep, published E a s rep lm m r s1) as Hcases.
  { apply multiscanner_celery_log in Hb as Hlog.
    destruct Hlog as [(e & _ & _ & ->) | (reports & _ & Hscan & _)]; [by left|].
    destruct (multiscanner_celery_counted E a reports s Hscan)
      as (lres & resd & lsc & rt & s3 & D & Hbody & _ & _ & _ & HD & HresD & HscD &
          Hlres & Hlsc & Hsc_res & Hold & Hres3 & Habsent & Hpresent & _).
    rewrite Hb in Hbody.
    destruct rt as [n|e]; [|injection Hbody as -> ->; by right; left].
    destruct (reports !! file_ a) as [rep|] eqn:Hfile.
    2: { unfold annotate_and_store in Hbody.
         rewrite (bind_raise _ _ _ _ _
                    (getitem_missing _ _ _ _ Hres3 (Habsent _ Hfile))) in Hbody.
         injection Hbody as -> ->. by right; left. }
    destruct (Hpresent _ _ Hfile) as (lrep & Hf & HrepD & Hrep_res & Hrep_sc & Hlrep & Hrep3).
    assert (heap s3 !! lm = Some m) as Hm3 by (by rewrite Hold).
    destruct (annotate_and_store_run E a lres resd lrep rep lm m (now E (tick s)) (VRef lsc) n s3
                Hmeta Hres3 Hf Hrep3 Hm3)
      as (r' & s'' & ids & Hrun & _ & _ & _ & Hr' & _); [by intros -> .. | done |].
    rewrite Hrun in Hbody. injection Hbody as <- <-.
    destruct (multiscanner_celery_scanned E a reports s Hscan) as (r2 & s2 & Hb2 & Hc).
    rewrite Hb in Hb2. injection Hb2 as <- <-.
    destruct Hc as [(Hr & _) | [(Hnone & _) | (rep' & Hrep' & Hpub)]].
    - destruct ids; by rewrite Hr in Hr'.
    - congruence.
    - right; right. exists rep'. by apply Hpub. }
  destruct Hcases as [Heq | [Hsame | (rep & Hpub)]].
  - rewrite Heq. split; [done|]. by exists m.
  - split; [by intros; apply Hsame|]. exists m. by rewrite Hsame.
  - destruct Hpub as (lres & lrep & lsc & resd & ids & _ & _ & _ & _ & _ & _ & _ &
                      Hlm' & _ & _ & _ & _ & Hfr).
    split; [done|]. eexists. split; [exact Hlm'|].
    intros k Hk. unfold scan_metadata.
    rewrite !lookup_insert_ne; [done|..]; intros <-; apply Hk;
      repeat (first [by left | right]).
Qed.

(** A job writes to one object of its caller. Whatever the outcome of a
    run, every object that existed before it but the metadata dictionary
    is as it was, and the metadata holds under every key but
    ['Worker Node'], ['Scan Config'], ['Modules Enabled'], ['Scan Time']
    and ['Task ID'] what the caller had put there. *)
Theorem run_writes_metadata_only a s lm m :
  metadata a = VRef lm → heap s !! lm = Some m →
  (∀ l, l ∈ dom (heap s) → l ≠ lm →
        heap (run_task E a s).2 !! l = heap s !! l) ∧
  ∃ m', heap (run_task E a s).2 !! lm = Some m' ∧
        ∀ k, k ∉ ["Worker Node"; "Scan Config"; "Modules Enabled"; "Scan Time"; "Task ID"] →
             m' !! k = m !! k.
Proof.
  intros Hmeta Hm.
  destruct (multiscanner_celery E a s) as [r s1] eqn:Hb.
  assert (heap (run_task E a s).2 = heap s1) as ->.
  { destruct r as [retval|exc].
    - unfold run_task. rewrite Hb.
      destruct (on_success retval a s1) as [[[]|e] s2] eqn:Hcb.
      + rewrite (bind_ok _ _ _ _ _ Hcb). simpl. by eapply on_success_heap.
      + rewrite (bind_raise _ _ _ _ _ Hcb). simpl. by eapply on_success_heap.
    - by rewrite (run_task_failure E a s exc s1 Hb). }
  by eapply multiscanner_celery_frame.
Qed.

End ScanConfig.

(** * The further properties on the example inputs *)

(** A worker whose engine breaks fails the job with the engine's error. *)
Lemma engine_error_fails_job_witness :
  ∃ s',
    run_task env_broken args0 st0 = (Ok (FAILURE (EngineError "module crashed")), s') ∧
    heap s' = heap st0 ∧
    store_calls (new_events st0 s') = [].
Proof.
  destruct (engine_error_fails_job env_broken args0 st0 (EngineError "module crashed") eq_refl)
    as (s' & Hrun & Hheap & Hstore & _).
  exists s'. split; [exact Hrun|]. split; [exact Hheap | exact Hstore].
Defined.

(** The first example returns what it stored. *)
Lemma returned_was_stored_witness :
  ∃ ids,
    ids ≠ [] ∧
    new_events st0 (multiscanner_celery env0 args0 st0).2 =
      (scan_prefix env0 args0 ++ [EvStore (VRef 3%positive) ids; EvStorageClose])%list.
Proof.
  destruct (returned_was_stored env0 args0 st0 (VRef 3%positive)
              (multiscanner_celery env0 args0 st0).2)
    as (ids & l & resd & _ & Hne & Hnew & _).
  { by vm_compute. }
  exists ids. split; [exact Hne | exact Hnew].
Defined.

(** On a worker whose store writes to no backend the caller's metadata
    keeps the annotations of the failed run. *)
Lemma publish_failure_keeps_annotations_witness :
  ∃ m',
    heap (multiscanner_celery env_unpublished args0 st0).2 !! 1%positive = Some m' ∧
    m' !! "Worker Node" = Some (VStr "worker-1") ∧
    m' !! "Task ID" = Some (VInt 7).
Proof.
  destruct (publish_failure_keeps_annotations env_unpublished args0 st0 1%positive
              {[ "submitter" := VStr "alice"; "Task ID" := VInt 0 ]}
              (list_to_map [("/tmp/f1", ({[ "Yara" := VStr "clean" ]} : gmap string val))])
              (multiscanner_celery env_unpublished args0 st0).2 eq_refl eq_refl)
    as (m' & res & Hm' & Hnode & _ & Hid & _).
  { by vm_compute. }
  { by vm_compute. }
  exists m'. split; [exact Hm'|]. split; [exact Hnode | exact Hid].
Defined.

(** The first example records [Complete] with the time of the scan. *)
Lemma complete_records_scan_time_witness :
  db_updates (events (run_task env0 args0 st0).2) =
    [(VInt 7, "Complete", VStr (clock 0))].
Proof.
  rewrite (complete_records_scan_time env0 args0 st0 1%positive
             {[ "submitter" := VStr "alice"; "Task ID" := VInt 0 ]}
             (VRef 3%positive) (multiscanner_celery env0 args0 st0).2
             eq_refl eq_refl).
  - by vm_compute.
  - intros Heq. discriminate Heq.
  - by vm_compute.
Defined.


(** With the second Elasticsearch handler down, the third is not tried. *)
Lemma rollover_stops_at_first_error_witness :
  cleanup_calls (new_events st0 (metricbeat_rollover_celery env_flaky (VInt 30) st0).2) =
    [VInt 30; VInt 30] ∧
  logged_exceptions (new_events st0 (metricbeat_rollover_celery env_flaky (VInt 30) st0).2) =
    [EngineError "connection refused"].
Proof.
  destruct (rollover_stops_at_first_error env_flaky (VInt 30) st0
              [ElasticSearchStorage "es1"; OtherStorage "file"]
              (ElasticSearchStorage "es2") [ElasticSearchStorage "es3"]
              (EngineError "connection refused") eq_refl eq_refl eq_refl eq_refl eq_refl)
    as (_ & Hclean & Hlog & _).
  - intros h Hh Hes.
    apply elem_of_cons in Hh as [-> | Hh]; [by eexists|].
    apply elem_of_cons in Hh as [-> | Hh]; [discriminate Hes|].
    by apply elem_of_nil in Hh.
  - split; [exact Hclean | exact Hlog].
Defined.

(** A storage configuration with no section at all: the action called
    with [None] cleans the one Elasticsearch handler with 7. *)
Lemma missing_es_section_defaults_witness :
  length (setup_periodic_tasks (env_es (es_section ∅)) (heap st0) []) = 2%nat ∧
  cleanup_calls
    (new_events st0 (metricbeat_rollover_celery (env_es (es_section ∅)) VNone st0).2) =
    [VInt 7].
Proof.
  destruct (missing_es_section_defaults (env_es (es_section ∅)) ∅ (heap st0) [] VNone st0
              (lookup_empty _) eq_refl eq_refl) as (_ & k & Hk & _ & Hall).
  split; [vm_compute; reflexivity|].
  rewrite Hk, Hall; [reflexivity|].
  intros h _ _. by eexists.
Defined.

(** With a retention of 0 days configured, a call with no days logs the
    [NameError] and returns. *)
Lemma rollover_days_resolution_witness :
  truthy (heap st0) (rollover_flag (env_es es_0)) = true ∧
  ∃ s',
    metricbeat_rollover_celery (env_es es_0) VNone st0 = (Ok VNone, s') ∧
    new_events st0 s' =
      [EvStorageOpen;
       EvLog WARNING "{}"
         [LExn (NameError "name 'days' is not defined, check storage.ini for 'metricbeat_rollover_days' setting")];
       EvStorageClose].
Proof.
  split; [reflexivity|].
  destruct (rollover_days_resolution (env_es es_0) VNone st0 eq_refl)
    as (mid & s' & Hrun & Hnew & Hmid).
  exists s'. split; [exact Hrun|].
  change (mid = [EvLog WARNING "{}"
                   [LExn (NameError "name 'days' is not defined, check storage.ini for 'metricbeat_rollover_days' setting")]])
    in Hmid.
  rewrite Hnew, Hmid. reflexivity.
Defined.


(** The first example records the scan configuration of its four modules. *)
Lemma scan_config_records_enabled_witness :
  ∃ lsc sc l,
    (heap (multiscanner_celery env0 args0 st0).2 !! 1%positive) ≫= (.!! "Scan Config") =
      Some (VRef lsc) ∧
    heap (multiscanner_celery env0 args0 st0).2 !! lsc = Some sc ∧
    sc !! "main" = None ∧
    sc !! "PEFile" = Some (VRef l) ∧
    heap (multiscanner_celery env0 args0 st0).2 !! l = Some {[ "ENABLED" := VBool false ]}.
Proof.
  destruct (scan_config_records_enabled env0 args0 st0 1%positive
              {[ "submitter" := VStr "alice"; "Task ID" := VInt 0 ]}
              (VRef 3%positive) (multiscanner_celery env0 args0 st0).2 eq_refl eq_refl)
    as (lsc & sc & Hconf & _ & Hsc & Hmain & Hkeys).
  { by vm_compute. }
  specialize (Hkeys "PEFile"). 
  assert (config_of env0 args0 !! "PEFile" = Some (module_section false)) as Hpe
    by (by vm_compute).
  rewrite Hpe in Hkeys.
  destruct Hkeys as (l & v & Hl & Hv & Hheap); [by intros [=]|].
  assert (v = VBool false) as -> by (vm_compute in Hv; by injection Hv).
  exists lsc, sc, l. by split_and!.
Defined.

(** A configuration whose [PEFile] section has no [ENABLED] fails the job. *)
Lemma missing_enabled_fails_job_witness :
  ∃ s',
    run_task env0 args_bad_config st0 = (Ok (FAILURE (KeyError "ENABLED")), s') ∧
    store_calls (new_events st0 s') = [] ∧
    final_status (VInt 7) (events s') = Some "Failed".
Proof.
  destruct (missing_enabled_fails_job env0 args_bad_config st0 _ "PEFile"
              {[ "path" := VStr "/opt/pefile" ]} eq_refl eq_refl)
    as (s' & Hrun & _ & Hstore & Hfinal).
  - by vm_compute.
  - by intros [=].
  - by vm_compute.
  - exists s'. by split_and!.
Defined.

(** A job submitted with [None] for its metadata fails. *)
Lemma job_needs_metadata_dict_witness :
  ∃ e s',
    run_task env0 args_no_metadata st0 = (Ok (FAILURE e), s') ∧
    store_calls (new_events st0 s') = [].
Proof.
  destruct (job_needs_metadata_dict env0 args_no_metadata st0 eq_refl)
    as (e & s' & Hrun & Hstore & _).
  exists e, s'. by split.
Defined.

(** The first example has two modules enabled out of four. *)
Lemma modules_enabled_within_total_witness :
  ∃ e t : Z,
    (heap (multiscanner_celery env0 args0 st0).2 !! 1%positive) ≫= (.!! "Modules Enabled") =
      Some (VStr (str_of_int e ++ " / " ++ str_of_int t)) ∧
    (0 ≤ e ≤ t)%Z ∧ t = 4.
Proof.
  destruct (modules_enabled_within_total env0 args0 st0 1%positive
              {[ "submitter" := VStr "alice"; "Task ID" := VInt 0 ]}
              (VRef 3%positive) (multiscanner_celery env0 args0 st0).2 eq_refl eq_refl)
    as (e & t & Hratio & Hle & Ht).
  - by vm_compute.
  - reflexivity.
  - eexists. vm_compute. reflexivity.
  - exists e, t. split; [exact Hratio|]. split; [exact Hle|].
    rewrite Ht. vm_compute. reflexivity.
Defined.

(** On a worker whose store writes to no backend the job fails; the
    caller's other object and the caller's [submitter] are as they were. *)
Lemma run_writes_metadata_only_witness :
  heap (run_task env_unpublished args0 st_two).2 !! 2%positive =
    Some {[ "owner" := VStr "bob" ]} ∧
  ∃ m', heap (run_task env_unpublished args0 st_two).2 !! 1%positive = Some m' ∧
        m' !! "submitter" = Some (VStr "alice").
Proof.
  destruct (run_writes_metadata_only env_unpublished args0 st_two 1%positive
              {[ "submitter" := VStr "alice"; "Task ID" := VInt 0 ]} eq_refl)
    as (Hother & m' & Hm' & Hkeys).
  { by vm_compute. }
  split.
  - rewrite Hother; [by vm_compute | | by intros [=]].
    apply elem_of_dom. eexists. by vm_compute.
  - exists m'. split; [exact Hm'|]. rewrite Hkeys; [by vm_compute|].
    intros Hin. repeat (apply elem_of_cons in Hin as [Hin|Hin]; [discriminate Hin|]).
    by apply elem_of_nil in Hin.
Defined.

(** Job 7 fails on a worker that has completed job 8: job 8 stays
    [Complete]. *)
Lemma run_updates_own_task_only_witness :
  final_status (VInt 8) (events (run_task env_unpublished args0 st_busy).2) =
    Some "Complete".
Proof.
  rewrite (run_updates_own_task_only env_unpublished args0 st_busy (VInt 8)).
  - vm_compute. reflexivity.
  - intros Heq. discriminate Heq.
Defined.
